(** * CostOptimizer: quota gate, complexity scorer and prompt budgeter

    A shallow embedding of [src/streamlit/src/ai/llm/optimizer.py].

    - Python [float] is IEEE-754 binary64, embedded with the executable
      specification [SpecFloat] of the Standard Library ([prec = 53],
      [emax = 1024], round to nearest even).
    - Python [int] is [Z]; [str] is [string], one character per element.
    - The analysis input is a JSON-like dynamic value; a [dict] is an
      association list in insertion order (the order in which
      [values()] iterates), looked up by its first binding.
    - Exceptions are a [result] monad; the wall clock
      ([datetime.now().date()]) is an explicit [today] argument, a
      calendar date being its ordinal in [Z].
    - [usage_history] is a finite map from dates to usage records.
    - Rounding errors are bounded over the reals: [F2R] is the real
      value of a float. *)

From Stdlib Require Import ZArith Lia Bool List String Ascii.
From Stdlib Require Import Floats.SpecFloat.
From Stdlib Require Import Reals Lra.
From stdpp Require Import gmap.
Import ListNotations.

#[local] Set Warnings "-register-all".
Local Open Scope Z_scope.

(** ** Exceptions *)

Inductive exn : Type :=
| TypeError
| AttributeError
| KeyError
| ZeroDivisionError
| OverflowError
| ValueError.

Inductive result (A : Type) : Type :=
| Ok (a : A)
| Raise (e : exn).

Arguments Ok {A} a.
Arguments Raise {A} e.

Definition bind {A B : Type} (r : result A) (k : A -> result B) : result B :=
  match r with
  | Ok a => k a
  | Raise e => Raise e
  end.

Notation "'let*' x ':=' r 'in' k" := (bind r (fun x => k))
  (at level 10, x name, r at level 100, k at level 200).
Notation "'let*' ' p ':=' r 'in' k" :=
  (bind r (fun x => let 'p := x in k))
  (at level 10, p pattern, r at level 100, k at level 200).

(** ** Binary64 arithmetic *)

Module F64.

Definition prec : Z := 53.
Definition emax : Z := 1024.

Definition float : Type := spec_float.

Definition add : float -> float -> float := SFadd prec emax.
Definition mul : float -> float -> float := SFmul prec emax.
Definition div : float -> float -> float := SFdiv prec emax.
Definition ltb : float -> float -> bool := SFltb.
Definition leb : float -> float -> bool := SFleb.
Definition eqb : float -> float -> bool := SFeqb.

(** [x > y] and [x != y] as Python evaluates them on floats. *)
Definition gtb (x y : float) : bool := ltb y x.
Definition neqb (x y : float) : bool := negb (eqb x y).

(** A float is a genuine binary64 value when its mantissa and
    exponent are in canonical form. *)
Definition valid (x : float) : bool := valid_binary prec emax x.

Definition is_finite (x : float) : bool :=
  match x with
  | S754_zero _ | S754_finite _ _ _ => true
  | _ => false
  end.

(** The nearest binary64 to an integer (ties to even); infinite when
    the integer is out of range. *)
Definition of_Z (z : Z) : float := binary_normalize prec emax z 0 false.

(** A decimal literal [n/d] denotes the binary64 nearest to it, which
    is the correctly rounded quotient of two exact integers. *)
Definition decimal (n d : Z) : float := div (of_Z n) (of_Z d).

Definition zero : float := S754_zero false.
Definition one : float := Eval vm_compute in of_Z 1.

(** The float literals of the source. *)
Definition lit_0_9 : float := Eval vm_compute in decimal 9 10.
Definition lit_0_8 : float := Eval vm_compute in decimal 8 10.
Definition lit_0_7 : float := Eval vm_compute in decimal 7 10.
Definition lit_0_6 : float := Eval vm_compute in decimal 6 10.
Definition lit_0_5 : float := Eval vm_compute in decimal 5 10.
Definition lit_0_2 : float := Eval vm_compute in decimal 2 10.

(** Literals that only the specification mentions. *)
Definition lit_0_45 : float := Eval vm_compute in decimal 45 100.
Definition lit_0_4 : float := Eval vm_compute in decimal 4 10.
Definition lit_0_15 : float := Eval vm_compute in decimal 15 100.

End F64.

Abbreviation float := F64.float.

(** ** Python numbers *)

(** [float(z)] for an [int]: raises [OverflowError] when [z] is too
    large for a binary64. *)
Definition float_of_int (z : Z) : result float :=
  let f := F64.of_Z z in
  if F64.is_finite f then Ok f else Raise OverflowError.

(** [a / b] on two [int]s: the correctly rounded quotient of the exact
    integers. *)
Definition int_true_div (a b : Z) : result float :=
  if b =? 0 then Raise ZeroDivisionError
  else
    let negate := xorb (a <? 0) (b <? 0) in
    if a =? 0 then Ok (S754_zero negate)
    else
      let '(q, e, l) :=
        SFdiv_core_binary F64.prec F64.emax (Z.abs a) 0 (Z.abs b) 0 in
      let f := binary_round_aux F64.prec F64.emax negate q e l in
      if F64.is_finite f then Ok f else Raise OverflowError.

(** [int(x)] for a float: truncation toward zero. *)
Definition int_of_float (x : float) : result Z :=
  match x with
  | S754_zero _ => Ok 0
  | S754_finite s m e =>
      let a := if 0 <=? e then Z.pos m * 2 ^ e else Z.pos m / 2 ^ (- e) in
      Ok (if s then - a else a)
  | S754_infinity _ => Raise OverflowError
  | S754_nan => Raise ValueError
  end.

(** ** Dynamic values *)

(** The values an analysis mapping is made of.  A [PDict] lists its
    items in insertion order; a well-formed one has distinct keys. *)
Inductive pyval : Type :=
| PNone
| PBool (b : bool)
| PInt (z : Z)
| PFloat (f : float)
| PStr (s : string)
| PList (l : list pyval)
| PDict (d : list (string * pyval)).

Definition empty_dict : pyval := PDict [].

Fixpoint assoc (k : string) (d : list (string * pyval)) : option pyval :=
  match d with
  | [] => None
  | (k', v) :: d' => if String.eqb k k' then Some v else assoc k d'
  end.

Definition dict_wf (d : list (string * pyval)) : Prop := NoDup (map fst d).

(** [needle in hay] on two strings: [needle] occurs as a substring. *)
Fixpoint str_contains (needle hay : string) : bool :=
  if String.prefix needle hay then true
  else
    match hay with
    | EmptyString => false
    | String _ hay' => str_contains needle hay'
    end.

(** [v.get(k, default)] *)
Definition py_get (v : pyval) (k : string) (default : pyval) : result pyval :=
  match v with
  | PDict d => Ok (match assoc k d with Some x => x | None => default end)
  | _ => Raise AttributeError
  end.

(** [k in v] for a string [k] *)
Definition py_contains (k : string) (v : pyval) : result bool :=
  match v with
  | PDict d => Ok (match assoc k d with Some _ => true | None => false end)
  | PStr s => Ok (str_contains k s)
  | PList l =>
      Ok (existsb (fun x => match x with
                            | PStr s => String.eqb k s
                            | _ => false
                            end) l)
  | _ => Raise TypeError
  end.

(** [v[k]] for a string [k] *)
Definition py_getitem (v : pyval) (k : string) : result pyval :=
  match v with
  | PDict d => match assoc k d with Some x => Ok x | None => Raise KeyError end
  | _ => Raise TypeError
  end.

(** [v.values()] *)
Definition py_values (v : pyval) : result (list pyval) :=
  match v with
  | PDict d => Ok (map snd d)
  | _ => Raise AttributeError
  end.

(** Truth value of [v], as tested by [not v]. *)
Definition py_truthy (v : pyval) : bool :=
  match v with
  | PNone => false
  | PBool b => b
  | PInt z => negb (z =? 0)
  | PFloat f => F64.neqb f F64.zero
  | PStr s => negb (String.eqb s EmptyString)
  | PList l => match l with [] => false | _ => true end
  | PDict d => match d with [] => false | _ => true end
  end.

(** [len(v)] *)
Definition py_len (v : pyval) : result Z :=
  match v with
  | PStr s => Ok (Z.of_nat (String.length s))
  | PList l => Ok (Z.of_nat (List.length l))
  | PDict d => Ok (Z.of_nat (List.length d))
  | _ => Raise TypeError
  end.

(** Comparisons of a value with a small integer literal [k] (exactly
    representable as a float, so that comparing a float with [k] is
    comparing it with [float(k)]). *)
Definition py_gt_int (v : pyval) (k : Z) : result bool :=
  match v with
  | PInt z => Ok (k <? z)
  | PBool b => Ok (k <? Z.b2z b)
  | PFloat f => Ok (F64.gtb f (F64.of_Z k))
  | _ => Raise TypeError
  end.

Definition py_lt_int (v : pyval) (k : Z) : result bool :=
  match v with
  | PInt z => Ok (z <? k)
  | PBool b => Ok (Z.b2z b <? k)
  | PFloat f => Ok (F64.ltb f (F64.of_Z k))
  | _ => Raise TypeError
  end.

(** [v != k]: values of other types are simply different from [k]. *)
Definition py_ne_int (v : pyval) (k : Z) : bool :=
  match v with
  | PInt z => negb (z =? k)
  | PBool b => negb (Z.b2z b =? k)
  | PFloat f => F64.neqb f (F64.of_Z k)
  | _ => true
  end.

(** [a + b] on numbers. *)
Definition py_add (a b : pyval) : result pyval :=
  let as_num v :=
    match v with
    | PInt z => Some (inl z)
    | PBool b => Some (inl (Z.b2z b))
    | PFloat f => Some (inr f)
    | _ => None
    end in
  match as_num a, as_num b with
  | Some (inl x), Some (inl y) => Ok (PInt (x + y))
  | Some (inl x), Some (inr g) =>
      let* f := float_of_int x in Ok (PFloat (F64.add f g))
  | Some (inr f), Some (inl y) =>
      let* g := float_of_int y in Ok (PFloat (F64.add f g))
  | Some (inr f), Some (inr g) => Ok (PFloat (F64.add f g))
  | _, _ => Raise TypeError
  end.

(** [sum(vs)]: additions from the left, starting from the integer 0. *)
Fixpoint py_sum_from (acc : pyval) (vs : list pyval) : result pyval :=
  match vs with
  | [] => Ok acc
  | v :: vs' => let* acc' := py_add acc v in py_sum_from acc' vs'
  end.

Definition py_sum (vs : list pyval) : result pyval := py_sum_from (PInt 0) vs.

(** [sum(xs)] on a list of floats. *)
Definition float_sum (xs : list float) : result float :=
  let* s := py_sum (map PFloat xs) in
  match s with
  | PFloat f => Ok f
  | PInt z => float_of_int z
  | _ => Raise TypeError
  end.

(** ** The optimizer object *)

(** A calendar date, as its proleptic ordinal. *)
Abbreviation date := Z (only parsing).

(** One entry of [usage_history]:
    [{"requests": _, "tokens": _, "cost": _}]. *)
Record UsageRecord : Type := mkUsage {
  requests : Z;
  tokens : Z;
  cost : float
}.

Definition zero_usage : UsageRecord :=
  {| requests := 0; tokens := 0; cost := F64.zero |}.

(** The optional keys of the [config] mapping. *)
Record Config : Type := mkConfig {
  cfg_max_requests_per_day : option Z;
  cfg_token_buffer : option float;
  cfg_complexity_threshold : option float
}.

Definition empty_config : Config :=
  {| cfg_max_requests_per_day := None;
     cfg_token_buffer := None;
     cfg_complexity_threshold := None |}.

Record CostOptimizer : Type := mkCostOptimizer {
  max_daily_requests : Z;
  token_buffer : float;
  complexity_threshold : float;
  usage_history : gmap Z UsageRecord;
  last_reset : Z
}.

(** [CostOptimizer(config)], constructed on the date [today]. *)
Definition __init__ (config : option Config) (today : date) : CostOptimizer :=
  let config := match config with Some c => c | None => empty_config end in
  {| max_daily_requests := default 100 (cfg_max_requests_per_day config);
     token_buffer := default F64.lit_0_9 (cfg_token_buffer config);
     complexity_threshold := default F64.lit_0_2 (cfg_complexity_threshold config);
     usage_history := ∅;
     last_reset := today |}.

(** [track_usage(tokens_used, cost)] on the date [today]. *)
Definition track_usage (self : CostOptimizer) (today : date)
    (tokens_used : Z) (cost_ : float) : CostOptimizer :=
  (* reset daily tracking if needed *)
  let '(history, reset) :=
    if last_reset self <? today then (∅, today)
    else (usage_history self, last_reset self) in
  (* update usage stats *)
  let history :=
    match history !! today with
    | Some _ => history
    | None => <[today := zero_usage]> history
    end in
  let history :=
    alter (fun u => {| requests := requests u + 1;
                       tokens := tokens u;
                       cost := cost u |}) today history in
  let history :=
    alter (fun u => {| requests := requests u;
                       tokens := tokens u + tokens_used;
                       cost := cost u |}) today history in
  let history :=
    alter (fun u => {| requests := requests u;
                       tokens := tokens u;
                       cost := F64.add (cost u) cost_ |}) today history in
  {| max_daily_requests := max_daily_requests self;
     token_buffer := token_buffer self;
     complexity_threshold := complexity_threshold self;
     usage_history := history;
     last_reset := reset |}.

(** [get_usage_stats()] on the date [today]. *)
Definition get_usage_stats (self : CostOptimizer) (today : date) : UsageRecord :=
  default zero_usage (usage_history self !! today).

(** [_check_daily_quota()] on the date [today]. *)
Definition _check_daily_quota (self : CostOptimizer) (today : date) : bool :=
  let current_requests :=
    match usage_history self !! today with
    | Some u => requests u
    | None => 0
    end in
  current_requests <? max_daily_requests self.

(** ** Complexity scoring *)

Local Open Scope string_scope.
Local Open Scope Z_scope.

(** The running [score] and [factors] of a sub-score. *)
Definition acc : Type := (float * Z)%type.

Definition acc0 : acc := (F64.zero, 0).

(** [score / factors if factors > 0 else 0.0] *)
Definition finish (a : acc) : result float :=
  let '(score, factors) := a in
  if 0 <? factors then
    let* f := float_of_int factors in Ok (F64.div score f)
  else Ok F64.zero.

(** Meta tags complexity. *)
Definition meta_tags_factor (tech_data : pyval) (a : acc) : result acc :=
  let '(score, factors) := a in
  let* present := py_contains "meta_tags" tech_data in
  if present then
    let* meta_tags := py_getitem tech_data "meta_tags" in
    let* description := py_get meta_tags "meta_description" PNone in
    let score :=
      if negb (py_truthy description) then F64.add score F64.lit_0_8 else score in
    let* title := py_get meta_tags "title" (PStr "") in
    let* n := py_len title in
    let score := if 60 <? n then F64.add score F64.lit_0_6 else score in
    Ok (score, factors + 2)
  else Ok (score, factors).

(** Heading structure complexity. *)
Definition headings_factor (tech_data : pyval) (a : acc) : result acc :=
  let '(score, factors) := a in
  let* present := py_contains "headings" tech_data in
  if present then
    let* headings := py_getitem tech_data "headings" in
    let* h1 := py_get headings "h1" (PInt 0) in
    let score := if py_ne_int h1 1 then F64.add score F64.lit_0_7 else score in
    let* counts := py_values headings in
    let* total := py_sum counts in
    let* many := py_gt_int total 15 in
    let score := if many then F64.add score F64.lit_0_5 else score in
    Ok (score, factors + 2)
  else Ok (score, factors).

Definition _calculate_technical_complexity (tech_data : pyval) : result float :=
  let* a := meta_tags_factor tech_data acc0 in
  let* a := headings_factor tech_data a in
  finish a.

(** Content length complexity. *)
Definition content_length_factor (content_data : pyval) (a : acc) : result acc :=
  let '(score, factors) := a in
  let* present := py_contains "content" content_data in
  if present then
    let* content := py_getitem content_data "content" in
    let* word_count := py_get content "word_count" (PInt 0) in
    let* long := py_gt_int word_count 1000 in
    let* score :=
      if long then Ok (F64.add score F64.lit_0_8)
      else
        let* short := py_lt_int word_count 300 in
        if short then Ok (F64.add score F64.lit_0_6) else Ok score in
    Ok (score, factors + 1)
  else Ok (score, factors).

(** Structure complexity. *)
Definition content_structure_factor (content_data : pyval) (a : acc) : result acc :=
  let '(score, factors) := a in
  let* content := py_get content_data "content" empty_dict in
  let* present := py_contains "paragraphs" content in
  if present then
    let* content := py_getitem content_data "content" in
    let* paragraphs := py_getitem content "paragraphs" in
    let* many := py_gt_int paragraphs 10 in
    let score := if many then F64.add score F64.lit_0_7 else score in
    Ok (score, factors + 1)
  else Ok (score, factors).

Definition _calculate_content_complexity (content_data : pyval) : result float :=
  let* a := content_length_factor content_data acc0 in
  let* a := content_structure_factor content_data a in
  finish a.

(** Total backlinks. *)
Definition total_links_factor (moz_data : pyval) (a : acc) : result acc :=
  let '(score, factors) := a in
  let* metrics := py_get moz_data "metrics" empty_dict in
  let* total_links := py_get metrics "total_links" (PInt 0) in
  let* few := py_lt_int total_links 10 in
  let* score :=
    if few then Ok (F64.add score F64.lit_0_9)
    else
      let* many := py_gt_int total_links 50 in
      if many then Ok (F64.add score F64.lit_0_5) else Ok score in
  Ok (score, factors + 1).

(** Spam score consideration. *)
Definition spam_score_factor (moz_data : pyval) (a : acc) : result acc :=
  let '(score, factors) := a in
  let* metrics := py_get moz_data "metrics" empty_dict in
  let* spam_score := py_get metrics "spam_score" (PInt 0) in
  let* high := py_gt_int spam_score 20 in
  let score := if high then F64.add score F64.lit_0_7 else score in
  Ok (score, factors + 1).

Definition _calculate_backlink_complexity (moz_data : pyval) : result float :=
  let* a := total_links_factor moz_data acc0 in
  let* a := spam_score_factor moz_data a in
  finish a.

(** [sum(scores) / len(scores)], or [0.0] for an empty list. *)
Definition average (complexity_scores : list float) : result float :=
  match complexity_scores with
  | [] => Ok F64.zero
  | _ =>
      let* total := float_sum complexity_scores in
      let* n := float_of_int (Z.of_nat (List.length complexity_scores)) in
      Ok (F64.div total n)
  end.

Definition _calculate_complexity (data : pyval) : result float :=
  let* tech_data := py_get data "technical_seo" empty_dict in
  let* tech_score := _calculate_technical_complexity tech_data in
  let* content_data := py_get data "scraped_data" empty_dict in
  let* content_score := _calculate_content_complexity content_data in
  let* moz_data := py_get data "moz_data" empty_dict in
  let* backlink_score := _calculate_backlink_complexity moz_data in
  average [tech_score; content_score; backlink_score].

(** [should_use_llm(data)] on the date [today]. *)
Definition should_use_llm (self : CostOptimizer) (today : date) (data : pyval)
    : result bool :=
  (* check daily quota *)
  if negb (_check_daily_quota self today) then Ok false
  else
    (* check data complexity *)
    let* complexity_score := _calculate_complexity data in
    if F64.gtb complexity_score (F64.mul (complexity_threshold self) F64.lit_0_8)
    then Ok true
    else Ok true.

(** ** Prompt budgeting *)

(** [len(text) // 4] *)
Definition estimate_tokens (text : string) : Z :=
  Z.of_nat (String.length text) / 4.

(** [text[:n]]: a negative [n] counts from the end. *)
Definition slice_to (text : string) (n : Z) : string :=
  let len := Z.of_nat (String.length text) in
  let stop := if n <? 0 then Z.max 0 (len + n) else Z.min n len in
  String.substring 0 (Z.to_nat stop) text.

(** [int(len(prompt) * ratio * self.token_buffer)] with
    [ratio = max_tokens / estimated_tokens]. *)
Definition truncate_length (self : CostOptimizer) (prompt : string)
    (max_tokens : Z) : result Z :=
  let estimated_tokens := estimate_tokens prompt in
  let* ratio := int_true_div max_tokens estimated_tokens in
  let* len := float_of_int (Z.of_nat (String.length prompt)) in
  int_of_float (F64.mul (F64.mul len ratio) (token_buffer self)).

(** [optimize_prompt(prompt, max_tokens)] *)
Definition optimize_prompt (self : CostOptimizer) (prompt : string)
    (max_tokens : Z) : result string :=
  let estimated_tokens := estimate_tokens prompt in
  if estimated_tokens <=? max_tokens then Ok prompt
  else
    let* n := truncate_length self prompt max_tokens in
    Ok (slice_to prompt n).

(** ** Well-typed analysis inputs *)

(** An analysis input is a mapping whose optional sections are mappings
    and which holds numbers where the scorer expects numbers: heading
    levels are integer counts, the other metrics integers or floats,
    and a title is a string. *)

Definition is_int (v : pyval) : bool :=
  match v with PInt _ => true | _ => false end.

Definition is_number (v : pyval) : bool :=
  match v with PInt _ | PFloat _ => true | _ => false end.

Definition is_str (v : pyval) : bool :=
  match v with PStr _ => true | _ => false end.

(** The key [k] is absent from [d], or bound to a value satisfying [p]. *)
Definition optional (k : string) (p : pyval -> bool)
    (d : list (string * pyval)) : bool :=
  match assoc k d with
  | Some v => p v
  | None => true
  end.

Definition is_meta_tags (v : pyval) : bool :=
  match v with
  | PDict d => optional "title" is_str d
  | _ => false
  end.

Definition is_headings (v : pyval) : bool :=
  match v with
  | PDict d => forallb is_int (map snd d)
  | _ => false
  end.

Definition is_technical_seo (v : pyval) : bool :=
  match v with
  | PDict d => optional "meta_tags" is_meta_tags d
               && optional "headings" is_headings d
  | _ => false
  end.

Definition is_content (v : pyval) : bool :=
  match v with
  | PDict d => optional "word_count" is_number d
               && optional "paragraphs" is_number d
  | _ => false
  end.

Definition is_scraped_data (v : pyval) : bool :=
  match v with
  | PDict d => optional "content" is_content d
  | _ => false
  end.

Definition is_metrics (v : pyval) : bool :=
  match v with
  | PDict d => optional "total_links" is_number d
               && optional "spam_score" is_number d
  | _ => false
  end.

Definition is_moz_data (v : pyval) : bool :=
  match v with
  | PDict d => optional "metrics" is_metrics d
  | _ => false
  end.

Definition well_typed (data : pyval) : bool :=
  match data with
  | PDict d => optional "technical_seo" is_technical_seo d
               && optional "scraped_data" is_scraped_data d
               && optional "moz_data" is_moz_data d
  | _ => false
  end.

(** ** Scores as functions of the tests that fired *)

Definition add_if (b : bool) (x : float) (score : float) : float :=
  if b then F64.add score x else score.

(** Outcome of a block guarded by a presence test: the [n] factors are
    counted and the score becomes [score'] when the section is there. *)
Definition gated (present : bool) (n : Z) (score' : float) (a : acc) : acc :=
  if present then (score', snd a + n) else a.

Definition in_unit_interval (x : float) : bool :=
  F64.leb F64.zero x && F64.leb x F64.one.

Definition finish_total (a : acc) : float :=
  match finish a with Ok x => x | Raise _ => S754_nan end.

Definition technical_of (p1 b1 b2 p2 b3 b4 : bool) : acc :=
  let a := gated p1 2 (add_if b2 F64.lit_0_6 (add_if b1 F64.lit_0_8 F64.zero)) acc0 in
  gated p2 2 (add_if b4 F64.lit_0_5 (add_if b3 F64.lit_0_7 (fst a))) a.

Definition content_of (p1 long short p2 many : bool) : acc :=
  let a :=
    gated p1 1
      (if long then F64.add F64.zero F64.lit_0_8
       else add_if short F64.lit_0_6 F64.zero) acc0 in
  gated p2 1 (add_if many F64.lit_0_7 (fst a)) a.

Definition backlink_of (few many high : bool) : acc :=
  let s := if few then F64.add F64.zero F64.lit_0_9
           else add_if many F64.lit_0_5 F64.zero in
  (add_if high F64.lit_0_7 s, 2).

(** The overall score, given the three sub-scores. *)
Definition complexity_of (t c b : float) : float :=
  match average [t; c; b] with
  | Ok x => x
  | Raise _ => S754_nan
  end.

(** Structural equality of floats, to list distinct values. *)
Definition float_beq (x y : float) : bool :=
  match x, y with
  | S754_zero s, S754_zero s' => Bool.eqb s s'
  | S754_infinity s, S754_infinity s' => Bool.eqb s s'
  | S754_nan, S754_nan => true
  | S754_finite s m e, S754_finite s' m' e' =>
      Bool.eqb s s' && Pos.eqb m m' && Z.eqb e e'
  | _, _ => false
  end.

Fixpoint distinct (xs : list float) : list float :=
  match xs with
  | [] => []
  | x :: xs' =>
      if existsb (float_beq x) xs' then distinct xs' else x :: distinct xs'
  end.

Definition bools : list bool := [true; false].

(** The values each sub-score can take. *)
Definition technical_values : list float :=
  Eval vm_compute in
  distinct
    (p1 ← bools; b1 ← bools; b2 ← bools;
     p2 ← bools; b3 ← bools; b4 ← bools;
     [finish_total (technical_of p1 b1 b2 p2 b3 b4)]).

Definition content_values : list float :=
  Eval vm_compute in
  distinct
    (q1 ← bools; long ← bools; short ← bools;
     q2 ← bools; paras ← bools;
     [finish_total (content_of q1 long short q2 paras)]).

Definition backlink_values : list float :=
  Eval vm_compute in
  distinct
    (few ← bools; many ← bools; high ← bools;
     [finish_total (backlink_of few many high)]).

(** Every combination of sub-scores gives an overall score in [[0, 1]]. *)
Definition all_scores_in_unit_interval : bool :=
  forallb (fun t =>
    forallb (fun c =>
      forallb (fun b => in_unit_interval (complexity_of t c b))
        backlink_values)
      content_values)
    technical_values.

(** ** Sequences of calls *)

(** The record after one more request of [tokens_used] tokens and the
    given cost. *)
Definition bump (u : UsageRecord) (tokens_used : Z) (cost_ : float) : UsageRecord :=
  {| requests := requests u + 1;
     tokens := tokens u + tokens_used;
     cost := F64.add (cost u) cost_ |}.

(** Successive [track_usage] calls, all on the date [today], with the
    listed [(tokens_used, cost)] arguments. *)
Definition track_all (self : CostOptimizer) (today : date)
    (calls : list (Z * float)) : CostOptimizer :=
  fold_left (fun s call => track_usage s today (fst call) (snd call)) calls self.

(** A freshly constructed optimizer has recorded nothing. *)
Definition fresh (self : CostOptimizer) : Prop := usage_history self = ∅.

(** The states an optimizer goes through when the clock never runs
    backwards: it is constructed on some date, and each [track_usage]
    happens on a date that is not before the last reset. *)
Inductive reachable : CostOptimizer -> Prop :=
| reachable_init config today :
    reachable (__init__ config today)
| reachable_track self today tokens_used cost_ :
    reachable self ->
    last_reset self <= today ->
    reachable (track_usage self today tokens_used cost_).

(** ** Sample inputs *)

(** An input whose only content is [moz_data.metrics.total_links = 5]. *)
Definition only_total_links_5 : pyval :=
  PDict [("moz_data", PDict [("metrics", PDict [("total_links", PInt 5)])])].

(** A configuration with a daily quota of two requests. *)
Definition quota_two : Config :=
  {| cfg_max_requests_per_day := Some 2;
     cfg_token_buffer := None;
     cfg_complexity_threshold := None |}.

(** A scraped page whose content section only has a word count. *)
Definition content_with_words (w : Z) : pyval :=
  PDict [("content", PDict [("word_count", PInt w)])].

(** A prompt of [n] characters. *)
Fixpoint prompt_of_length (n : nat) : string :=
  match n with
  | O => EmptyString
  | S n' => String "a"%char (prompt_of_length n')
  end.

(** A configuration with no safety margin: [token_buffer = 1.0]. *)
Definition buffer_one : Config :=
  {| cfg_max_requests_per_day := None;
     cfg_token_buffer := Some F64.one;
     cfg_complexity_threshold := None |}.

(** ** Real values of floats *)

Definition bpow (e : Z) : R := powerRZ 2 e.

(** The real number a finite float stands for. *)
Definition F2R (x : float) : R :=
  match x with
  | S754_finite s m e =>
      (if s then - IZR (Z.pos m) else IZR (Z.pos m)) * bpow e
  | _ => 0%R
  end.

Definition nonneg_finite (x : float) : bool :=
  match x with
  | S754_zero _ => true
  | S754_finite s _ _ => negb s
  | _ => false
  end.

(** The relative rounding unit and the smallest positive binary64. *)
Definition eps : R := bpow (-52).
Definition eta : R := bpow (-1074).

(** By how many bits [shr_fexp] shifts a mantissa [m] at exponent [e]. *)
Definition shift_of (m e : Z) : Z :=
  Z.max 0 (fexp F64.prec F64.emax (Zdigits2 m + e) - e).

(** Whether rounding can add a unit to the shifted mantissa. *)
Definition slack (n : Z) (l : location) : Z :=
  match l with
  | loc_Exact => if n =? 0 then 0 else 1
  | loc_Inexact _ => 1
  end.

(** ** Histories of calls *)

(** A [track_usage] call: its date and its two arguments. *)
Definition event : Type := (Z * Z * float)%type.

Definition event_date (e : event) : Z := fst (fst e).
Definition event_tokens (e : event) : Z := snd (fst e).
Definition event_cost (e : event) : float := snd e.

(** The [track_usage] calls of [events], one after the other. *)
Definition track_events (self : CostOptimizer) (events : list event)
    : CostOptimizer :=
  fold_left
    (fun s e => track_usage s (event_date e) (event_tokens e) (event_cost e))
    events self.

(** The clock never runs backwards: the dates of [events] do not
    decrease, and none is before [start]. *)
Fixpoint clock_monotone (start : Z) (events : list event) : bool :=
  match events with
  | [] => true
  | e :: events' =>
      (start <=? event_date e) && clock_monotone (event_date e) events'
  end.

(** The date of the last call, or [start] when there was none. *)
Definition last_date (start : Z) (events : list event) : Z :=
  fold_left (fun _ e => event_date e) events start.

(** The calls made on the date [d]. *)
Definition on_date (d : Z) (events : list event) : list event :=
  List.filter (fun e => event_date e =? d) events.

(** The totals of a list of calls, added in order to the record [u]. *)
Definition totals (u : UsageRecord) (events : list event) : UsageRecord :=
  fold_left (fun u e => bump u (event_tokens e) (event_cost e)) events u.

Definition sum_tokens (events : list event) : Z :=
  fold_right (fun e n => event_tokens e + n) 0 events.

(** Whatever the clock does, a record is dated no later than the last
    reset and counts at least one request. *)
Definition history_ok (self : CostOptimizer) : Prop :=
  forall d u, usage_history self !! d = Some u ->
              d <= last_reset self /\ 1 <= requests u.

(** ** Score tables *)

(** More float literals: the doubles nearest to the decimals. *)
Definition lit_0_75 : float := Eval vm_compute in F64.decimal 75 100.
Definition lit_0_35 : float := Eval vm_compute in F64.decimal 35 100.
Definition lit_0_3 : float := Eval vm_compute in F64.decimal 3 10.
Definition lit_0_25 : float := Eval vm_compute in F64.decimal 25 100.
Definition lit_0_125 : float := Eval vm_compute in F64.decimal 125 1000.
Definition lit_0_77 : float := Eval vm_compute in F64.decimal 77 100.

(** [(0.6 + 0.7) / 2] in binary64: the double just below 0.65. *)
Definition lit_0_65_below : float :=
  Eval vm_compute in
  F64.div (F64.add F64.lit_0_6 F64.lit_0_7) (F64.of_Z 2).

(** The backlink sub-score for [total_links = t] and [spam_score = s]. *)
Definition backlink_table (t s : Z) : float :=
  if t <? 10 then (if 20 <? s then F64.lit_0_8 else F64.lit_0_45)
  else if 50 <? t then (if 20 <? s then F64.lit_0_6 else lit_0_25)
  else (if 20 <? s then lit_0_35 else F64.zero).

(** The content sub-score for [word_count = w] when the content
    section has no paragraph count. *)
Definition words_table (w : Z) : float :=
  if 1000 <? w then F64.lit_0_8
  else if w <? 300 then F64.lit_0_6
  else F64.zero.

(** The content sub-score for [word_count = w] and [paragraphs = p]. *)
Definition content_table (w p : Z) : float :=
  if 1000 <? w then (if 10 <? p then lit_0_75 else F64.lit_0_4)
  else if w <? 300 then (if 10 <? p then lit_0_65_below else lit_0_3)
  else (if 10 <? p then lit_0_35 else F64.zero).

(** The largest overall score: [(0 + 0.7 + 0.8 + 0.8) / 3]. *)
Definition max_complexity : float :=
  Eval vm_compute in complexity_of F64.lit_0_7 F64.lit_0_8 F64.lit_0_8.

Definition all_scores_at_most (bound : float) : bool :=
  forallb (fun t =>
    forallb (fun c =>
      forallb (fun b => F64.leb (complexity_of t c b) bound)
        backlink_values)
      content_values)
    technical_values.

(** The overall scores with a backlink sub-score of 0.45 are at least
    [bound]. *)
Definition all_scores_without_backlinks_at_least (bound : float) : bool :=
  forallb (fun t =>
    forallb (fun c => F64.leb bound (complexity_of t c F64.lit_0_45))
      content_values)
    technical_values.

(** A page with every defect the scorer looks for, except that it has
    no heading and no paragraph count. *)
Definition worst_case_input : pyval :=
  PDict
    [("technical_seo",
      PDict [("meta_tags",
              PDict [("title",
                      PStr (prompt_of_length 61))])]);
     ("scraped_data",
      PDict [("content", PDict [("word_count", PInt 1001)])]);
     ("moz_data",
      PDict [("metrics",
              PDict [("total_links", PInt 9); ("spam_score", PInt 21)])])].

(** Values the comparisons of the scorer accept: [bool] is an [int]. *)
Definition py_is_number (v : pyval) : bool :=
  match v with
  | PInt _ | PBool _ | PFloat _ => true
  | _ => false
  end.

Definition is_dict (v : pyval) : bool :=
  match v with PDict _ => true | _ => false end.

(** The four defects the technical sub-score looks for, when both the
    meta-tags mapping [m] and the headings mapping [h] are there. *)
Definition missing_description (m : list (string * pyval)) : bool :=
  negb (py_truthy (match assoc "meta_description" m with
                   | Some v => v
                   | None => PNone
                   end)).

Definition sum_ints (vs : list pyval) : Z :=
  fold_right (fun v n => match v with PInt z => z + n | _ => n end) 0 vs.

(** * Properties *)

(** ** Scoring of well-typed inputs *)

Ltac in_list := repeat (first [left; reflexivity | right]).

Lemma optional_some k p d v :
  optional k p d = true -> assoc k d = Some v -> p v = true.
Proof. unfold optional. intros H E. rewrite E in H. exact H. Qed.

Lemma py_sum_from_ints (vs : list pyval) :
  forallb is_int vs = true ->
  forall a, exists z, py_sum_from (PInt a) vs = Ok (PInt z).
Proof.
  induction vs as [|v vs IH]; intros H a.
  - exists a. reflexivity.
  - cbn [forallb] in H. apply andb_true_iff in H. destruct H as [Hv Hvs].
    destruct v; try discriminate Hv.
    cbn [py_sum_from py_add bind]. apply IH, Hvs.
Qed.

Lemma is_number_gt v k : is_number v = true -> exists b, py_gt_int v k = Ok b.
Proof. destruct v; try discriminate; intros _; eexists; reflexivity. Qed.

Lemma is_number_lt v k : is_number v = true -> exists b, py_lt_int v k = Ok b.
Proof. destruct v; try discriminate; intros _; eexists; reflexivity. Qed.

Lemma meta_tags_factor_wt d a :
  optional "meta_tags" is_meta_tags d = true ->
  exists p b1 b2,
    meta_tags_factor (PDict d) a =
    Ok (gated p 2 (add_if b2 F64.lit_0_6 (add_if b1 F64.lit_0_8 (fst a))) a).
Proof.
  intros H. destruct a as [score factors]. unfold meta_tags_factor.
  cbn [py_contains bind py_getitem].
  destruct (assoc "meta_tags" d) as [m|] eqn:E.
  - apply (optional_some _ _ _ _ H) in E as Hm.
    destruct m as [| | | | | |m]; try discriminate Hm. cbn [is_meta_tags] in Hm.
    cbn [bind py_get].
    assert (exists n, py_len (match assoc "title" m with Some x => x | None => PStr "" end) = Ok n)
      as [n Hn].
    { destruct (assoc "title" m) as [t|] eqn:Et.
      - apply (optional_some _ _ _ _ Hm) in Et. destruct t; try discriminate Et.
        eexists; reflexivity.
      - eexists; reflexivity. }
    rewrite Hn. cbn [bind].
    exists true. eexists. exists (60 <? n). reflexivity.
  - exists false, false, false. reflexivity.
Qed.

Lemma headings_factor_wt d a :
  optional "headings" is_headings d = true ->
  exists p b3 b4,
    headings_factor (PDict d) a =
    Ok (gated p 2 (add_if b4 F64.lit_0_5 (add_if b3 F64.lit_0_7 (fst a))) a).
Proof.
  intros H. destruct a as [score factors]. unfold headings_factor.
  cbn [py_contains bind py_getitem].
  destruct (assoc "headings" d) as [h|] eqn:E.
  - apply (optional_some _ _ _ _ H) in E as Hh.
    destruct h as [| | | | | |h]; try discriminate Hh. cbn [is_headings] in Hh.
    cbn [bind py_get py_values]. unfold py_sum.
    destruct (py_sum_from_ints _ Hh 0) as [z Hz]. rewrite Hz.
    cbn [bind py_gt_int].
    exists true. eexists. exists (15 <? z). reflexivity.
  - exists false, false, false. reflexivity.
Qed.

Lemma technical_wt v :
  is_technical_seo v = true ->
  exists p1 b1 b2 p2 b3 b4,
    _calculate_technical_complexity v =
    Ok (finish_total (technical_of p1 b1 b2 p2 b3 b4)).
Proof.
  destruct v as [| | | | | |d]; try discriminate. cbn [is_technical_seo].
  intros H. apply andb_true_iff in H. destruct H as [Hm Hh].
  unfold _calculate_technical_complexity.
  destruct (meta_tags_factor_wt d acc0 Hm) as (p1 & b1 & b2 & E1). rewrite E1.
  cbn [bind].
  match goal with |- context [headings_factor _ ?a] =>
    destruct (headings_factor_wt d a Hh) as (p2 & b3 & b4 & E2) end.
  rewrite E2. cbn [bind].
  exists p1, b1, b2, p2, b3, b4.
  destruct p1, b1, b2, p2, b3, b4; vm_compute; reflexivity.
Qed.

Lemma default_number k d :
  optional k is_number d = true ->
  is_number (match assoc k d with Some x => x | None => PInt 0 end) = true.
Proof. unfold optional. destruct (assoc k d); auto. Qed.

Lemma content_length_factor_wt d a :
  optional "content" is_content d = true ->
  exists (p long short : bool),
    content_length_factor (PDict d) a =
    Ok (gated p 1 (if long then F64.add (fst a) F64.lit_0_8
                   else add_if short F64.lit_0_6 (fst a)) a).
Proof.
  intros H. destruct a as [score factors]. unfold content_length_factor.
  cbn [py_contains bind py_getitem].
  destruct (assoc "content" d) as [c|] eqn:E.
  - apply (optional_some _ _ _ _ H) in E as Hc.
    destruct c as [| | | | | |c]; try discriminate Hc. cbn [is_content] in Hc.
    apply andb_true_iff in Hc. destruct Hc as [Hw _].
    apply default_number in Hw.
    cbn [bind py_get].
    destruct (is_number_gt _ 1000 Hw) as [long Hlong].
    destruct (is_number_lt _ 300 Hw) as [short Hshort].
    rewrite Hlong. cbn [bind]. exists true, long, short.
    destruct long; [reflexivity|]. rewrite Hshort. cbn [bind].
    destruct short; reflexivity.
  - exists false, false, false. reflexivity.
Qed.

Lemma content_structure_factor_wt d a :
  optional "content" is_content d = true ->
  exists p many,
    content_structure_factor (PDict d) a =
    Ok (gated p 1 (add_if many F64.lit_0_7 (fst a)) a).
Proof.
  intros H. destruct a as [score factors]. unfold content_structure_factor.
  cbn [py_get bind py_getitem].
  destruct (assoc "content" d) as [c|] eqn:E.
  - apply (optional_some _ _ _ _ H) in E as Hc.
    destruct c as [| | | | | |c]; try discriminate Hc. cbn [is_content] in Hc.
    apply andb_true_iff in Hc. destruct Hc as [_ Hp].
    cbn [py_contains bind].
    destruct (assoc "paragraphs" c) as [n|] eqn:En.
    + apply (optional_some _ _ _ _ Hp) in En as Hn.
      cbn [bind py_getitem]. rewrite En. cbn [bind].
      destruct (is_number_gt _ 10 Hn) as [many Hmany]. rewrite Hmany.
      exists true, many. reflexivity.
    + exists false, false. reflexivity.
  - exists false, false. reflexivity.
Qed.

Lemma content_wt v :
  is_scraped_data v = true ->
  exists q1 long short q2 many,
    _calculate_content_complexity v =
    Ok (finish_total (content_of q1 long short q2 many)).
Proof.
  destruct v as [| | | | | |d]; try discriminate. cbn [is_scraped_data].
  intros H. unfold _calculate_content_complexity.
  destruct (content_length_factor_wt d acc0 H) as (q1 & long & short & E1).
  rewrite E1. cbn [bind].
  match goal with |- context [content_structure_factor _ ?a] =>
    destruct (content_structure_factor_wt d a H) as (q2 & many & E2) end.
  rewrite E2. cbn [bind].
  exists q1, long, short, q2, many.
  destruct q1, long, short, q2, many; vm_compute; reflexivity.
Qed.

Lemma metrics_wt d :
  optional "metrics" is_metrics d = true ->
  exists m, py_get (PDict d) "metrics" empty_dict = Ok (PDict m)
            /\ optional "total_links" is_number m = true
            /\ optional "spam_score" is_number m = true.
Proof.
  intros H. cbn [py_get]. destruct (assoc "metrics" d) as [m|] eqn:E.
  - apply (optional_some _ _ _ _ H) in E as Hm.
    destruct m as [| | | | | |m]; try discriminate Hm. cbn [is_metrics] in Hm.
    apply andb_true_iff in Hm. exists m. tauto.
  - exists []. repeat split.
Qed.

Lemma backlink_wt v :
  is_moz_data v = true ->
  exists few many high,
    _calculate_backlink_complexity v =
    Ok (finish_total (backlink_of few many high)).
Proof.
  destruct v as [| | | | | |d]; try discriminate. cbn [is_moz_data].
  intros H. destruct (metrics_wt d H) as (m & Em & Ht & Hs).
  apply default_number in Ht, Hs.
  unfold _calculate_backlink_complexity, total_links_factor, spam_score_factor, acc0.
  rewrite Em. cbn [bind py_get].
  destruct (is_number_lt _ 10 Ht) as [few Hfew].
  destruct (is_number_gt _ 50 Ht) as [many Hmany].
  destruct (is_number_gt _ 20 Hs) as [high Hhigh].
  exists few, many, high.
  rewrite Hfew. cbn [bind].
  destruct few.
  - cbn [bind py_get]. rewrite Hhigh. cbn [bind].
    destruct many, high; vm_compute; reflexivity.
  - rewrite Hmany. cbn [bind].
    destruct many; cbn [bind py_get]; rewrite Hhigh; cbn [bind];
    destruct high; vm_compute; reflexivity.
Qed.

Lemma section_wt k p d :
  p empty_dict = true ->
  optional k p d = true ->
  exists v, py_get (PDict d) k empty_dict = Ok v /\ p v = true.
Proof.
  intros H0 H. cbn [py_get]. unfold optional in H.
  destruct (assoc k d) as [v|]; eauto.
Qed.

(** The mean of three scores: [(((0 + t) + c) + b) / 3]. *)
Lemma average_three (t c b : float) :
  average [t; c; b] =
  Ok (F64.div (F64.add (F64.add (F64.add F64.zero t) c) b) (F64.of_Z 3)).
Proof. reflexivity. Qed.

(** On a well-typed input the scorer returns, and what it returns is
    determined by which of its fourteen tests fired. *)
Lemma complexity_wt data :
  well_typed data = true ->
  exists p1 b1 b2 p2 b3 b4 q1 long short q2 paras few many high,
    _calculate_complexity data =
    Ok (complexity_of (finish_total (technical_of p1 b1 b2 p2 b3 b4))
                      (finish_total (content_of q1 long short q2 paras))
                      (finish_total (backlink_of few many high))).
Proof.
  destruct data as [| | | | | |d]; try discriminate. cbn [well_typed].
  intros H. apply andb_true_iff in H. destruct H as [H Hm].
  apply andb_true_iff in H. destruct H as [Ht Hc].
  unfold _calculate_complexity.
  destruct (section_wt _ _ d eq_refl Ht) as (t & -> & Ht').
  destruct (section_wt _ _ d eq_refl Hc) as (c & -> & Hc').
  destruct (section_wt _ _ d eq_refl Hm) as (m & -> & Hm').
  cbn [bind].
  destruct (technical_wt t Ht') as (p1 & b1 & b2 & p2 & b3 & b4 & ->).
  destruct (content_wt c Hc') as (q1 & long & short & q2 & paras & ->).
  destruct (backlink_wt m Hm') as (few & many & high & ->).
  cbn [bind].
  exists p1, b1, b2, p2, b3, b4, q1, long, short, q2, paras, few, many, high.
  unfold complexity_of. rewrite average_three. reflexivity.
Qed.

Lemma technical_value_in p1 b1 b2 p2 b3 b4 :
  In (finish_total (technical_of p1 b1 b2 p2 b3 b4)) technical_values.
Proof. destruct p1, b1, b2, p2, b3, b4; vm_compute; in_list. Qed.

Lemma content_value_in q1 long short q2 paras :
  In (finish_total (content_of q1 long short q2 paras)) content_values.
Proof. destruct q1, long, short, q2, paras; vm_compute; in_list. Qed.

Lemma backlink_value_in few many high :
  In (finish_total (backlink_of few many high)) backlink_values.
Proof. destruct few, many, high; vm_compute; in_list. Qed.

(** *** Inputs of any type *)

(** Inversion of a computation that returned. *)
Ltac returned :=
  repeat match goal with
  | H : bind ?r _ = Ok _ |- _ =>
      destruct r eqn:?; cbn [bind] in H; [|discriminate H]
  | H : (if ?b then _ else _) = Ok _ |- _ => destruct b eqn:?
  | H : Ok _ = Ok ?x |- _ => is_var x; injection H as <-
  end.

Lemma meta_tags_factor_shape v a r :
  meta_tags_factor v a = Ok r ->
  exists p b1 b2,
    r = gated p 2 (add_if b2 F64.lit_0_6 (add_if b1 F64.lit_0_8 (fst a))) a.
Proof.
  destruct a as [score factors]. unfold meta_tags_factor. intros H. returned.
  - exists true. do 2 eexists. reflexivity.
  - exists false, false, false. reflexivity.
Qed.

Lemma headings_factor_shape v a r :
  headings_factor v a = Ok r ->
  exists p b3 b4,
    r = gated p 2 (add_if b4 F64.lit_0_5 (add_if b3 F64.lit_0_7 (fst a))) a.
Proof.
  destruct a as [score factors]. unfold headings_factor. intros H. returned.
  - exists true. do 2 eexists. reflexivity.
  - exists false, false, false. reflexivity.
Qed.

Lemma content_length_factor_shape v a r :
  content_length_factor v a = Ok r ->
  exists (p long short : bool),
    r = gated p 1 (if long then F64.add (fst a) F64.lit_0_8
                   else add_if short F64.lit_0_6 (fst a)) a.
Proof.
  destruct a as [score factors]. unfold content_length_factor. intros H. returned.
  - exists true, true, false. reflexivity.
  - exists true, false, true. reflexivity.
  - exists true, false, false. reflexivity.
  - exists false, false, false. reflexivity.
Qed.

Lemma content_structure_factor_shape v a r :
  content_structure_factor v a = Ok r ->
  exists p many,
    r = gated p 1 (add_if many F64.lit_0_7 (fst a)) a.
Proof.
  destruct a as [score factors]. unfold content_structure_factor. intros H. returned.
  - exists true. eexists. reflexivity.
  - exists false, false. reflexivity.
Qed.

Lemma finish_total_eq a x : finish a = Ok x -> x = finish_total a.
Proof. unfold finish_total. intros ->. reflexivity. Qed.

Lemma technical_shape v x :
  _calculate_technical_complexity v = Ok x ->
  exists p1 b1 b2 p2 b3 b4, x = finish_total (technical_of p1 b1 b2 p2 b3 b4).
Proof.
  unfold _calculate_technical_complexity. intros H. returned.
  match goal with H : meta_tags_factor _ _ = _ |- _ =>
    apply meta_tags_factor_shape in H; destruct H as (p1 & b1 & b2 & ->) end.
  match goal with H : headings_factor _ _ = _ |- _ =>
    apply headings_factor_shape in H; destruct H as (p2 & b3 & b4 & ->) end.
  exists p1, b1, b2, p2, b3, b4. apply finish_total_eq in H. exact H.
Qed.

Lemma content_shape v x :
  _calculate_content_complexity v = Ok x ->
  exists q1 long short q2 many,
    x = finish_total (content_of q1 long short q2 many).
Proof.
  unfold _calculate_content_complexity. intros H. returned.
  match goal with H : content_length_factor _ _ = _ |- _ =>
    apply content_length_factor_shape in H;
    destruct H as (q1 & long & short & ->) end.
  match goal with H : content_structure_factor _ _ = _ |- _ =>
    apply content_structure_factor_shape in H;
    destruct H as (q2 & many & ->) end.
  exists q1, long, short, q2, many. apply finish_total_eq in H. rewrite H.
  destruct q1, long, short, q2, many; reflexivity.
Qed.

Lemma backlink_shape v x :
  _calculate_backlink_complexity v = Ok x ->
  exists few many high, x = finish_total (backlink_of few many high).
Proof.
  unfold _calculate_backlink_complexity, total_links_factor, spam_score_factor, acc0.
  intros H. returned; apply finish_total_eq in H; rewrite H;
    match goal with |- context [if ?b then _ else _] => rename b into high end.
  - exists true, false, high. destruct high; reflexivity.
  - exists false, true, high. destruct high; reflexivity.
  - exists false, false, high. destruct high; reflexivity.
Qed.

(** Whenever the scorer returns, what it returns is determined by
    which of its tests fired. *)
Lemma complexity_shape data x :
  _calculate_complexity data = Ok x ->
  exists t c b,
    In t technical_values /\ In c content_values /\ In b backlink_values
    /\ x = complexity_of t c b.
Proof.
  unfold _calculate_complexity. intros H. returned.
  repeat match goal with
  | H : _calculate_technical_complexity _ = Ok _ |- _ =>
      apply technical_shape in H; destruct H as (? & ? & ? & ? & ? & ? & ->)
  | H : _calculate_content_complexity _ = Ok _ |- _ =>
      apply content_shape in H; destruct H as (? & ? & ? & ? & ? & ->)
  | H : _calculate_backlink_complexity _ = Ok _ |- _ =>
      apply backlink_shape in H; destruct H as (? & ? & ? & ->)
  end.
  do 3 eexists.
  split; [apply technical_value_in|].
  split; [apply content_value_in|].
  split; [apply backlink_value_in|].
  unfold complexity_of. rewrite H. reflexivity.
Qed.

(** Whatever the three sub-scores are, the overall score is in
    [[0, 1]]: every combination of their values is evaluated. *)
Lemma all_scores_checked (t c b : float) :
  In t technical_values -> In c content_values -> In b backlink_values ->
  in_unit_interval (complexity_of t c b) = true.
Proof.
  assert (all_scores_in_unit_interval = true) as H by (vm_compute; reflexivity).
  unfold all_scores_in_unit_interval in H.
  intros Ht Hc Hb.
  rewrite forallb_forall in H. specialize (H t Ht). cbv beta in H.
  rewrite forallb_forall in H. specialize (H c Hc). cbv beta in H.
  rewrite forallb_forall in H. exact (H b Hb).
Qed.

(** C3. For every well-typed analysis input, [_calculate_complexity]
    returns a score, and the score lies in the closed interval
    [[0, 1]].  More generally no input at all, well-typed or not, makes
    it return a score outside that interval. *)
Theorem complexity_in_unit_interval (data : pyval) :
  (well_typed data = true ->
   exists c, _calculate_complexity data = Ok c
             /\ F64.leb F64.zero c = true /\ F64.leb c F64.one = true)
  /\ (forall c, _calculate_complexity data = Ok c ->
                F64.leb F64.zero c = true /\ F64.leb c F64.one = true).
Proof.
  assert (forall c, _calculate_complexity data = Ok c ->
                    F64.leb F64.zero c = true /\ F64.leb c F64.one = true)
    as Hrange.
  { intros c H.
    destruct (complexity_shape data c H) as (t & s & b & Ht & Hs & Hb & ->).
    apply andb_true_iff, all_scores_checked; assumption. }
  split; [|exact Hrange].
  intros Hwt.
  destruct (complexity_wt data Hwt)
    as (p1 & b1 & b2 & p2 & b3 & b4 & q1 & long & short & q2 & paras
        & few & many & high & E).
  eexists. split; [exact E|]. apply Hrange, E.
Qed.

(** ** Usage tracking *)

Lemma track_usage_history self today tokens_used cost_ :
  usage_history (track_usage self today tokens_used cost_) =
  let h := if last_reset self <? today then ∅ else usage_history self in
  <[today := bump (default zero_usage (h !! today)) tokens_used cost_]> h.
Proof.
  unfold track_usage.
  destruct (last_reset self <? today); cbn [usage_history];
    [rewrite lookup_empty | destruct (usage_history self !! today) as [u|] eqn:E];
    apply map_eq; intros d; destruct (decide (d = today)) as [->|Hd];
    repeat (rewrite ?lookup_alter_eq, ?lookup_insert_eq, ?E;
            rewrite ?lookup_alter_ne, ?lookup_insert_ne by congruence);
    reflexivity.
Qed.

Lemma track_usage_last_reset self today tokens_used cost_ :
  last_reset (track_usage self today tokens_used cost_) =
  Z.max (last_reset self) today.
Proof.
  unfold track_usage. destruct (Z.ltb_spec (last_reset self) today);
    cbn [last_reset]; lia.
Qed.

Lemma track_usage_config self today tokens_used cost_ :
  max_daily_requests (track_usage self today tokens_used cost_) =
  max_daily_requests self.
Proof. unfold track_usage. destruct (_ <? _); reflexivity. Qed.

(** What [get_usage_stats] reads on the day of a [track_usage]. *)
Lemma get_usage_stats_track self today tokens_used cost_ :
  get_usage_stats (track_usage self today tokens_used cost_) today =
  bump (if last_reset self <? today then zero_usage
        else get_usage_stats self today) tokens_used cost_.
Proof.
  unfold get_usage_stats. rewrite track_usage_history. cbv zeta.
  rewrite lookup_insert_eq. cbn [default].
  destruct (last_reset self <? today); [rewrite lookup_empty|]; reflexivity.
Qed.

Lemma check_daily_quota_stats self today :
  _check_daily_quota self today =
  (requests (get_usage_stats self today) <? max_daily_requests self).
Proof.
  unfold _check_daily_quota, get_usage_stats.
  destruct (usage_history self !! today); reflexivity.
Qed.

Lemma track_all_config self today calls :
  max_daily_requests (track_all self today calls) = max_daily_requests self.
Proof.
  revert self. induction calls as [|call calls IH]; intros self; [reflexivity|].
  cbn [track_all fold_left]. fold (track_all (track_usage self today call.1 call.2) today calls).
  rewrite IH. apply track_usage_config.
Qed.

(** Calls on one date are counted one by one, provided a pending
    rollover to that date has nothing to clear. *)
Lemma requests_track_all calls : forall self today,
  (last_reset self < today -> usage_history self = ∅) ->
  requests (get_usage_stats (track_all self today calls) today) =
  requests (get_usage_stats self today) + Z.of_nat (length calls).
Proof.
  induction calls as [|call calls IH]; intros self today Hfresh.
  - cbn [track_all fold_left length]. lia.
  - cbn [track_all fold_left].
    fold (track_all (track_usage self today call.1 call.2) today calls).
    rewrite IH.
    + rewrite get_usage_stats_track.
      destruct (Z.ltb_spec (last_reset self) today) as [Hlt|Hge].
      * unfold get_usage_stats. rewrite (Hfresh Hlt), lookup_empty.
        cbn [bump requests default zero_usage length]. lia.
      * cbn [bump requests length]. lia.
    + rewrite track_usage_last_reset. lia.
Qed.

(** With quota left, the gate approves a well-typed input on either
    side of the complexity test. *)
Lemma should_use_llm_quota_left self today data :
  well_typed data = true ->
  requests (get_usage_stats self today) < max_daily_requests self ->
  should_use_llm self today data = Ok true.
Proof.
  intros Hwt Hquota. unfold should_use_llm.
  rewrite check_daily_quota_stats.
  apply Z.ltb_lt in Hquota. rewrite Hquota. cbn [negb].
  destruct (complexity_wt data Hwt)
    as (p1 & b1 & b2 & p2 & b3 & b4 & q1 & long & short & q2 & paras
        & few & many & high & ->).
  cbn [bind]. destruct (F64.gtb _ _); reflexivity.
Qed.

(** C1. Whenever today's recorded request count is strictly below
    [max_requests_per_day], [should_use_llm] returns [True] on every
    well-typed analysis input, whatever the complexity score and the
    threshold are; and on no input at all does it then return
    [False]. *)
Theorem should_use_llm_when_quota_allows
    (self : CostOptimizer) (today : date) (data : pyval) :
  requests (get_usage_stats self today) < max_daily_requests self ->
  (well_typed data = true -> should_use_llm self today data = Ok true)
  /\ should_use_llm self today data <> Ok false.
Proof.
  intros Hquota. split.
  - intros Hwt. exact (should_use_llm_quota_left self today data Hwt Hquota).
  - unfold should_use_llm. rewrite check_daily_quota_stats.
    apply Z.ltb_lt in Hquota. rewrite Hquota. cbn [negb].
    destruct (_calculate_complexity data) as [c|e]; cbn [bind];
      [destruct (F64.gtb _ _)|]; discriminate.
Qed.

(** Once today's count has reached the quota, the gate refuses every
    input without looking at it. *)
Lemma should_use_llm_quota_exhausted self today data :
  max_daily_requests self <= requests (get_usage_stats self today) ->
  should_use_llm self today data = Ok false.
Proof.
  intros H. unfold should_use_llm. rewrite check_daily_quota_stats.
  apply Z.ltb_ge in H. rewrite H. reflexivity.
Qed.

(** C2. From a fresh state with [max_requests_per_day = N], after
    exactly [N] calls to [track_usage] on one date [should_use_llm]
    returns [False] for every input on that date, and after fewer than
    [N] calls it returns [True] for every well-typed input. *)
Theorem quota_boundary
    (self : CostOptimizer) (today : date) (calls : list (Z * float)) (data : pyval) :
  fresh self ->
  (Z.of_nat (length calls) = max_daily_requests self ->
   should_use_llm (track_all self today calls) today data = Ok false)
  /\ (Z.of_nat (length calls) < max_daily_requests self ->
      well_typed data = true ->
      should_use_llm (track_all self today calls) today data = Ok true).
Proof.
  intros Hfresh.
  assert (requests (get_usage_stats (track_all self today calls) today)
          = Z.of_nat (length calls)) as Hcount.
  { rewrite requests_track_all by (intros _; exact Hfresh).
    unfold get_usage_stats. rewrite Hfresh, lookup_empty. reflexivity. }
  split.
  - intros HN. apply should_use_llm_quota_exhausted.
    rewrite track_all_config, Hcount. lia.
  - intros HN Hwt. apply should_use_llm_quota_left; [exact Hwt|].
    rewrite track_all_config, Hcount. exact HN.
Qed.

Lemma complexity_in_unit_interval_witness :
  well_typed only_total_links_5 = true
  /\ exists c, _calculate_complexity only_total_links_5 = Ok c
               /\ F64.leb F64.zero c = true /\ F64.leb c F64.one = true.
Proof.
  split; [reflexivity|].
  apply (proj1 (complexity_in_unit_interval only_total_links_5)). reflexivity.
Defined.

Lemma should_use_llm_when_quota_allows_witness :
  well_typed only_total_links_5 = true
  /\ requests (get_usage_stats (__init__ None 0) 0) < max_daily_requests (__init__ None 0)
  /\ should_use_llm (__init__ None 0) 0 only_total_links_5 = Ok true.
Proof.
  split; [reflexivity|]. split; [reflexivity|].
  apply (should_use_llm_when_quota_allows (__init__ None 0) 0 only_total_links_5);
    reflexivity.
Defined.

Lemma quota_boundary_witness :
  fresh (__init__ (Some quota_two) 0)
  /\ should_use_llm
       (track_all (__init__ (Some quota_two) 0) 0 [(10, F64.one); (20, F64.one)])
       0 only_total_links_5 = Ok false
  /\ should_use_llm
       (track_all (__init__ (Some quota_two) 0) 0 [(10, F64.one)])
       0 only_total_links_5 = Ok true.
Proof.
  split; [reflexivity|]. split.
  - apply (quota_boundary (__init__ (Some quota_two) 0) 0
             [(10, F64.one); (20, F64.one)] only_total_links_5);
      reflexivity.
  - apply (quota_boundary (__init__ (Some quota_two) 0) 0
             [(10, F64.one)] only_total_links_5); reflexivity.
Defined.

(** ** Day rollover *)

(** A [track_usage] on a date after the last reset leaves exactly one
    record, the fresh one of that date. *)
Lemma track_usage_rollover self today tokens_used cost_ :
  last_reset self < today ->
  usage_history (track_usage self today tokens_used cost_) =
  {[ today := bump zero_usage tokens_used cost_ ]}.
Proof.
  intros H. rewrite track_usage_history. cbv zeta.
  apply Z.ltb_lt in H. rewrite H, lookup_empty. reflexivity.
Qed.

(** With a clock that never runs backwards, the only date that can
    have a record is the date of the last reset. *)
Lemma reachable_one_day self :
  reachable self ->
  forall d, is_Some (usage_history self !! d) -> d = last_reset self.
Proof.
  induction 1 as [config today|self today tokens_used cost_ Hr IH Hle];
    intros d Hd.
  - cbn [__init__ usage_history] in Hd. rewrite lookup_empty in Hd.
    destruct Hd as [? Hd]. discriminate Hd.
  - rewrite track_usage_last_reset, Z.max_r by exact Hle.
    rewrite track_usage_history in Hd. cbv zeta in Hd.
    destruct (decide (d = today)) as [->|Hne]; [reflexivity|].
    rewrite lookup_insert_ne in Hd by congruence.
    destruct (Z.ltb_spec (last_reset self) today) as [Hlt|Hge].
    + rewrite lookup_empty in Hd. destruct Hd as [? Hd]. discriminate Hd.
    + apply IH in Hd. lia.
Qed.

(** C4. With a clock that never runs backwards, usage is kept for one
    date at a time: the only recorded date is the last-reset date; a
    [track_usage] on a later date clears every earlier record before
    recording; and after usage on a date [D], [get_usage_stats] on
    [D + 1] returns the all-zeros record and the next [track_usage]
    starts a fresh record with [requests = 1]. *)
Theorem usage_history_one_day (self : CostOptimizer) :
  reachable self ->
  (forall d, is_Some (usage_history self !! d) -> d = last_reset self)
  /\ (forall today tokens_used cost_,
        last_reset self < today ->
        usage_history (track_usage self today tokens_used cost_) =
        {[ today := bump zero_usage tokens_used cost_ ]})
  /\ (forall D t c t' c',
        last_reset self <= D ->
        let after_D := track_usage self D t c in
        let next := track_usage after_D (D + 1) t' c' in
        get_usage_stats after_D (D + 1) = zero_usage
        /\ usage_history next = {[ (D + 1) := bump zero_usage t' c' ]}
        /\ requests (get_usage_stats next (D + 1)) = 1).
Proof.
  intros Hr. split; [exact (reachable_one_day self Hr)|].
  split; [intros; apply track_usage_rollover; assumption|].
  intros D t c t' c' HD after_D next.
  assert (last_reset after_D = D) as Hreset
    by (subst after_D; rewrite track_usage_last_reset; lia).
  assert (reachable after_D) as Hr' by (constructor; assumption).
  split; [|split].
  - unfold get_usage_stats.
    destruct (usage_history after_D !! (D + 1)) as [u|] eqn:E; [|reflexivity].
    assert (D + 1 = last_reset after_D)
      by (apply (reachable_one_day _ Hr'); rewrite E; eauto).
    lia.
  - subst next. apply track_usage_rollover. lia.
  - subst next. rewrite get_usage_stats_track.
    assert ((last_reset after_D <? D + 1) = true) as -> by (apply Z.ltb_lt; lia).
    reflexivity.
Qed.

Lemma usage_history_one_day_witness :
  reachable (__init__ None 0)
  /\ get_usage_stats (track_usage (__init__ None 0) 0 10 F64.one) 1 = zero_usage
  /\ requests
       (get_usage_stats
          (track_usage (track_usage (__init__ None 0) 0 10 F64.one) 1 20 F64.one) 1)
     = 1.
Proof.
  split; [constructor|].
  destruct (usage_history_one_day (__init__ None 0) (reachable_init None 0))
    as (_ & _ & H).
  destruct (H 0 10 F64.one 20 F64.one) as (H1 & _ & H3); [reflexivity|].
  split; [exact H1 | exact H3].
Defined.

(** ** Negative usage *)



(** ** Sub-scores *)

(** C8. For the input whose only content is
    [moz_data.metrics.total_links = 5], the technical sub-score is 0,
    the content sub-score is 0, the backlink sub-score is 0.45, and the
    overall complexity is the mean of these three terms, exactly
    0.15. *)
Theorem only_total_links_complexity :
  (let* tech_data := py_get only_total_links_5 "technical_seo" empty_dict in
   _calculate_technical_complexity tech_data) = Ok F64.zero
  /\ (let* content_data := py_get only_total_links_5 "scraped_data" empty_dict in
      _calculate_content_complexity content_data) = Ok F64.zero
  /\ (let* moz_data := py_get only_total_links_5 "moz_data" empty_dict in
      _calculate_backlink_complexity moz_data) = Ok F64.lit_0_45
  /\ _calculate_complexity only_total_links_5 =
     average [F64.zero; F64.zero; F64.lit_0_45]
  /\ _calculate_complexity only_total_links_5 = Ok F64.lit_0_15.
Proof. repeat split; vm_compute; reflexivity. Qed.



(** ** Prompt budgeting *)

(** C6. For a prompt of exactly 1000 characters, [max_tokens = 100] and
    [token_buffer = 0.9]: the estimate is 250 tokens, the ratio is 0.4,
    the truncation length is 360, and [optimize_prompt] returns the
    first 360 characters of the prompt. *)
Theorem optimize_prompt_1000 (self : CostOptimizer) (prompt : string) :
  String.length prompt = 1000%nat ->
  token_buffer self = F64.lit_0_9 ->
  estimate_tokens prompt = 250
  /\ int_true_div 100 (estimate_tokens prompt) = Ok F64.lit_0_4
  /\ truncate_length self prompt 100 = Ok 360
  /\ optimize_prompt self prompt 100 = Ok (String.substring 0 360 prompt).
Proof.
  intros Hlen Hbuf.
  assert (estimate_tokens prompt = 250) as Hest
    by (unfold estimate_tokens; rewrite Hlen; reflexivity).
  assert (truncate_length self prompt 100 = Ok 360) as Htrunc
    by (unfold truncate_length; rewrite Hest, Hlen, Hbuf; vm_compute; reflexivity).
  repeat split.
  - exact Hest.
  - rewrite Hest. vm_compute. reflexivity.
  - exact Htrunc.
  - unfold optimize_prompt. rewrite Hest, Htrunc.
    cbn [bind]. unfold slice_to. rewrite Hlen. reflexivity.
Qed.

Lemma optimize_prompt_1000_witness :
  String.length (prompt_of_length 1000) = 1000%nat
  /\ token_buffer (__init__ None 0) = F64.lit_0_9
  /\ optimize_prompt (__init__ None 0) (prompt_of_length 1000) 100 =
     Ok (prompt_of_length 360).
Proof.
  split; [reflexivity|]. split; [reflexivity|].
  destruct (optimize_prompt_1000 (__init__ None 0) (prompt_of_length 1000))
    as (_ & _ & _ & H); [reflexivity | reflexivity |].
  rewrite H. reflexivity.
Defined.

(** C7. When the estimate does not exceed [max_tokens],
    [optimize_prompt] returns the prompt itself. *)
Theorem optimize_prompt_under_budget
    (self : CostOptimizer) (prompt : string) (max_tokens : Z) :
  estimate_tokens prompt <= max_tokens ->
  optimize_prompt self prompt max_tokens = Ok prompt.
Proof.
  intros H. unfold optimize_prompt.
  apply Z.leb_le in H. rewrite H. reflexivity.
Qed.

Lemma optimize_prompt_under_budget_witness :
  estimate_tokens "short prompt" <= 3
  /\ optimize_prompt (__init__ None 0) "short prompt" 3 = Ok "short prompt".
Proof.
  split; [vm_compute; discriminate|].
  apply (optimize_prompt_under_budget (__init__ None 0) "short prompt" 3).
  vm_compute. discriminate.
Defined.

(** ** Rounding in the prompt budget *)

(** *** Shifting a mantissa *)

Lemma iter_pos_nat {A} (f : A -> A) (p : positive) (x : A) :
  SpecFloat.iter_pos f p x = Nat.iter (Pos.to_nat p) f x.
Proof.
  revert x. induction p as [p IH|p IH|]; intros x; cbn [SpecFloat.iter_pos].
  - rewrite !IH, Pos2Nat.inj_xI.
    replace (S (2 * Pos.to_nat p)) with (Pos.to_nat p + (Pos.to_nat p + 1))%nat by lia.
    rewrite !Nat.iter_add. reflexivity.
  - rewrite !IH, Pos2Nat.inj_xO.
    replace (2 * Pos.to_nat p)%nat with (Pos.to_nat p + Pos.to_nat p)%nat by lia.
    rewrite Nat.iter_add. reflexivity.
  - reflexivity.
Qed.

Lemma shr_1_m (mrs : shr_record) :
  0 <= shr_m mrs -> shr_m (shr_1 mrs) = shr_m mrs / 2.
Proof.
  destruct mrs as [m r s]. cbn [shr_m shr_1]. intros Hm.
  destruct m as [|[p|p|]|p]; cbn [shr_m]; try reflexivity.
  - apply Z.div_unique with 1; lia.
  - apply Z.div_unique with 0; lia.
  - lia.
Qed.

Lemma shr_iter_m (k : nat) (mrs : shr_record) :
  0 <= shr_m mrs ->
  shr_m (Nat.iter k shr_1 mrs) = shr_m mrs / 2 ^ Z.of_nat k.
Proof.
  intros Hm. induction k as [|k IH].
  - rewrite Z.pow_0_r, Z.div_1_r. reflexivity.
  - rewrite Nat.iter_succ, shr_1_m.
    + rewrite IH, Nat2Z.inj_succ, Z.pow_succ_r by lia.
      rewrite Z.div_div by lia. f_equal. lia.
    + rewrite IH. apply Z.div_pos; lia.
Qed.

(** [shr] divides the mantissa by [2 ^ n] and moves the exponent up by
    [n], for a positive [n]; otherwise it changes nothing. *)
Lemma shr_spec (mrs : shr_record) (e n : Z) :
  0 <= shr_m mrs ->
  shr_m (fst (shr mrs e n)) = shr_m mrs / 2 ^ Z.max 0 n
  /\ snd (shr mrs e n) = e + Z.max 0 n.
Proof.
  intros Hm. destruct n as [|p|p]; cbn [shr fst snd].
  - rewrite Z.max_id, Z.pow_0_r, Z.div_1_r. lia.
  - rewrite iter_pos_nat, shr_iter_m, positive_nat_Z by exact Hm.
    rewrite Z.max_r by lia. split; reflexivity.
  - rewrite Z.max_l by lia. rewrite Z.pow_0_r, Z.div_1_r. lia.
Qed.

Lemma shr_record_of_loc_m m l : shr_m (shr_record_of_loc m l) = m.
Proof. destruct l as [|[]]; reflexivity. Qed.

Lemma round_nearest_even_bounds m l :
  m <= round_nearest_even m l <= m + 1.
Proof.
  destruct l as [|[]]; cbn [round_nearest_even]; try lia.
  destruct (Z.even m); lia.
Qed.


(** *** Powers of two *)

Lemma bpow_pos e : (0 < bpow e)%R.
Proof. apply powerRZ_lt. lra. Qed.

Lemma bpow_add e1 e2 : bpow (e1 + e2) = (bpow e1 * bpow e2)%R.
Proof. apply powerRZ_add. lra. Qed.

Lemma bpow_IZR k : 0 <= k -> bpow k = IZR (2 ^ k).
Proof.
  intros Hk. unfold bpow. rewrite <- (Z2Nat.id k Hk) at 1.
  rewrite <- pow_powerRZ. rewrite <- (Z2Nat.id k Hk) at 2.
  rewrite pow_IZR. reflexivity.
Qed.

Lemma bpow_ge_1 k : 0 <= k -> (1 <= bpow k)%R.
Proof.
  intros Hk. rewrite bpow_IZR by exact Hk. apply IZR_le.
  pose proof (Z.pow_pos_nonneg 2 k). lia.
Qed.

Lemma bpow_le e1 e2 : e1 <= e2 -> (bpow e1 <= bpow e2)%R.
Proof.
  intros H. replace e2 with (e1 + (e2 - e1)) by lia. rewrite bpow_add.
  pose proof (bpow_pos e1).
  assert (1 <= bpow (e2 - e1))%R by (apply bpow_ge_1; lia). nra.
Qed.

Lemma bpow_lt_inv e1 e2 : (bpow e1 < bpow e2)%R -> e1 < e2.
Proof.
  intros H. destruct (Z_lt_le_dec e1 e2) as [|Hle]; [assumption|].
  apply bpow_le in Hle. lra.
Qed.

Lemma bpow_neg k : 0 <= k -> bpow (- k) = (/ IZR (2 ^ k))%R.
Proof.
  intros Hk. unfold bpow. rewrite powerRZ_neg'. fold (bpow k).
  rewrite bpow_IZR by exact Hk. reflexivity.
Qed.

(** *** Bit lengths *)

Lemma digits2_pos_bounds (p : positive) :
  2 ^ (Z.pos (digits2_pos p) - 1) <= Z.pos p < 2 ^ Z.pos (digits2_pos p).
Proof.
  induction p as [p IH|p IH|]; cbn [digits2_pos].
  - rewrite Pos2Z.inj_succ.
    replace (Z.succ (Z.pos (digits2_pos p)) - 1) with (Z.succ (Z.pos (digits2_pos p) - 1)) by lia.
    rewrite !Z.pow_succ_r by lia. lia.
  - rewrite Pos2Z.inj_succ.
    replace (Z.succ (Z.pos (digits2_pos p)) - 1) with (Z.succ (Z.pos (digits2_pos p) - 1)) by lia.
    rewrite !Z.pow_succ_r by lia. lia.
  - cbn. lia.
Qed.

Lemma Zdigits2_bounds (m : Z) :
  0 < m -> 2 ^ (Zdigits2 m - 1) <= m < 2 ^ Zdigits2 m.
Proof.
  destruct m as [|p|p]; try lia. intros _. apply digits2_pos_bounds.
Qed.

Lemma Zdigits2_pos (m : Z) : 0 < m -> 0 < Zdigits2 m.
Proof. destruct m; cbn; lia. Qed.

Lemma shift_of_nonneg m e : 0 <= shift_of m e.
Proof. unfold shift_of. lia. Qed.

Lemma pow2_pos n : 0 <= n -> 0 < 2 ^ n.
Proof. intros. apply Z.pow_pos_nonneg; lia. Qed.

Lemma div_pow2_nonneg m n : 0 <= m -> 0 <= n -> 0 <= m / 2 ^ n.
Proof. intros. apply Z.div_pos; [assumption | apply pow2_pos; assumption]. Qed.

Lemma shr_fexp_spec (m e : Z) (l : location) :
  0 <= m ->
  let n := shift_of m e in
  let r := shr_fexp F64.prec F64.emax m e l in
  shr_m (fst r) = m / 2 ^ n
  /\ snd r = e + n
  /\ (n = 0 -> fst r = shr_record_of_loc m l).
Proof.
  intros Hm n r. subst n r. unfold shr_fexp, shift_of.
  set (k := fexp F64.prec F64.emax (Zdigits2 m + e) - e).
  pose proof (shr_spec (shr_record_of_loc m l) e k) as H.
  rewrite shr_record_of_loc_m in H. destruct (H Hm) as [H1 H2].
  split; [exact H1|]. split; [exact H2|].
  intros Hk. destruct k as [|p|p]; try reflexivity. lia.
Qed.

Lemma loc_of_shr_record_of_loc m l :
  loc_of_shr_record (shr_record_of_loc m l) = l.
Proof. destruct l as [|[]]; reflexivity. Qed.

(** The float that [binary_round_aux] builds: a mantissa [m2] and an
    exponent [e2] whose value is at most one unit of the shifted
    exponent above the truncated input (and not above it at all when
    the input is exact and needs no shift). *)
Lemma binary_round_aux_shape (sx : bool) (mx ex : Z) (lx : location) :
  0 <= mx ->
  let n := shift_of mx ex in
  exists m2 e2,
    0 <= m2 /\ ex + n <= e2
    /\ m2 * 2 ^ (e2 - (ex + n)) <= mx / 2 ^ n + slack n lx
    /\ binary_round_aux F64.prec F64.emax sx mx ex lx =
       match m2 with
       | Z0 => S754_zero sx
       | Zpos m => if e2 <=? F64.emax - F64.prec
                   then S754_finite sx m e2 else S754_infinity sx
       | Zneg _ => S754_nan
       end.
Proof.
  intros Hmx n. unfold binary_round_aux.
  destruct (shr_fexp_spec mx ex lx Hmx) as (H1 & H2 & H3). fold n in H1, H2, H3.
  destruct (shr_fexp F64.prec F64.emax mx ex lx) as [mrs' e'].
  cbn [fst snd] in H1, H2, H3.
  set (m' := round_nearest_even (shr_m mrs') (loc_of_shr_record mrs')).
  pose proof (shift_of_nonneg mx ex) as Hn0. fold n in Hn0.
  assert (0 <= shr_m mrs') as Hm1 by (rewrite H1; apply div_pow2_nonneg; lia).
  assert (shr_m mrs' <= m' <= mx / 2 ^ n + slack n lx) as Hm'.
  { subst m'. pose proof (round_nearest_even_bounds (shr_m mrs') (loc_of_shr_record mrs')).
    rewrite <- H1. split; [lia|].
    unfold slack. destruct lx as [|c]; [|lia].
    destruct (Z.eqb_spec n 0) as [Hn|Hn]; [|lia].
    rewrite (H3 Hn). cbn. lia. }
  assert (0 <= m') as Hm'0 by lia.
  destruct (shr_fexp_spec m' e' loc_Exact Hm'0) as (K1 & K2 & _).
  destruct (shr_fexp F64.prec F64.emax m' e' loc_Exact) as [mrs'' e''].
  cbn [fst snd] in K1, K2.
  exists (shr_m mrs''), e''. 
  pose proof (shift_of_nonneg m' e') as Hs.
  split; [rewrite K1; apply div_pow2_nonneg; lia|].
  split; [lia|]. split; [|reflexivity].
  subst e'. rewrite K1, K2, Z.add_simpl_l.
  pose proof (Z.mul_div_le m' _ (pow2_pos _ Hs)) as D. lia.
Qed.

Lemma F2R_nonneg x : nonneg_finite x = true -> (0 <= F2R x)%R.
Proof.
  destruct x as [s|s| |s m e]; cbn [nonneg_finite F2R]; try discriminate; try lra.
  destruct s; [discriminate|]. intros _.
  pose proof (bpow_pos e). pose proof (IZR_lt 0 (Z.pos m) eq_refl). nra.
Qed.

Lemma IZR_div_pow2 m n :
  0 <= m -> 0 <= n -> (IZR (m / 2 ^ n) * bpow n <= IZR m)%R.
Proof.
  intros Hm Hn. rewrite bpow_IZR by exact Hn. rewrite <- mult_IZR.
  apply IZR_le. pose proof (Z.mul_div_le m _ (pow2_pos n Hn)). lia.
Qed.

Lemma binary_round_aux_bound (mx ex : Z) (lx : location) (B : R) :
  0 <= mx ->
  let n := shift_of mx ex in
  ((IZR (mx / 2 ^ n) + IZR (slack n lx)) * bpow (ex + n) <= B)%R ->
  (B < bpow (F64.emax - F64.prec + 1))%R ->
  let r := binary_round_aux F64.prec F64.emax false mx ex lx in
  nonneg_finite r = true /\ (F2R r <= B)%R.
Proof.
  intros Hmx n HB Hmax r.
  destruct (binary_round_aux_shape false mx ex lx Hmx)
    as (m2 & e2 & Hm2 & He2 & Hval & Hr).
  fold n in He2, Hval. fold r in Hr.
  pose proof (shift_of_nonneg mx ex) as Hn. fold n in Hn.
  assert (0 <= IZR (mx / 2 ^ n) + IZR (slack n lx))%R as Hnn.
  { rewrite <- plus_IZR. apply IZR_le.
    pose proof (div_pow2_nonneg mx n Hmx Hn).
    unfold slack. destruct lx; [destruct (n =? 0)|]; lia. }
  pose proof (bpow_pos (ex + n)) as Hp.
  destruct m2 as [|m|m]; [| |lia].
  - rewrite Hr. split; [reflexivity|]. cbn [F2R]. nra.
  - assert (IZR (Z.pos m) * bpow e2 <= B)%R as Hle.
    { replace e2 with ((e2 - (ex + n)) + (ex + n)) by lia.
      rewrite bpow_add, bpow_IZR by lia.
      rewrite <- Rmult_assoc, <- mult_IZR.
      apply IZR_le in Hval. rewrite plus_IZR in Hval. nra. }
    destruct (Z.leb_spec e2 (F64.emax - F64.prec)) as [Hfin|Hinf].
    + rewrite Hr. split; [reflexivity|]. exact Hle.
    + exfalso.
      assert (bpow e2 < bpow (F64.emax - F64.prec + 1))%R as Hlt.
      { pose proof (bpow_pos e2). pose proof (IZR_le 1 (Z.pos m) ltac:(lia)). nra. }
      apply bpow_lt_inv in Hlt. lia.
Qed.

Lemma fexp_eq e : fexp F64.prec F64.emax e = Z.max (e - 53) (-1074).
Proof. reflexivity. Qed.

Lemma eps_val : eps = (/ IZR (2 ^ 52))%R.
Proof. unfold eps. change (-52) with (- (52)). apply bpow_neg. lia. Qed.

Lemma shift_of_shifted m e :
  shift_of m e <> 0 ->
  e + shift_of m e = Z.max (Zdigits2 m + e - 53) (-1074).
Proof. unfold shift_of. rewrite fexp_eq. lia. Qed.

(** Rounding a positive integer mantissa: the result is at most the
    input times [1 + 2^-52], plus [2^-1074] when it is subnormal. *)
Lemma binary_round_aux_rel (mx ex : Z) (lx : location) :
  0 < mx ->
  lx = loc_Exact \/ 2 ^ 52 <= mx ->
  let v := (IZR mx * bpow ex)%R in
  (v * (1 + eps) + eta < bpow 972)%R ->
  let r := binary_round_aux F64.prec F64.emax false mx ex lx in
  nonneg_finite r = true /\ (F2R r <= v * (1 + eps) + eta)%R.
Proof.
  intros Hmx Hlx v Hmax r.
  apply binary_round_aux_bound; [lia| |exact Hmax].
  set (n := shift_of mx ex).
  pose proof (shift_of_nonneg mx ex) as Hn. fold n in Hn.
  pose proof (bpow_pos ex) as Hpe.
  pose proof (IZR_lt 0 mx Hmx) as Hmx'.
  assert (IZR (mx / 2 ^ n) * bpow (ex + n) <= v)%R as H1.
  { rewrite bpow_add. pose proof (IZR_div_pow2 mx n ltac:(lia) Hn).
    subst v. nra. }
  assert (IZR (slack n lx) * bpow (ex + n) <= v * eps + eta)%R as H2.
  { pose proof (bpow_pos (-52)) as Hu. pose proof (bpow_pos (-1074)) as Ht.
    fold eps in Hu. fold eta in Ht.
    assert (0 < v)%R as Hv by (unfold v; nra).
    assert (0 <= v * eps)%R as Hnn by nra.
    assert (n <> 0 \/ 2 ^ 52 <= mx -> (bpow (ex + n) <= v * eps + eta)%R) as Hone.
    { intros Hcase. destruct (Z.eq_dec n 0) as [Hn0|Hn0].
      - (* no shift, and the mantissa has at least 53 bits *)
        destruct Hcase as [|Hbig]; [contradiction|].
        rewrite Hn0, Z.add_0_r.
        assert (1 <= IZR mx * eps)%R.
        { rewrite eps_val.
          apply IZR_le in Hbig.
          pose proof (IZR_lt 0 (2 ^ 52) eq_refl) as Hpos.
          apply (Rmult_le_reg_r (IZR (2 ^ 52))); [exact Hpos|].
          rewrite Rmult_assoc, Rinv_l by lra. lra. }
        unfold v. nra.
      - (* a shift down to the exponent [fexp] selects *)
        assert (ex + n = Z.max (Zdigits2 mx + ex - 53) (-1074)) as He.
        { apply shift_of_shifted. exact Hn0. }
        rewrite He.
        destruct (Z.max_spec (Zdigits2 mx + ex - 53) (-1074)) as [[_ ->]|[_ ->]].
        + fold eta. lra.
        + replace (Zdigits2 mx + ex - 53) with ((Zdigits2 mx - 1) + ex + -52) by lia.
          rewrite !bpow_add. fold eps.
          pose proof (Zdigits2_pos mx Hmx).
          rewrite (bpow_IZR (Zdigits2 mx - 1)) by lia.
          pose proof (Zdigits2_bounds mx Hmx) as [Hd _]. apply IZR_le in Hd.
          assert (0 < bpow ex * eps)%R by nra.
          unfold v. nra. }
    unfold slack. destruct lx as [|c].
    - destruct (Z.eqb_spec n 0) as [Hn0|Hn0]; [nra|].
      rewrite Rmult_1_l. apply Hone. left. exact Hn0.
    - rewrite Rmult_1_l. apply Hone. right.
      destruct Hlx as [Hlx|Hlx]; [discriminate Hlx | exact Hlx]. }
  rewrite Rmult_plus_distr_r. lra.
Qed.

Lemma nonneg_is_finite x : nonneg_finite x = true -> F64.is_finite x = true.
Proof. destruct x; cbn; congruence. Qed.

(** Multiplication of non-negative floats. *)
Lemma mul_bound (x y : float) :
  nonneg_finite x = true -> nonneg_finite y = true ->
  (F2R x * F2R y * (1 + eps) + eta < bpow 972)%R ->
  nonneg_finite (F64.mul x y) = true
  /\ (F2R (F64.mul x y) <= F2R x * F2R y * (1 + eps) + eta)%R.
Proof.
  intros Hx Hy Hmax.
  pose proof (F2R_nonneg x Hx) as Hx0. pose proof (F2R_nonneg y Hy) as Hy0.
  assert (0 <= F2R x * F2R y * (1 + eps) + eta)%R as Hnn.
  { pose proof (bpow_pos (-52)) as Hu. pose proof (bpow_pos (-1074)) as Ht.
    fold eps in Hu. fold eta in Ht.
    assert (0 <= F2R x * F2R y)%R by nra. nra. }
  destruct x as [sx|sx| |sx mx ex]; try discriminate Hx;
    destruct y as [sy|sy| |sy my ey]; try discriminate Hy;
    try (split; [reflexivity | exact Hnn]).
  destruct sx; [discriminate Hx|]. destruct sy; [discriminate Hy|].
  unfold F64.mul, SFmul. cbn [xorb].
  cbn [F2R] in Hmax |- *.
  replace (IZR (Z.pos mx) * bpow ex * (IZR (Z.pos my) * bpow ey))%R
    with (IZR (Z.pos (mx * my)) * bpow (ex + ey))%R in *
    by (rewrite bpow_add, Pos2Z.inj_mul, mult_IZR; ring).
  apply binary_round_aux_rel; [lia | left; reflexivity | exact Hmax].
Qed.

(** [shl_align] changes the representation, not the value. *)
Lemma shift_pos_mul (p : positive) (d : positive) :
  Z.pos (Pos.iter xO p d) = Z.pos p * 2 ^ Z.pos d.
Proof.
  induction d as [|d IH] using Pos.peano_ind.
  - cbn [Pos.iter]. lia.
  - rewrite Pos.iter_succ, Pos2Z.inj_xO, IH, Pos2Z.inj_succ, Z.pow_succ_r by lia.
    ring.
Qed.

Lemma shl_align_value (m : positive) (e e' : Z) :
  (IZR (Z.pos (fst (shl_align m e e'))) * bpow (snd (shl_align m e e')) =
   IZR (Z.pos m) * bpow e)%R.
Proof.
  unfold shl_align. destruct (e' - e) as [|d|d] eqn:E; cbn [fst snd]; try reflexivity.
  rewrite shift_pos_mul, mult_IZR, <- bpow_IZR by lia.
  rewrite Rmult_assoc, <- bpow_add. f_equal. f_equal. lia.
Qed.

(** Conversion of a positive integer. *)
Lemma of_Z_bound (z : Z) :
  0 <= z ->
  (IZR z * (1 + eps) + eta < bpow 972)%R ->
  nonneg_finite (F64.of_Z z) = true
  /\ (F2R (F64.of_Z z) <= IZR z * (1 + eps) + eta)%R.
Proof.
  intros Hz Hmax. destruct z as [|p|p]; [| |lia].
  - split; [reflexivity|]. cbn [F64.of_Z binary_normalize F2R].
    pose proof (bpow_pos (-1074)). fold eta in H. lra.
  - unfold F64.of_Z, binary_normalize, binary_round.
    pose proof (shl_align_value p 0
                  (fexp F64.prec F64.emax (Z.pos (digits2_pos p) + 0))) as Hv.
    destruct (shl_align p 0 _) as [mz ez]. cbn [fst snd] in Hv.
    replace (bpow 0) with 1%R in Hv by reflexivity. rewrite Rmult_1_r in Hv.
    rewrite <- Hv in *.
    apply binary_round_aux_rel; [lia | left; reflexivity | exact Hmax].
Qed.

Lemma Zdigits2_le_of_lt (a b : Z) :
  0 < a -> a < b -> Zdigits2 a <= Zdigits2 b.
Proof.
  intros Ha Hab.
  pose proof (Zdigits2_bounds a Ha) as [Ha1 _].
  pose proof (Zdigits2_bounds b ltac:(lia)) as [_ Hb2].
  pose proof (Zdigits2_pos b ltac:(lia)).
  assert (2 ^ (Zdigits2 a - 1) < 2 ^ Zdigits2 b) as H2 by lia.
  apply Z.pow_lt_mono_r_iff in H2; lia.
Qed.

Lemma Zdigits2_le_bits (b k : Z) :
  0 < b -> 0 <= k -> b < 2 ^ k -> Zdigits2 b <= k.
Proof.
  intros Hb Hk Hbk.
  pose proof (Zdigits2_bounds b Hb) as [Hb1 _].
  assert (2 ^ (Zdigits2 b - 1) < 2 ^ k) as H2 by lia.
  apply Z.pow_lt_mono_r_iff in H2; lia.
Qed.

(** The quotient mantissa that [SFdiv_core_binary] hands to the
    rounding has at least 53 bits and does not exceed the quotient. *)
Lemma div_core_spec (a b : Z) :
  0 < a -> a < b -> b < 2 ^ 53 ->
  exists q e l,
    SFdiv_core_binary F64.prec F64.emax a 0 b 0 = (q, e, l)
    /\ 2 ^ 52 <= q
    /\ (IZR q * bpow e <= IZR a / IZR b)%R.
Proof.
  intros Ha Hab Hb.
  pose proof (Zdigits2_le_of_lt a b Ha Hab) as Hd.
  pose proof (Zdigits2_le_bits b 53 ltac:(lia) ltac:(lia) Hb) as Hd2.
  pose proof (Zdigits2_pos a Ha) as Hd1.
  pose proof (Zdigits2_bounds a Ha) as [Ha1 _].
  pose proof (Zdigits2_bounds b ltac:(lia)) as [_ Hb2].
  unfold SFdiv_core_binary. rewrite fexp_eq.
  set (d1 := Zdigits2 a) in *. set (d2 := Zdigits2 b) in *.
  replace (Z.min (Z.max (d1 + 0 - (d2 + 0) - 53) (-1074)) (0 - 0))
    with (- (53 + d2 - d1)) by lia.
  replace (0 - 0 - - (53 + d2 - d1)) with (53 + d2 - d1) by lia.
  set (s := 53 + d2 - d1).
  assert (0 < s) as Hs by (subst s; lia).
  assert (match s with Z.pos _ => Z.shiftl a s | 0 => a | Z.neg _ => 0 end
          = a * 2 ^ s) as ->.
  { destruct s; try lia. rewrite Z.shiftl_mul_pow2 by lia. reflexivity. }
  pose proof (Z_div_mod (a * 2 ^ s) b ltac:(lia)) as Hdm.
  unfold Z.div in *. unfold Z.modulo in *.
  destruct (Z.div_eucl (a * 2 ^ s) b) as [q r] eqn:E.
  exists q, (- s), (new_location b r). split; [reflexivity|].
  destruct Hdm as [Hq Hr].
  pose proof (pow2_pos s ltac:(lia)) as Hps.
  assert (2 ^ 52 * b <= a * 2 ^ s) as Hlow.
  { assert (2 ^ (52 + d2) <= a * 2 ^ s) as H1.
    { replace (52 + d2) with ((d1 - 1) + s) by (subst s; lia).
      rewrite Z.pow_add_r by lia. nia. }
    rewrite Z.pow_add_r in H1 by lia. nia. }
  split; [nia|].
  rewrite bpow_neg by lia. rewrite <- bpow_IZR by lia.
  pose proof (bpow_pos s) as Hbs.
  assert (0 < IZR b)%R as Hb0 by (apply IZR_lt; lia).
  assert (IZR q * IZR b <= IZR a * bpow s)%R as Hqb.
  { rewrite bpow_IZR by lia. rewrite <- !mult_IZR. apply IZR_le. nia. }
  unfold Rdiv.
  apply (Rmult_le_reg_r (bpow s * IZR b)); [nra|].
  replace (IZR q * / bpow s * (bpow s * IZR b))%R with (IZR q * IZR b)%R
    by (field; lra).
  replace (IZR a * / IZR b * (bpow s * IZR b))%R with (IZR a * bpow s)%R
    by (field; lra).
  exact Hqb.
Qed.

(** True division of two integers below [2^53]. *)
Lemma int_true_div_bound (a b : Z) :
  0 <= a -> a < b -> b < 2 ^ 53 ->
  exists r, int_true_div a b = Ok r
            /\ nonneg_finite r = true
            /\ (F2R r <= IZR a / IZR b * (1 + eps) + eta)%R.
Proof.
  intros Ha Hab Hb. unfold int_true_div.
  assert ((b =? 0) = false) as -> by (apply Z.eqb_neq; lia).
  assert ((a <? 0) = false) as -> by (apply Z.ltb_ge; lia).
  assert ((b <? 0) = false) as -> by (apply Z.ltb_ge; lia).
  cbn [xorb].
  pose proof (bpow_pos (-52)) as Hu. pose proof (bpow_pos (-1074)) as Ht.
  fold eps in Hu. fold eta in Ht.
  assert (0 < IZR b)%R as Hb0 by (apply IZR_lt; lia).
  destruct (Z.eqb_spec a 0) as [->|Hne].
  - eexists. split; [reflexivity|]. split; [reflexivity|].
    cbn [F2R]. unfold Rdiv. rewrite Rmult_0_l. lra.
  - rewrite !Z.abs_eq by lia.
    destruct (div_core_spec a b ltac:(lia) Hab Hb) as (q & e & l & -> & Hq & Hv).
    assert (IZR a / IZR b < 1)%R as Hlt1.
    { apply (Rmult_lt_reg_r (IZR b)); [exact Hb0|].
      unfold Rdiv. rewrite Rmult_assoc, Rinv_l, Rmult_1_r, Rmult_1_l by lra.
      apply IZR_lt. exact Hab. }
    assert (0 <= IZR q * bpow e)%R as Hv0.
    { pose proof (bpow_pos e). pose proof (IZR_le 0 q ltac:(lia)). nra. }
    assert (eps < 1)%R as Hu1.
    { rewrite eps_val. pose proof (IZR_lt 1 (2 ^ 52) eq_refl) as H1.
      rewrite <- Rinv_1. apply Rinv_lt_contravar; lra. }
    assert (eta < 1)%R as Ht1.
    { unfold eta. change 1%R with (bpow 0).
      pose proof (bpow_le (-1074) (-1) ltac:(lia)).
      assert (bpow (-1) < bpow 0)%R; [|lra].
      change (-1) with (- (1)). rewrite bpow_neg by lia.
      change (2 ^ 1) with 2. change (bpow 0) with 1%R. lra. }
    assert (4 <= bpow 972)%R as Hbig.
    { pose proof (bpow_le 2 972 ltac:(lia)) as H2.
      rewrite (bpow_IZR 2) in H2 by lia. change (2 ^ 2) with 4 in H2. lra. }
    destruct (binary_round_aux_rel q e l ltac:(lia) (or_intror Hq)) as [Hfin Hle].
    { nra. }
    rewrite (nonneg_is_finite _ Hfin).
    eexists. split; [reflexivity|]. split; [exact Hfin|].
    assert (IZR q * bpow e * (1 + eps) <= IZR a / IZR b * (1 + eps))%R
      by (apply Rmult_le_compat_r; lra).
    lra.
Qed.

Lemma unit_fraction_bound (x : float) :
  F64.valid x = true ->
  F64.ltb F64.zero x = true ->
  F64.leb x F64.one = true ->
  nonneg_finite x = true /\ (F2R x <= 1)%R.
Proof.
  intros Hv Hpos Hle.
  destruct x as [s|s| |s m e]; try discriminate Hpos.
  - destruct s; discriminate.
  - destruct s; [discriminate Hpos|]. split; [reflexivity|].
    cbn [F2R].
    unfold F64.valid, valid_binary, bounded, canonical_mantissa in Hv.
    apply andb_true_iff in Hv. destruct Hv as [Hc _].
    apply Z.eqb_eq in Hc. rewrite fexp_eq in Hc.
    pose proof (digits2_pos_bounds m) as [_ Hm].
    assert (Z.pos m < 2 ^ 53) as Hm53.
    { eapply Z.lt_le_trans; [exact Hm|]. apply Z.pow_le_mono_r; lia. }
    unfold F64.leb, SFleb, F64.one, SFcompare in Hle.
    pose proof (bpow_pos e) as Hpe.
    destruct (Z.compare_spec e (-52)) as [He|He|He]; [| |discriminate Hle].
    + subst e.
      assert (Z.pos m <= 2 ^ 52) as Hm52.
      { destruct (Pos.compare_cont Eq m 4503599627370496) eqn:C;
          try discriminate Hle.
        - apply (Pos.compare_eq m) in C. rewrite C. reflexivity.
        - apply (proj1 (Pos.compare_lt_iff m _)) in C.
          assert (2 ^ 52 = Z.pos 4503599627370496) as -> by reflexivity.
          apply Pos2Z.pos_le_pos, Pos.lt_le_incl, C. }
      fold eps. rewrite eps_val. apply IZR_le in Hm52.
      pose proof (IZR_lt 0 (2 ^ 52) eq_refl) as Hp.
      apply (Rmult_le_reg_r (IZR (2 ^ 52))); [exact Hp|].
      rewrite Rmult_assoc, Rinv_l by lra. lra.
    + assert (bpow e <= bpow (-53))%R as Hb by (apply bpow_le; lia).
      change (-53) with (- (53)) in Hb. rewrite bpow_neg in Hb by lia.
      apply IZR_lt in Hm53.
      pose proof (IZR_lt 0 (2 ^ 53) eq_refl) as Hp.
      pose proof (IZR_lt 0 (Z.pos m) eq_refl) as Hm0.
      assert (IZR (Z.pos m) * bpow e <= IZR (Z.pos m) * / IZR (2 ^ 53))%R
        by (apply Rmult_le_compat_l; lra).
      assert (IZR (Z.pos m) * / IZR (2 ^ 53) <= 1)%R; [|lra].
      apply (Rmult_le_reg_r (IZR (2 ^ 53))); [exact Hp|].
      rewrite Rmult_assoc, Rinv_l by lra. lra.
Qed.

(** Truncation to an integer does not exceed the value. *)
Lemma int_of_float_bound (x : float) :
  nonneg_finite x = true ->
  exists n, int_of_float x = Ok n /\ 0 <= n /\ (IZR n <= F2R x)%R.
Proof.
  destruct x as [s|s| |s m e]; try discriminate.
  - intros _. exists 0. cbn [int_of_float F2R]. repeat split; [lia|lra].
  - destruct s; [discriminate|]. intros _. cbn [int_of_float F2R].
    eexists. split; [reflexivity|].
    destruct (Z.leb_spec 0 e) as [He|He].
    + split; [pose proof (pow2_pos e He); lia|].
      rewrite mult_IZR, <- bpow_IZR by exact He. lra.
    + split; [apply div_pow2_nonneg; lia|].
      pose proof (IZR_div_pow2 (Z.pos m) (- e) ltac:(lia) ltac:(lia)) as H.
      pose proof (bpow_pos e) as Hpe. pose proof (bpow_pos (- e)) as Hpn.
      assert (bpow (- e) * bpow e = 1)%R as Hinv
        by (rewrite <- bpow_add; replace (- e + e) with 0 by lia; reflexivity).
      set (q := IZR (Z.pos m / 2 ^ (- e))) in *.
      assert (q * bpow (- e) * bpow e <= IZR (Z.pos m) * bpow e)%R
        by (apply Rmult_le_compat_r; lra).
      rewrite Rmult_assoc, Hinv in H0. lra.
Qed.

(** *** Slices *)

Lemma substring_0_length (k : nat) (s : string) :
  String.length (String.substring 0 k s) = Nat.min k (String.length s).
Proof.
  revert s. induction k as [|k IH]; intros s.
  - destruct s; reflexivity.
  - destruct s as [|c s]; [reflexivity|]. cbn [String.substring String.length].
    rewrite IH. reflexivity.
Qed.

Lemma substring_0_prefix (k : nat) (s : string) :
  String.prefix (String.substring 0 k s) s = true.
Proof.
  revert s. induction k as [|k IH]; intros s.
  - destruct s; reflexivity.
  - destruct s as [|c s]; [reflexivity|]. cbn [String.substring String.prefix].
    destruct (ascii_dec c c) as [_|Hne]; [apply IH | congruence].
Qed.

Lemma prefix_refl (s : string) : String.prefix s s = true.
Proof.
  induction s as [|c s IH]; [reflexivity|]. cbn [String.prefix].
  destruct (ascii_dec c c) as [_|Hne]; [exact IH | congruence].
Qed.

Lemma slice_to_prefix (text : string) (n : Z) :
  String.prefix (slice_to text n) text = true.
Proof. unfold slice_to. apply substring_0_prefix. Qed.

Lemma slice_to_length (text : string) (n : Z) :
  0 <= n ->
  Z.of_nat (String.length (slice_to text n)) =
  Z.min n (Z.of_nat (String.length text)).
Proof.
  intros Hn. unfold slice_to.
  assert ((n <? 0) = false) as -> by (apply Z.ltb_ge; exact Hn).
  rewrite substring_0_length. lia.
Qed.

Lemma eta_le : (eta <= / IZR (2 ^ 105))%R.
Proof.
  unfold eta. rewrite <- bpow_neg by lia. apply bpow_le. lia.
Qed.

Lemma big_bound : (IZR (2 ^ 60) <= bpow 972)%R.
Proof. rewrite <- bpow_IZR by lia. apply bpow_le. lia. Qed.

Lemma eps_small : (0 < eps <= / 1024)%R.
Proof.
  split; [apply bpow_pos|]. rewrite eps_val.
  apply Rinv_le_contravar; [lra|]. apply IZR_le. lia.
Qed.

Lemma eta_small : (0 < eta <= / IZR (2 ^ 105))%R.
Proof. split; [apply bpow_pos | apply eta_le]. Qed.

(** A product of moderate size is far from overflowing. *)
Lemma small_product (x y : R) :
  (0 <= x <= IZR (2 ^ 54))%R -> (0 <= y <= 4)%R ->
  (x * y * (1 + eps) + eta < bpow 972)%R
  /\ (x * y * (1 + eps) + eta <= 8 * x + 1)%R.
Proof.
  intros Hx Hy. pose proof eps_small as Hu. pose proof eta_small as Ht.
  pose proof big_bound as Hbig.
  assert (/ IZR (2 ^ 105) <= 1)%R as Ht1.
  { rewrite <- Rinv_1. apply Rinv_le_contravar; [lra|]. apply IZR_le. lia. }
  assert (x * y <= x * 4)%R as Hxy by (apply Rmult_le_compat_l; lra).
  assert (0 <= x * y)%R as Hxy0 by (apply Rmult_le_pos; lra).
  assert (x * y * (1 + eps) <= 4 * x * 2)%R as H2
    by (apply Rmult_le_compat; lra).
  assert (8 * IZR (2 ^ 54) + 1 < IZR (2 ^ 60))%R as H3.
  { rewrite <- (mult_IZR 8), <- plus_IZR. apply IZR_lt. reflexivity. }
  split; lra.
Qed.

(** The arithmetic at the heart of the budget: four roundings of a
    value below [2^48] cannot lift it by a whole unit. *)
Lemma four_roundings (lf r0 p1 p2 L A B : R) :
  (1 <= L)%R -> (L < IZR (2 ^ 48))%R ->
  (0 <= A <= 1)%R ->
  (0 <= B <= 1)%R ->
  (0 <= lf <= L * (1 + eps) + eta)%R ->
  (0 <= r0 <= A * (1 + eps) + eta)%R ->
  (0 <= p1 <= lf * r0 * (1 + eps) + eta)%R ->
  (p2 <= p1 * B * (1 + eps) + eta)%R ->
  (p2 < L * A + 1)%R.
Proof.
  intros HL1 HL2 HA HB Hlf Hr0 Hp1 Hp2.
  pose proof eps_small as Hu. pose proof eta_small as Ht.
  pose proof eps_val as Hu'.
  set (k := (1 + 2 * eps)%R).
  assert (1 <= k <= 2)%R as Hk by (unfold k; lra).
  assert (1 + eps <= k)%R as Hk' by (unfold k; lra).
  assert (/ IZR (2 ^ 105) <= eps)%R as Hte.
  { rewrite Hu'. apply Rinv_le_contravar; [apply IZR_lt; reflexivity|].
    apply IZR_le. apply Z.pow_le_mono_r; lia. }
  assert (0 <= L * A)%R as HX0 by (apply Rmult_le_pos; lra).
  assert (L * A <= IZR (2 ^ 48))%R as HX.
  { assert (L * A <= L * 1)%R by (apply Rmult_le_compat_l; lra). lra. }
  assert (lf <= L * k)%R as S1.
  { assert (1 * eps <= L * eps)%R by (apply Rmult_le_compat_r; lra).
    unfold k. lra. }
  assert (r0 <= A * k + eta)%R as S2.
  { assert (A * (1 + eps) <= A * k)%R by (apply Rmult_le_compat_l; lra). lra. }
  set (T := (L * k * eta)%R).
  assert (0 <= T)%R as HT0.
  { unfold T. apply Rmult_le_pos; [apply Rmult_le_pos|]; lra. }
  assert (lf * r0 <= L * A * (k * k) + T)%R as S3.
  { assert (lf * r0 <= (L * k) * (A * k + eta))%R
      by (apply Rmult_le_compat; lra).
    unfold T. lra. }
  assert (0 <= lf * r0)%R as Hlr by (apply Rmult_le_pos; lra).
  assert (0 <= L * A * (k * k))%R as HX2.
  { apply Rmult_le_pos; [lra|]. apply Rmult_le_pos; lra. }
  assert (p1 <= L * A * (k * k * k) + 2 * T + eta)%R as S4.
  { assert (lf * r0 * (1 + eps) <= (L * A * (k * k) + T) * k)%R
      by (apply Rmult_le_compat; lra).
    assert (T * k <= T * 2)%R by (apply Rmult_le_compat_l; lra).
    lra. }
  assert (p1 * B <= p1)%R as S5.
  { assert (p1 * B <= p1 * 1)%R by (apply Rmult_le_compat_l; lra). lra. }
  assert (0 <= p1 * B)%R as HpB by (apply Rmult_le_pos; lra).
  assert (p2 <= L * A * (k * k * k * k) + 4 * T + 3 * eta)%R as S6.
  { assert (p1 * B * (1 + eps) <= (L * A * (k * k * k) + 2 * T + eta) * k)%R
      by (apply Rmult_le_compat; lra).
    assert (T * k <= T * 2)%R by (apply Rmult_le_compat_l; lra).
    assert (eta * k <= eta * 2)%R by (apply Rmult_le_compat_l; lra).
    lra. }
  assert (eps * eps <= eps * / 1024)%R as Hee
    by (apply Rmult_le_compat_l; lra).
  assert (k * k <= 1 + 5 * eps)%R as S7a.
  { replace (k * k)%R with (1 + 4 * eps + 4 * (eps * eps))%R
      by (unfold k; ring).
    lra. }
  assert (0 <= k * k)%R as Hkk by (apply Rmult_le_pos; lra).
  assert (k * k * k * k <= 1 + 11 * eps)%R as S7.
  { assert (k * k * (k * k) <= (1 + 5 * eps) * (1 + 5 * eps))%R
      by (apply Rmult_le_compat; lra).
    replace ((1 + 5 * eps) * (1 + 5 * eps))%R
      with (1 + 10 * eps + 25 * (eps * eps))%R in H by ring.
    lra. }
  assert (L * A * (k * k * k * k) <= L * A * (1 + 11 * eps))%R as S8
    by (apply Rmult_le_compat_l; lra).
  assert (IZR (2 ^ 48) * eps = / 16)%R as Hq.
  { rewrite Hu'. change (2 ^ 52) with (2 ^ 48 * 16). rewrite mult_IZR.
    field. apply not_0_IZR. lia. }
  assert (L * A * (11 * eps) <= 11 / 16)%R as S9.
  { assert (L * A * eps <= IZR (2 ^ 48) * eps)%R
      by (apply Rmult_le_compat_r; lra).
    lra. }
  assert (T <= IZR (2 ^ 49) * / IZR (2 ^ 105))%R as HT.
  { unfold T.
    apply Rmult_le_compat; [apply Rmult_le_pos; lra | lra | | lra].
    assert (L * k <= IZR (2 ^ 48) * 2)%R by (apply Rmult_le_compat; lra).
    change (2 ^ 49) with (2 ^ 48 * 2). rewrite mult_IZR. lra. }
  assert (IZR (2 ^ 49) * / IZR (2 ^ 105) <= / 64)%R as HT'.
  { change (2 ^ 105) with (2 ^ 49 * 2 ^ 56). rewrite mult_IZR.
    rewrite Rinv_mult, <- Rmult_assoc, Rinv_r, Rmult_1_l
      by (apply not_0_IZR; lia).
    apply Rinv_le_contravar; [lra|]. apply IZR_le. lia. }
  assert (/ IZR (2 ^ 105) <= / 64)%R as Ht'.
  { apply Rinv_le_contravar; [lra|]. apply IZR_le. lia. }
  lra.
Qed.

(** The truncation length never exceeds [4 * max_tokens + 3]. *)
Lemma truncate_length_bound (self : CostOptimizer) (prompt : string) (max_tokens : Z) :
  Z.of_nat (String.length prompt) < 2 ^ 48 ->
  0 <= max_tokens < estimate_tokens prompt ->
  F64.valid (token_buffer self) = true ->
  F64.ltb F64.zero (token_buffer self) = true ->
  F64.leb (token_buffer self) F64.one = true ->
  exists n, truncate_length self prompt max_tokens = Ok n
            /\ 0 <= n <= 4 * max_tokens + 3.
Proof.
  intros Hlen Hmax Hvalid Hpos Hle1.
  unfold truncate_length. unfold estimate_tokens in *.
  set (L := Z.of_nat (String.length prompt)) in *.
  set (b := L / 4) in *. set (a := max_tokens) in *.
  assert (4 * b <= L <= 4 * b + 3) as HLb.
  { pose proof (Z.div_mod L 4 ltac:(lia)) as Hdm.
    pose proof (Z.mod_pos_bound L 4 ltac:(lia)) as Hmod.
    fold b in Hdm. lia. }
  assert (4 <= L) as HL4 by lia.
  assert (b < 2 ^ 53) as Hb53.
  { assert (b < 2 ^ 48) by lia.
    eapply Z.lt_trans; [eassumption|]. reflexivity. }
  pose proof eps_small as Hu. pose proof eta_small as Ht.
  assert (/ IZR (2 ^ 105) <= 1)%R as Ht1.
  { rewrite <- Rinv_1. apply Rinv_le_contravar; [lra|]. apply IZR_le. lia. }
  (* ratio *)
  destruct (int_true_div_bound a b ltac:(lia) ltac:(lia) Hb53)
    as (r0 & -> & Hr0 & Hr0v).
  cbn [bind].
  pose proof (F2R_nonneg r0 Hr0) as Hr00.
  assert (0 < IZR b)%R as Hb0 by (apply IZR_lt; lia).
  assert (0 <= IZR a / IZR b <= 1)%R as HA.
  { assert (0 <= IZR a)%R by (apply IZR_le; lia).
    assert (IZR a <= IZR b)%R by (apply IZR_le; lia).
    split.
    - apply Rmult_le_pos; [lra|]. apply Rlt_le, Rinv_0_lt_compat, Hb0.
    - apply (Rmult_le_reg_r (IZR b)); [exact Hb0|].
      unfold Rdiv. rewrite Rmult_assoc, Rinv_l by lra. lra. }
  set (A := (IZR a / IZR b)%R) in *.
  (* float(len(prompt)) *)
  assert (1 <= IZR L < IZR (2 ^ 48))%R as HLR
    by (split; [apply IZR_le; lia | apply IZR_lt; exact Hlen]).
  assert (IZR (2 ^ 48) * 2 + 1 <= IZR (2 ^ 50))%R as H50.
  { rewrite <- (mult_IZR _ 2), <- plus_IZR. apply IZR_le. discriminate. }
  assert (IZR (2 ^ 50) < IZR (2 ^ 54))%R as H54 by (apply IZR_lt; reflexivity).
  assert (IZR L * (1 + eps) <= IZR L * 2)%R as HL2
    by (apply Rmult_le_compat_l; lra).
  pose proof big_bound as Hbig.
  assert (IZR (2 ^ 54) < IZR (2 ^ 60))%R as H60 by (apply IZR_lt; reflexivity).
  destruct (of_Z_bound L ltac:(lia)) as [Hlf Hlfv]; [lra|].
  unfold float_of_int. rewrite (nonneg_is_finite _ Hlf). cbn [bind].
  set (lf := F64.of_Z L) in *.
  pose proof (F2R_nonneg lf Hlf) as Hlf0.
  (* len * ratio *)
  assert (A * (1 + eps) <= 1 * 2)%R as HA2 by (apply Rmult_le_compat; lra).
  destruct (small_product (F2R lf) (F2R r0)) as [Hm1 Hm1'];
    [lra | lra |].
  destruct (mul_bound lf r0 Hlf Hr0 Hm1) as [Hp1 Hp1v].
  set (p1 := F64.mul lf r0) in *.
  pose proof (F2R_nonneg p1 Hp1) as Hp10.
  (* ... * token_buffer *)
  destruct (unit_fraction_bound _ Hvalid Hpos Hle1) as [Hbuf Hbufv].
  pose proof (F2R_nonneg _ Hbuf) as Hbuf0.
  assert (8 * IZR (2 ^ 50) + 1 <= IZR (2 ^ 54))%R as H54'.
  { rewrite <- (mult_IZR 8), <- plus_IZR. apply IZR_le. discriminate. }
  destruct (small_product (F2R p1) (F2R (token_buffer self))) as [Hm2 _];
    [lra | lra |].
  destruct (mul_bound p1 (token_buffer self) Hp1 Hbuf Hm2) as [Hp2 Hp2v].
  set (p2 := F64.mul p1 (token_buffer self)) in *.
  (* int(...) *)
  destruct (int_of_float_bound p2 Hp2) as (n & -> & Hn0 & Hnv).
  exists n. split; [reflexivity|]. split; [exact Hn0|].
  pose proof (four_roundings (F2R lf) (F2R r0) (F2R p1) (F2R p2)
                (IZR L) A (F2R (token_buffer self))) as H4.
  assert (F2R p2 < IZR L * A + 1)%R as Hfinal by (apply H4; lra).
  (* len * max / est <= 4 * max + 3 *)
  assert (IZR L * A <= IZR (4 * a + 3))%R as HX.
  { assert (IZR L <= IZR (4 * b + 3))%R as H1 by (apply IZR_le; lia).
    assert (IZR L * A <= IZR (4 * b + 3) * A)%R as H2
      by (apply Rmult_le_compat_r; lra).
    assert (IZR (4 * b + 3) * A = 4 * IZR a + 3 * A)%R as H3.
    { rewrite plus_IZR, mult_IZR. unfold A. field. lra. }
    rewrite plus_IZR, mult_IZR. lra. }
  assert (IZR n < IZR (4 * a + 3 + 1))%R as Hlt
    by (rewrite (plus_IZR _ 1); lra).
  apply lt_IZR in Hlt. lia.
Qed.

(** *** Round to nearest: the half-unit bound *)

Lemma shr_1_r (mrs : shr_record) :
  0 <= shr_m mrs -> shr_r (shr_1 mrs) = Z.odd (shr_m mrs).
Proof.
  destruct mrs as [m r s]. cbn [shr_m].
  destruct m as [|[p|p|]|p]; intros Hm; try reflexivity; lia.
Qed.

Lemma shr_iter_r (k : nat) (mrs : shr_record) :
  0 <= shr_m mrs ->
  shr_r (Nat.iter (S k) shr_1 mrs) = Z.odd (shr_m mrs / 2 ^ Z.of_nat k).
Proof.
  intros Hm. rewrite Nat.iter_succ, shr_1_r.
  - rewrite shr_iter_m by exact Hm. reflexivity.
  - rewrite shr_iter_m by exact Hm. apply div_pow2_nonneg; lia.
Qed.

(** An odd quotient by [2^(n-1)] means the remainder modulo [2^n]
    reaches one half. *)
Lemma odd_half (m n : Z) :
  0 <= m -> 0 < n -> Z.odd (m / 2 ^ (n - 1)) = true ->
  (2 * (m / 2 ^ n) + 1) * 2 ^ n <= 2 * m.
Proof.
  intros Hm Hn Hodd.
  replace n with (n - 1 + 1) at 1 2 by lia.
  rewrite Z.pow_add_r, Z.pow_1_r by lia.
  pose proof (pow2_pos (n - 1) ltac:(lia)) as Hh.
  set (h := 2 ^ (n - 1)) in *.
  rewrite <- Z.div_div by lia.
  set (a := m / h) in *.
  pose proof (Z.mul_div_le m h Hh) as Ha. fold a in Ha.
  pose proof (Z.div_mod a 2 ltac:(lia)) as Hdm.
  rewrite Zmod_odd, Hodd in Hdm.
  nia.
Qed.

Lemma round_nearest_even_shr (mrs : shr_record) :
  round_nearest_even (shr_m mrs) (loc_of_shr_record mrs)
  <= shr_m mrs + (if shr_r mrs then 1 else 0).
Proof.
  destruct mrs as [m [] []]; cbn [round_nearest_even loc_of_shr_record shr_m shr_r];
    try lia.
  destruct (Z.even m); lia.
Qed.

(** The mantissa that [shr_fexp] and the rounding produce, [m'] at the
    exponent [e + n]: when bits were shifted out, [m' - 1/2] does not
    exceed the input. *)
Lemma shr_fexp_round (m e : Z) (l : location) :
  0 <= m ->
  let n := shift_of m e in
  let r := shr_fexp F64.prec F64.emax m e l in
  let m' := round_nearest_even (shr_m (fst r)) (loc_of_shr_record (fst r)) in
  snd r = e + n
  /\ m / 2 ^ n <= m' <= m / 2 ^ n + 1
  /\ (0 < n -> (2 * m' - 1) * 2 ^ n <= 2 * m)
  /\ (n = 0 -> m' = round_nearest_even m l).
Proof.
  intros Hm n r m'.
  destruct (shr_fexp_spec m e l Hm) as (H1 & H2 & H3).
  fold n in H1, H2, H3. fold r in H1, H2, H3.
  pose proof (round_nearest_even_bounds (shr_m (fst r)) (loc_of_shr_record (fst r)))
    as Hb. fold m' in Hb. rewrite H1 in Hb.
  split; [exact H2|]. split; [exact Hb|]. split.
  - intros Hn.
    pose proof (round_nearest_even_shr (fst r)) as Hup. fold m' in Hup.
    rewrite H1 in Hup.
    assert (shr_r (fst r) = Z.odd (m / 2 ^ (n - 1))) as Hr.
    { subst r. unfold shr_fexp. unfold n, shift_of in Hn |- *.
      set (k := fexp F64.prec F64.emax (Zdigits2 m + e) - e) in *.
      destruct k as [|p|p]; try lia.
      cbn [shr fst]. rewrite iter_pos_nat.
      destruct (Pos2Nat.is_succ p) as [j Hj]. rewrite Hj.
      rewrite shr_iter_r by (rewrite shr_record_of_loc_m; exact Hm).
      rewrite shr_record_of_loc_m. f_equal. f_equal. f_equal. lia. }
    pose proof (pow2_pos n ltac:(lia)) as Hp.
    pose proof (Z.mul_div_le m _ Hp) as Hd.
    destruct (shr_r (fst r)).
    + pose proof (odd_half m n Hm Hn (eq_sym Hr)). nia.
    + nia.
  - intros Hn. subst m'. rewrite (H3 Hn).
    rewrite shr_record_of_loc_m, loc_of_shr_record_of_loc. reflexivity.
Qed.

(** The float that [binary_round_aux] builds, with the rounded
    mantissa [m'] it comes from. *)
Lemma binary_round_aux_rounded (sx : bool) (mx ex : Z) (lx : location) :
  0 <= mx ->
  let n := shift_of mx ex in
  exists m2 e2 m',
    0 <= m2 /\ ex + n <= e2
    /\ m2 * 2 ^ (e2 - (ex + n)) <= m'
    /\ mx / 2 ^ n <= m' <= mx / 2 ^ n + 1
    /\ (0 < n -> (2 * m' - 1) * 2 ^ n <= 2 * mx)
    /\ (n = 0 -> m' = round_nearest_even mx lx)
    /\ binary_round_aux F64.prec F64.emax sx mx ex lx =
       match m2 with
       | Z0 => S754_zero sx
       | Zpos m => if e2 <=? F64.emax - F64.prec
                   then S754_finite sx m e2 else S754_infinity sx
       | Zneg _ => S754_nan
       end.
Proof.
  intros Hmx n. unfold binary_round_aux.
  destruct (shr_fexp_round mx ex lx Hmx) as (H2 & Hb & Hh & H0).
  fold n in H2, Hb, Hh, H0.
  destruct (shr_fexp F64.prec F64.emax mx ex lx) as [mrs' e'].
  cbn [fst snd] in H2, Hb, Hh, H0.
  set (m' := round_nearest_even (shr_m mrs') (loc_of_shr_record mrs')) in *.
  pose proof (shift_of_nonneg mx ex) as Hn0. fold n in Hn0.
  assert (0 <= m') as Hm'0
    by (pose proof (div_pow2_nonneg mx n Hmx Hn0); lia).
  destruct (shr_fexp_spec m' e' loc_Exact Hm'0) as (K1 & K2 & _).
  destruct (shr_fexp F64.prec F64.emax m' e' loc_Exact) as [mrs'' e''].
  cbn [fst snd] in K1, K2.
  exists (shr_m mrs''), e'', m'.
  pose proof (shift_of_nonneg m' e') as Hs.
  split; [rewrite K1; apply div_pow2_nonneg; lia|].
  split; [lia|]. split.
  { subst e'. rewrite K1, K2, Z.add_simpl_l.
    pose proof (Z.mul_div_le m' _ (pow2_pos _ Hs)) as D. lia. }
  split; [exact Hb|]. split; [exact Hh|]. split; [exact H0|]. reflexivity.
Qed.

Lemma bpow_lt e1 e2 : e1 < e2 -> (bpow e1 < bpow e2)%R.
Proof.
  intros H. replace e2 with (e1 + 1 + (e2 - e1 - 1)) by lia.
  rewrite !bpow_add. pose proof (bpow_pos e1).
  assert (1 <= bpow (e2 - e1 - 1))%R by (apply bpow_ge_1; lia).
  rewrite (bpow_IZR 1) by lia. change (2 ^ 1) with 2.
  assert (bpow e1 * 2 * 1 <= bpow e1 * 2 * bpow (e2 - e1 - 1))%R
    by (apply Rmult_le_compat_l; lra).
  lra.
Qed.

Lemma bpow_half e : bpow (e - 1) = (bpow e * / 2)%R.
Proof.
  replace (e - 1) with (e + - (1)) by lia. rewrite bpow_add, bpow_neg by lia.
  reflexivity.
Qed.

(** A positive mantissa of [d] bits at exponent [e] lies between
    [2^(d-1+e)] and [2^(d+e)]. *)
Lemma mantissa_binade (m e : Z) :
  0 < m ->
  (bpow (Zdigits2 m - 1 + e) <= IZR m * bpow e < bpow (Zdigits2 m + e))%R.
Proof.
  intros Hm. pose proof (Zdigits2_bounds m Hm) as [H1 H2].
  pose proof (Zdigits2_pos m Hm) as Hd. pose proof (bpow_pos e) as He.
  rewrite !bpow_add.
  rewrite (bpow_IZR (Zdigits2 m - 1)), (bpow_IZR (Zdigits2 m)) by lia.
  apply IZR_le in H1. apply IZR_lt in H2.
  split; [apply Rmult_le_compat_r; lra | apply Rmult_lt_compat_r; lra].
Qed.

(** Round to nearest, for a non-negative input: the result is a
    multiple [m'] of the output unit [2^e'] with [m' - 1/2] units not
    above the exact value [v], given that the mantissa [mx] truncates
    [v] and that [lx] asks to round up only from one half on. *)
Lemma binary_round_aux_half (mx ex : Z) (lx : location) (v : R) :
  0 <= mx ->
  (IZR mx * bpow ex <= v)%R ->
  (round_nearest_even mx lx = mx + 1 -> ((IZR mx + / 2) * bpow ex <= v)%R) ->
  let e' := ex + shift_of mx ex in
  (v + bpow e' < bpow (F64.emax - F64.prec + 1))%R ->
  let r := binary_round_aux F64.prec F64.emax false mx ex lx in
  nonneg_finite r = true
  /\ exists m', (F2R r <= IZR m' * bpow e')%R
                /\ ((IZR m' - / 2) * bpow e' <= v)%R.
Proof.
  intros Hmx Hv Hup e' Hmax r.
  destruct (binary_round_aux_rounded false mx ex lx Hmx)
    as (m2 & e2 & m' & Hm2 & He2 & Hval & Hb & Hh & H0 & Hr).
  fold r in Hr. unfold e' in *. clear e'.
  set (n := shift_of mx ex) in *.
  pose proof (shift_of_nonneg mx ex) as Hn. fold n in Hn.
  pose proof (bpow_pos ex) as Hpe. pose proof (bpow_pos (ex + n)) as Hpn.
  assert ((IZR m' - / 2) * bpow (ex + n) <= v)%R as Hhalf.
  { destruct (Z.eq_dec n 0) as [Hn0|Hn0].
    - rewrite Hn0, Z.add_0_r in *. specialize (H0 eq_refl).
      pose proof (round_nearest_even_bounds mx lx) as Hrb. rewrite <- H0 in Hrb.
      destruct (Z.eq_dec m' (mx + 1)) as [E|E].
      + rewrite H0 in E. specialize (Hup E). rewrite H0, E, plus_IZR. lra.
      + assert (m' = mx) as -> by lia. nra.
    - specialize (Hh ltac:(lia)).
      apply IZR_le in Hh. rewrite !mult_IZR, minus_IZR, mult_IZR in Hh.
      rewrite <- bpow_IZR in Hh by lia.
      rewrite Z.add_comm, bpow_add.
      assert ((IZR m' - / 2) * bpow n <= IZR mx)%R by lra.
      assert ((IZR m' - / 2) * bpow n * bpow ex <= IZR mx * bpow ex)%R
        by (apply Rmult_le_compat_r; lra).
      lra. }
  assert (0 <= IZR m')%R as Hm'0.
  { apply IZR_le. pose proof (div_pow2_nonneg mx n Hmx Hn). lia. }
  assert (IZR m2 * bpow e2 <= IZR m' * bpow (ex + n))%R as Hle.
  { replace e2 with ((e2 - (ex + n)) + (ex + n)) at 1 by lia.
    rewrite bpow_add, bpow_IZR by lia.
    rewrite <- Rmult_assoc, <- mult_IZR.
    apply IZR_le in Hval. apply Rmult_le_compat_r; lra. }
  assert (IZR m' * bpow (ex + n) < bpow (F64.emax - F64.prec + 1))%R as Hfit
    by lra.
  destruct m2 as [|m|m]; [| |lia].
  - rewrite Hr. split; [reflexivity|]. exists m'. split; [|exact Hhalf].
    cbn [F2R]. apply Rmult_le_pos; lra.
  - destruct (Z.leb_spec e2 (F64.emax - F64.prec)) as [Hfin|Hinf].
    + rewrite Hr. split; [reflexivity|]. exists m'.
      split; [exact Hle | exact Hhalf].
    + exfalso.
      assert (bpow e2 < bpow (F64.emax - F64.prec + 1))%R as Hlt.
      { pose proof (bpow_pos e2). pose proof (IZR_le 1 (Z.pos m) ltac:(lia)).
        nra. }
      apply bpow_lt_inv in Hlt. lia.
Qed.

(** Round to nearest does not cross a multiple of the output unit that
    is less than half a unit below the exact value. *)
Lemma binary_round_aux_threshold (mx ex : Z) (lx : location) (v : R) (T : Z) :
  0 <= mx ->
  (IZR mx * bpow ex <= v)%R ->
  (round_nearest_even mx lx = mx + 1 -> ((IZR mx + / 2) * bpow ex <= v)%R) ->
  let e' := ex + shift_of mx ex in
  (v + bpow e' < bpow (F64.emax - F64.prec + 1))%R ->
  (v < (IZR T + / 2) * bpow e')%R ->
  let r := binary_round_aux F64.prec F64.emax false mx ex lx in
  nonneg_finite r = true /\ (F2R r <= IZR T * bpow e')%R.
Proof.
  intros Hmx Hv Hup e' Hmax HT r.
  destruct (binary_round_aux_half mx ex lx v Hmx Hv Hup Hmax)
    as (Hfin & m' & Hle & Hhalf).
  fold e' in Hle, Hhalf. fold r in Hfin, Hle.
  split; [exact Hfin|].
  pose proof (bpow_pos e') as Hp.
  assert (IZR m' < IZR T + 1)%R as Hlt.
  { apply (Rmult_lt_reg_r (bpow e')); [exact Hp|]. nra. }
  rewrite <- plus_IZR in Hlt. apply lt_IZR in Hlt.
  assert (IZR m' <= IZR T)%R by (apply IZR_le; lia).
  assert (IZR m' * bpow e' <= IZR T * bpow e')%R
    by (apply Rmult_le_compat_r; lra).
  lra.
Qed.

(** *** Rounding an exact value *)

Lemma output_exponent (mx ex : Z) :
  let n := shift_of mx ex in
  (n = 0 /\ fexp F64.prec F64.emax (Zdigits2 mx + ex) <= ex)
  \/ (0 < n /\ ex + n = Z.max (Zdigits2 mx + ex - 53) (-1074)).
Proof.
  intros n. pose proof (shift_of_nonneg mx ex) as Hn. fold n in Hn.
  destruct (Z.eq_dec n 0) as [E|E].
  - left. split; [exact E|]. unfold n, shift_of in E. lia.
  - right. split; [lia|]. apply shift_of_shifted. exact E.
Qed.

Lemma binade_le (mx ex k : Z) :
  0 < mx -> (IZR mx * bpow ex < bpow k)%R -> Zdigits2 mx + ex <= k.
Proof.
  intros Hmx Hv. pose proof (mantissa_binade mx ex Hmx) as [Hlo _].
  assert (bpow (Zdigits2 mx - 1 + ex) < bpow k)%R as Hlt by lra.
  apply bpow_lt_inv in Hlt. lia.
Qed.

Lemma binade_ge (mx ex k : Z) :
  0 < mx -> (bpow k <= IZR mx * bpow ex)%R -> k < Zdigits2 mx + ex.
Proof.
  intros Hmx Hv. pose proof (mantissa_binade mx ex Hmx) as [_ Hhi].
  assert (bpow k < bpow (Zdigits2 mx + ex))%R as Hlt by lra.
  apply bpow_lt_inv in Hlt. exact Hlt.
Qed.

Lemma bpow_53_small : (bpow 53 + bpow 53 < bpow (F64.emax - F64.prec + 1))%R.
Proof.
  assert (bpow 53 + bpow 53 = bpow 54)%R as ->.
  { rewrite (bpow_IZR 53), (bpow_IZR 54) by lia. rewrite <- plus_IZR.
    f_equal. }
  apply bpow_lt. reflexivity.
Qed.

(** A value below [2^53] is far from overflowing. *)
Lemma no_overflow_53 (mx ex : Z) :
  0 < mx ->
  (IZR mx * bpow ex < bpow 53)%R ->
  (IZR mx * bpow ex + bpow (ex + shift_of mx ex)
   < bpow (F64.emax - F64.prec + 1))%R.
Proof.
  intros Hmx Hv. pose proof bpow_53_small as Hbig.
  pose proof (bpow_pos ex) as Hpe.
  destruct (output_exponent mx ex) as [[-> _]|[_ ->]].
  - rewrite Z.add_0_r.
    assert (1 <= IZR mx)%R by (apply IZR_le; lia).
    assert (bpow ex * 1 <= bpow ex * IZR mx)%R
      by (apply Rmult_le_compat_l; lra).
    lra.
  - pose proof (binade_le mx ex 53 Hmx Hv).
    assert (bpow (Z.max (Zdigits2 mx + ex - 53) (-1074)) <= bpow 53)%R
      by (apply bpow_le; lia).
    lra.
Qed.

Lemma exact_never_up (mx : Z) (P : Prop) :
  round_nearest_even mx loc_Exact = mx + 1 -> P.
Proof. cbn [round_nearest_even]. lia. Qed.

(** Rounding an exact value does not cross a number of the format
    above it: [T * 2^g] with [g] no finer than the output unit. *)
Lemma round_exact_le_multiple (mx ex T g : Z) :
  0 < mx ->
  (IZR mx * bpow ex <= IZR T * bpow g)%R ->
  (IZR mx * bpow ex < bpow 53)%R ->
  Z.max (Zdigits2 mx + ex - 53) (-1074) <= g ->
  let r := binary_round_aux F64.prec F64.emax false mx ex loc_Exact in
  nonneg_finite r = true /\ (F2R r <= IZR T * bpow g)%R.
Proof.
  intros Hmx HT H53 Hg r.
  pose proof (no_overflow_53 mx ex Hmx H53) as Hmax.
  pose proof (bpow_pos ex) as Hpe.
  destruct (output_exponent mx ex) as [[Hn _]|[_ He]].
  - destruct (binary_round_aux_threshold mx ex loc_Exact (IZR mx * bpow ex) mx)
      as [Hfin Hle]; try assumption; try lia; try lra.
    + apply exact_never_up.
    + rewrite Hn, Z.add_0_r. nra.
    + rewrite Hn, Z.add_0_r in Hle. fold r in Hfin, Hle. split; [exact Hfin|]. lra.
  - set (e' := ex + shift_of mx ex) in *.
    assert (IZR (T * 2 ^ (g - e')) * bpow e' = IZR T * bpow g)%R as HT'.
    { rewrite mult_IZR, <- bpow_IZR by lia. rewrite Rmult_assoc, <- bpow_add.
      f_equal. f_equal. lia. }
    pose proof (bpow_pos e') as Hp'.
    destruct (binary_round_aux_threshold mx ex loc_Exact (IZR mx * bpow ex)
                (T * 2 ^ (g - e')))
      as [Hfin Hle]; try assumption; try lia; try lra.
    + apply exact_never_up.
    + fold e'. nra.
    + fold e' in Hle. fold r in Hfin, Hle. split; [exact Hfin|]. lra.
Qed.

(** ... an integer below [2^53], *)
Lemma round_exact_le_int (mx ex t : Z) :
  0 < mx -> t < 2 ^ 53 ->
  (IZR mx * bpow ex <= IZR t)%R ->
  let r := binary_round_aux F64.prec F64.emax false mx ex loc_Exact in
  nonneg_finite r = true /\ (F2R r <= IZR t)%R.
Proof.
  intros Hmx Ht Hv r.
  assert (IZR t < bpow 53)%R as Ht'
    by (rewrite bpow_IZR by lia; apply IZR_lt; exact Ht).
  assert (IZR mx * bpow ex < bpow 53)%R as H53 by lra.
  pose proof (binade_le mx ex 53 Hmx H53).
  destruct (round_exact_le_multiple mx ex t 0) as [Hfin Hle];
    try assumption; try lia.
  - change (bpow 0) with 1%R. lra.
  - change (bpow 0) with 1%R in Hle. fold r in Hfin, Hle.
    split; [exact Hfin | lra].
Qed.

(** ... a half-integer [k / 2] below [2^52], *)
Lemma round_exact_le_half (mx ex k : Z) :
  0 < mx -> k < 2 ^ 53 ->
  (IZR mx * bpow ex <= IZR k * / 2)%R ->
  let r := binary_round_aux F64.prec F64.emax false mx ex loc_Exact in
  nonneg_finite r = true /\ (F2R r <= IZR k * / 2)%R.
Proof.
  intros Hmx Hk Hv r.
  assert (bpow (-1) = / 2)%R as Hhalf
    by (change (-1) with (0 - 1); rewrite bpow_half; change (bpow 0) with 1%R; lra).
  assert (IZR k * / 2 < bpow 52)%R as Hk'.
  { rewrite bpow_IZR by lia. apply IZR_lt in Hk.
    change (2 ^ 53) with (2 * 2 ^ 52) in Hk. rewrite mult_IZR in Hk. lra. }
  assert (IZR mx * bpow ex < bpow 52)%R as H52 by lra.
  pose proof (binade_le mx ex 52 Hmx H52).
  pose proof (bpow_lt 52 53 ltac:(lia)).
  destruct (round_exact_le_multiple mx ex k (-1)) as [Hfin Hle];
    try assumption; try lia; try lra; try (rewrite Hhalf; lra).
  rewrite Hhalf in Hle. fold r in Hfin, Hle. split; [exact Hfin | lra].
Qed.

(** ... and stays at an integer [t] from [2^52] on when the value is
    less than one half above it. *)
Lemma round_exact_lt_half (mx ex t : Z) :
  0 < mx -> 2 ^ 52 <= t < 2 ^ 53 ->
  (IZR mx * bpow ex < IZR t + / 2)%R ->
  let r := binary_round_aux F64.prec F64.emax false mx ex loc_Exact in
  nonneg_finite r = true /\ (F2R r <= IZR t)%R.
Proof.
  intros Hmx Ht Hv r.
  destruct (Rle_lt_dec (IZR mx * bpow ex) (IZR t)) as [Hle|Hgt].
  { apply round_exact_le_int; [exact Hmx | lia | exact Hle]. }
  assert (IZR t + 1 <= bpow 53)%R as Ht53.
  { rewrite bpow_IZR by lia. rewrite <- plus_IZR. apply IZR_le. lia. }
  assert (bpow 52 <= IZR t)%R as Ht52
    by (rewrite bpow_IZR by lia; apply IZR_le; lia).
  assert (IZR mx * bpow ex < bpow 53)%R as H53 by lra.
  pose proof (binade_le mx ex 53 Hmx H53) as Hd1.
  pose proof (binade_ge mx ex 52 Hmx ltac:(lra)) as Hd2.
  pose proof (no_overflow_53 mx ex Hmx H53) as Hmax.
  destruct (output_exponent mx ex) as [[_ Hn]|[_ He]].
  - (* no shift: the value is an integer *)
    exfalso. rewrite fexp_eq in Hn.
    assert (0 <= ex) as Hex by lia.
    rewrite bpow_IZR, <- mult_IZR in Hv, Hgt by exact Hex.
    apply lt_IZR in Hgt.
    assert (IZR t + 1 <= IZR (mx * 2 ^ ex))%R
      by (rewrite <- plus_IZR; apply IZR_le; lia).
    lra.
  - assert (ex + shift_of mx ex = 0) as He0 by lia.
    destruct (binary_round_aux_threshold mx ex loc_Exact (IZR mx * bpow ex) t)
      as [Hfin Hle]; try assumption; try lia; try lra.
    + apply exact_never_up.
    + rewrite He0. change (bpow 0) with 1%R. lra.
    + rewrite He0 in Hle. change (bpow 0) with 1%R in Hle.
      fold r in Hfin, Hle. split; [exact Hfin | lra].
Qed.

(** *** The operations of the prompt budget, rounded to nearest *)

(** A product of non-negative floats is zero or the rounding of the
    exact product of the mantissas. *)
Lemma mul_exact (x y : float) :
  nonneg_finite x = true -> nonneg_finite y = true ->
  (nonneg_finite (F64.mul x y) = true /\ F2R (F64.mul x y) = 0%R)
  \/ exists m e,
       0 < m
       /\ F64.mul x y = binary_round_aux F64.prec F64.emax false m e loc_Exact
       /\ (F2R x * F2R y = IZR m * bpow e)%R.
Proof.
  intros Hx Hy.
  destruct x as [sx|sx| |sx mx ex]; try discriminate Hx;
    destruct y as [sy|sy| |sy my ey]; try discriminate Hy;
    try (left; split; reflexivity).
  destruct sx; [discriminate Hx|]. destruct sy; [discriminate Hy|].
  right. exists (Z.pos (mx * my)), (ex + ey).
  split; [lia|]. split; [reflexivity|].
  cbn [F2R]. rewrite bpow_add, Pos2Z.inj_mul, mult_IZR. ring.
Qed.

(** A product that is at most an integer below [2^53] rounds to at
    most that integer. *)
Lemma mul_le_int (x y : float) (t : Z) :
  nonneg_finite x = true -> nonneg_finite y = true ->
  0 <= t < 2 ^ 53 ->
  (F2R x * F2R y <= IZR t)%R ->
  nonneg_finite (F64.mul x y) = true /\ (F2R (F64.mul x y) <= IZR t)%R.
Proof.
  intros Hx Hy Ht Hv.
  destruct (mul_exact x y Hx Hy) as [[Hfin ->]|(m & e & Hm & -> & Hxy)].
  - split; [exact Hfin | apply IZR_le; lia].
  - rewrite Hxy in Hv. apply round_exact_le_int; [exact Hm | lia | exact Hv].
Qed.

(** The same for a half-integer [k / 2] below [2^52]. *)
Lemma mul_le_half (x y : float) (k : Z) :
  nonneg_finite x = true -> nonneg_finite y = true ->
  0 <= k < 2 ^ 53 ->
  (F2R x * F2R y <= IZR k * / 2)%R ->
  nonneg_finite (F64.mul x y) = true
  /\ (F2R (F64.mul x y) <= IZR k * / 2)%R.
Proof.
  intros Hx Hy Hk Hv.
  destruct (mul_exact x y Hx Hy) as [[Hfin ->]|(m & e & Hm & -> & Hxy)].
  - split; [exact Hfin|]. assert (0 <= IZR k)%R by (apply IZR_le; lia). lra.
  - rewrite Hxy in Hv. apply round_exact_le_half; [exact Hm | lia | exact Hv].
Qed.

(** From [2^52] on the floats are the integers: a product less than
    one half above the integer [t] rounds to at most [t]. *)
Lemma mul_lt_half (x y : float) (t : Z) :
  nonneg_finite x = true -> nonneg_finite y = true ->
  2 ^ 52 <= t < 2 ^ 53 ->
  (F2R x * F2R y < IZR t + / 2)%R ->
  nonneg_finite (F64.mul x y) = true /\ (F2R (F64.mul x y) <= IZR t)%R.
Proof.
  intros Hx Hy Ht Hv.
  destruct (mul_exact x y Hx Hy) as [[Hfin ->]|(m & e & Hm & -> & Hxy)].
  - split; [exact Hfin | apply IZR_le; lia].
  - rewrite Hxy in Hv. apply round_exact_lt_half; [exact Hm | lia | exact Hv].
Qed.

(** An integer below [2^53] converts without error. *)
Lemma of_Z_le (z : Z) :
  0 <= z < 2 ^ 53 ->
  nonneg_finite (F64.of_Z z) = true /\ (F2R (F64.of_Z z) <= IZR z)%R.
Proof.
  intros Hz. destruct z as [|p|p]; [| |lia].
  - split; [reflexivity|]. cbn [F64.of_Z binary_normalize F2R]. lra.
  - unfold F64.of_Z, binary_normalize, binary_round.
    pose proof (shl_align_value p 0
                  (fexp F64.prec F64.emax (Z.pos (digits2_pos p) + 0))) as Hv.
    destruct (shl_align p 0 _) as [mz ez]. cbn [fst snd] in Hv.
    replace (bpow 0) with 1%R in Hv by reflexivity. rewrite Rmult_1_r in Hv.
    apply round_exact_le_int; [lia | lia | lra].
Qed.

(** [new_location] asks to round up only when the remainder reaches
    half the divisor. *)
Lemma new_location_up (b r q : Z) :
  round_nearest_even q (new_location b r) = q + 1 -> b <= 2 * r.
Proof.
  unfold new_location, new_location_even, new_location_odd.
  destruct (Z.even b); destruct (r =? 0); cbn [round_nearest_even]; try lia.
  - destruct (Z.compare_spec (2 * r) b); cbn [round_nearest_even]; lia.
  - destruct (Z.compare_spec (2 * r + 1) b); cbn [round_nearest_even]; lia.
Qed.

(** The quotient mantissa, its exponent and its location. *)
Lemma div_core_half (a b : Z) :
  0 < a -> a < b -> b < 2 ^ 53 ->
  exists q e l,
    SFdiv_core_binary F64.prec F64.emax a 0 b 0 = (q, e, l)
    /\ 0 < q /\ e <= -53
    /\ (IZR q * bpow e <= IZR a / IZR b)%R
    /\ (round_nearest_even q l = q + 1 ->
        ((IZR q + / 2) * bpow e <= IZR a / IZR b)%R).
Proof.
  intros Ha Hab Hb.
  pose proof (Zdigits2_le_of_lt a b Ha Hab) as Hd.
  pose proof (Zdigits2_le_bits b 53 ltac:(lia) ltac:(lia) Hb) as Hd2.
  pose proof (Zdigits2_pos a Ha) as Hd1.
  pose proof (Zdigits2_bounds a Ha) as [Ha1 _].
  pose proof (Zdigits2_bounds b ltac:(lia)) as [_ Hb2].
  unfold SFdiv_core_binary. rewrite fexp_eq.
  set (d1 := Zdigits2 a) in *. set (d2 := Zdigits2 b) in *.
  replace (Z.min (Z.max (d1 + 0 - (d2 + 0) - 53) (-1074)) (0 - 0))
    with (- (53 + d2 - d1)) by lia.
  replace (0 - 0 - - (53 + d2 - d1)) with (53 + d2 - d1) by lia.
  set (s := 53 + d2 - d1).
  assert (53 <= s) as Hs by (subst s; lia).
  assert (match s with Z.pos _ => Z.shiftl a s | 0 => a | Z.neg _ => 0 end
          = a * 2 ^ s) as ->.
  { destruct s; try lia. rewrite Z.shiftl_mul_pow2 by lia. reflexivity. }
  pose proof (Z_div_mod (a * 2 ^ s) b ltac:(lia)) as Hdm.
  destruct (Z.div_eucl (a * 2 ^ s) b) as [q r] eqn:E.
  exists q, (- s), (new_location b r). split; [reflexivity|].
  destruct Hdm as [Hq Hr].
  pose proof (pow2_pos s ltac:(lia)) as Hps.
  assert (2 ^ 52 * b <= a * 2 ^ s) as Hlow.
  { assert (2 ^ (52 + d2) <= a * 2 ^ s) as H1.
    { replace (52 + d2) with ((d1 - 1) + s) by (subst s; lia).
      rewrite Z.pow_add_r by lia. nia. }
    rewrite Z.pow_add_r in H1 by lia. nia. }
  split; [nia|]. split; [lia|].
  rewrite bpow_neg by lia. rewrite <- bpow_IZR by lia.
  pose proof (bpow_pos s) as Hbs.
  assert (0 < IZR b)%R as Hb0 by (apply IZR_lt; lia).
  assert (forall x : R,
            (x * IZR b <= IZR a * bpow s)%R ->
            (x * / bpow s <= IZR a / IZR b)%R) as Hdiv.
  { intros x Hx. unfold Rdiv.
    apply (Rmult_le_reg_r (bpow s * IZR b)); [nra|].
    replace (x * / bpow s * (bpow s * IZR b))%R with (x * IZR b)%R
      by (field; lra).
    replace (IZR a * / IZR b * (bpow s * IZR b))%R with (IZR a * bpow s)%R
      by (field; lra).
    exact Hx. }
  split.
  - apply Hdiv. rewrite bpow_IZR by lia. rewrite <- !mult_IZR.
    apply IZR_le. nia.
  - intros Hup. apply new_location_up in Hup. apply Hdiv.
    assert (IZR (2 * q + 1) * IZR b <= 2 * (IZR a * bpow s))%R as H2.
    { rewrite bpow_IZR by lia. rewrite <- !mult_IZR.
      apply IZR_le. nia. }
    rewrite plus_IZR, mult_IZR in H2. lra.
Qed.

(** True division of two integers below [2^53], the smaller by the
    larger: the quotient is at most [2^-54] too large. *)
Lemma int_true_div_half (a b : Z) :
  0 <= a -> a < b -> b < 2 ^ 53 ->
  exists r, int_true_div a b = Ok r
            /\ nonneg_finite r = true
            /\ (F2R r <= IZR a / IZR b + bpow (-54))%R.
Proof.
  intros Ha Hab Hb. unfold int_true_div.
  assert ((b =? 0) = false) as -> by (apply Z.eqb_neq; lia).
  assert ((a <? 0) = false) as -> by (apply Z.ltb_ge; lia).
  assert ((b <? 0) = false) as -> by (apply Z.ltb_ge; lia).
  cbn [xorb].
  pose proof (bpow_pos (-54)) as Hu.
  assert (0 < IZR b)%R as Hb0 by (apply IZR_lt; lia).
  destruct (Z.eqb_spec a 0) as [->|Hne].
  - eexists. split; [reflexivity|]. split; [reflexivity|].
    cbn [F2R]. unfold Rdiv. rewrite Rmult_0_l. lra.
  - rewrite !Z.abs_eq by lia.
    destruct (div_core_half a b ltac:(lia) Hab Hb)
      as (q & e & l & -> & Hq & He & Hv & Hup).
    assert (IZR a / IZR b < 1)%R as Hlt1.
    { apply (Rmult_lt_reg_r (IZR b)); [exact Hb0|].
      unfold Rdiv. rewrite Rmult_assoc, Rinv_l, Rmult_1_r, Rmult_1_l by lra.
      apply IZR_lt. exact Hab. }
    assert (ex_le : e + shift_of q e <= -53).
    { destruct (output_exponent q e) as [[-> _]|[_ ->]]; [lia|].
      assert (IZR q * bpow e < bpow 0)%R as H0
        by (change (bpow 0) with 1%R; lra).
      pose proof (binade_le q e 0 Hq H0). lia. }
    pose proof (bpow_le _ _ ex_le) as Hpe.
    pose proof (bpow_pos (e + shift_of q e)) as Hpe0.
    assert (bpow (-53) < 1)%R as H53.
    { change 1%R with (bpow 0). apply bpow_lt. lia. }
    pose proof bpow_53_small as Hbig.
    assert (1 <= bpow 53)%R as Hone by (apply bpow_ge_1; lia).
    destruct (binary_round_aux_half q e l (IZR a / IZR b))
      as (Hfin & m' & Hle & Hhalf); [lia | exact Hv | exact Hup | lra |].
    rewrite (nonneg_is_finite _ Hfin).
    eexists. split; [reflexivity|]. split; [exact Hfin|].
    assert (bpow (-54) = bpow (-53) * / 2)%R as ->
      by (change (-54) with (-53 - 1); apply bpow_half).
    lra.
Qed.

(** *** The truncation length *)

(** While [float(len(prompt))] is exact, the truncation length never
    exceeds [4 * max_tokens + 3]: the ratio is at most [2^-54] too
    large, so the first product is less than one half above
    [4 * max_tokens + 3], and neither product rounds across the nearest
    float at or below that bound. *)
Lemma truncate_length_le (self : CostOptimizer) (prompt : string) (max_tokens : Z) :
  Z.of_nat (String.length prompt) < 2 ^ 53 ->
  0 <= max_tokens < estimate_tokens prompt ->
  F64.valid (token_buffer self) = true ->
  F64.ltb F64.zero (token_buffer self) = true ->
  F64.leb (token_buffer self) F64.one = true ->
  exists n, truncate_length self prompt max_tokens = Ok n
            /\ 0 <= n <= 4 * max_tokens + 3.
Proof.
  intros Hlen Hmax Hvalid Hpos Hle1.
  unfold truncate_length. unfold estimate_tokens in *.
  set (L := Z.of_nat (String.length prompt)) in *.
  set (b := L / 4) in *. set (a := max_tokens) in *.
  assert (4 * b <= L <= 4 * b + 3) as HLb.
  { pose proof (Z.div_mod L 4 ltac:(lia)) as Hdm.
    pose proof (Z.mod_pos_bound L 4 ltac:(lia)) as Hmod.
    fold b in Hdm. lia. }
  set (t := 4 * a + 3).
  assert (0 <= t < 2 ^ 53) as Ht by (subst t; lia).
  (* ratio *)
  destruct (int_true_div_half a b ltac:(lia) ltac:(lia) ltac:(lia))
    as (r0 & -> & Hr0 & Hr0v).
  cbn [bind].
  pose proof (F2R_nonneg r0 Hr0) as Hr00.
  assert (0 < IZR b)%R as Hb0 by (apply IZR_lt; lia).
  assert (0 <= IZR a / IZR b <= 1)%R as HA.
  { assert (0 <= IZR a)%R by (apply IZR_le; lia).
    assert (IZR a <= IZR b)%R by (apply IZR_le; lia).
    split.
    - apply Rmult_le_pos; [lra|]. apply Rlt_le, Rinv_0_lt_compat, Hb0.
    - apply (Rmult_le_reg_r (IZR b)); [exact Hb0|].
      unfold Rdiv. rewrite Rmult_assoc, Rinv_l by lra. lra. }
  set (A := (IZR a / IZR b)%R) in *.
  (* float(len(prompt)) *)
  destruct (of_Z_le L ltac:(lia)) as [Hlf Hlfv].
  unfold float_of_int. rewrite (nonneg_is_finite _ Hlf). cbn [bind].
  set (lf := F64.of_Z L) in *.
  pose proof (F2R_nonneg lf Hlf) as Hlf0.
  (* the exact first product *)
  assert (0 <= IZR L < IZR (2 ^ 53))%R as HLR
    by (split; [apply IZR_le; lia | apply IZR_lt; exact Hlen]).
  assert (IZR L * A <= IZR t)%R as HX.
  { assert (IZR L <= IZR (4 * b + 3))%R as H1 by (apply IZR_le; lia).
    assert (IZR L * A <= IZR (4 * b + 3) * A)%R as H2
      by (apply Rmult_le_compat_r; lra).
    assert (IZR (4 * b + 3) * A = 4 * IZR a + 3 * A)%R as H3.
    { rewrite plus_IZR, mult_IZR. unfold A. field. lra. }
    unfold t. rewrite plus_IZR, mult_IZR. lra. }
  assert (IZR L * bpow (-54) < / 2)%R as Hu.
  { change (-54) with (- (54)). rewrite bpow_neg by lia.
    change (2 ^ 54) with (2 ^ 53 * 2). rewrite mult_IZR.
    pose proof (IZR_lt 0 (2 ^ 53) eq_refl) as Hp.
    rewrite Rinv_mult.
    assert (IZR L * / IZR (2 ^ 53) < 1)%R.
    { apply (Rmult_lt_reg_r (IZR (2 ^ 53))); [exact Hp|].
      rewrite Rmult_assoc, Rinv_l by lra. lra. }
    lra. }
  assert (F2R lf * F2R r0 < IZR t + / 2)%R as Hv1.
  { assert (F2R lf * F2R r0 <= IZR L * (A + bpow (-54)))%R
      by (apply Rmult_le_compat; lra).
    lra. }
  destruct (unit_fraction_bound _ Hvalid Hpos Hle1) as [Hbuf Hbufv].
  pose proof (F2R_nonneg _ Hbuf) as Hbuf0.
  assert (forall p : float,
            nonneg_finite p = true ->
            (F2R p * F2R (token_buffer self) <= F2R p)%R) as Hshrink.
  { intros p Hp. pose proof (F2R_nonneg p Hp).
    assert (F2R p * F2R (token_buffer self) <= F2R p * 1)%R
      by (apply Rmult_le_compat_l; lra).
    lra. }
  assert (exists p2,
            F64.mul (F64.mul lf r0) (token_buffer self) = p2
            /\ nonneg_finite p2 = true
            /\ (F2R p2 < IZR t + 1)%R) as (p2 & -> & Hp2 & Hp2v).
  { eexists. split; [reflexivity|].
    destruct (Z_lt_le_dec t (2 ^ 52)) as [Hsmall|Hbig].
    - (* below 2^52 the half-integer [t + 1/2] is a float *)
      assert (IZR (2 * t + 1) * / 2 = IZR t + / 2)%R as Hk
        by (rewrite plus_IZR, mult_IZR; lra).
      destruct (mul_le_half lf r0 (2 * t + 1) Hlf Hr0 ltac:(lia)) as [Hp1 Hp1v];
        [lra|].
      pose proof (Hshrink _ Hp1).
      destruct (mul_le_half (F64.mul lf r0) (token_buffer self) (2 * t + 1)
                  Hp1 Hbuf ltac:(lia)) as [Hp2 Hp2v]; [lra|].
      split; [exact Hp2 | lra].
    - (* from 2^52 on the floats are integers *)
      destruct (mul_lt_half lf r0 t Hlf Hr0 ltac:(lia) Hv1) as [Hp1 Hp1v].
      pose proof (Hshrink _ Hp1).
      destruct (mul_le_int (F64.mul lf r0) (token_buffer self) t
                  Hp1 Hbuf ltac:(lia)) as [Hp2 Hp2v]; [lra|].
      split; [exact Hp2 | lra]. }
  (* int(...) *)
  destruct (int_of_float_bound p2 Hp2) as (n & -> & Hn0 & Hnv).
  exists n. split; [reflexivity|]. split; [exact Hn0|].
  assert (IZR n < IZR (t + 1))%R as Hlt by (rewrite plus_IZR; lra).
  apply lt_IZR in Hlt. unfold t in Hlt. lia.
Qed.

(** ** The budget of a truncated prompt *)

Lemma estimate_tokens_slice (prompt : string) (n max_tokens : Z) :
  0 <= n <= 4 * max_tokens + 3 ->
  estimate_tokens (slice_to prompt n) <= max_tokens.
Proof.
  intros Hn. unfold estimate_tokens. rewrite slice_to_length by lia.
  assert (Z.min n (Z.of_nat (String.length prompt)) / 4 < max_tokens + 1);
    [|lia].
  apply Z.div_lt_upper_bound; lia.
Qed.

(** C10. For every prompt string of fewer than [2^53] characters, every
    non-negative [max_tokens] and every binary64 [token_buffer] in
    [(0, 1]], [optimize_prompt] returns a prefix of the prompt whose
    estimated token count is at most [max_tokens].  The bound on the
    length holds for every string a process can hold (one of [2^53]
    characters takes 8 PiB at least); it is the range in which
    [float(len(prompt))] is exact. *)
Theorem optimize_prompt_fits
    (self : CostOptimizer) (prompt : string) (max_tokens : Z) :
  Z.of_nat (String.length prompt) < 2 ^ 53 ->
  0 <= max_tokens ->
  F64.valid (token_buffer self) = true ->
  F64.ltb F64.zero (token_buffer self) = true ->
  F64.leb (token_buffer self) F64.one = true ->
  exists r, optimize_prompt self prompt max_tokens = Ok r
            /\ String.prefix r prompt = true
            /\ estimate_tokens r <= max_tokens.
Proof.
  intros Hlen Hmax Hvalid Hpos Hle1. unfold optimize_prompt.
  destruct (Z.leb_spec (estimate_tokens prompt) max_tokens) as [Hfit|Hover].
  - exists prompt. split; [reflexivity|]. split; [apply prefix_refl | exact Hfit].
  - destruct (truncate_length_le self prompt max_tokens Hlen
                (conj Hmax Hover) Hvalid Hpos Hle1) as (n & -> & Hn).
    cbn [bind]. eexists. split; [reflexivity|].
    split; [apply slice_to_prefix | apply estimate_tokens_slice, Hn].
Qed.

Lemma optimize_prompt_fits_witness :
  Z.of_nat (String.length (prompt_of_length 1000)) < 2 ^ 53
  /\ F64.valid (token_buffer (__init__ None 0)) = true
  /\ F64.ltb F64.zero (token_buffer (__init__ None 0)) = true
  /\ F64.leb (token_buffer (__init__ None 0)) F64.one = true
  /\ exists r,
       optimize_prompt (__init__ None 0) (prompt_of_length 1000) 100 = Ok r
       /\ String.prefix r (prompt_of_length 1000) = true
       /\ estimate_tokens r <= 100.
Proof.
  repeat (split; [reflexivity|]).
  apply (optimize_prompt_fits (__init__ None 0) (prompt_of_length 1000) 100);
    reflexivity || (vm_compute; discriminate).
Defined.

Lemma prompt_of_length_length (n : nat) :
  String.length (prompt_of_length n) = n.
Proof.
  induction n as [|n IH]; [reflexivity|].
  cbn [prompt_of_length String.length]. rewrite IH. reflexivity.
Qed.

(** The range of the lengths is sharp for the arithmetic.  If a string
    of [2^53 + 3] characters could be held, [float] would round its
    length up to [2^53 + 4]; with [max_tokens = 2^51 - 1] and
    [token_buffer = 1.0] the product with the ratio [1 - 2^-51] then
    rounds to [2^53], one character more than the budget allows. *)
Lemma inexact_length_misses_budget (prompt : string) :
  Z.of_nat (String.length prompt) = 2 ^ 53 + 3 ->
  let self := __init__ (Some buffer_one) 0 in
  optimize_prompt self prompt (2 ^ 51 - 1) = Ok (slice_to prompt (2 ^ 53))
  /\ estimate_tokens (slice_to prompt (2 ^ 53)) = 2 ^ 51.
Proof.
  intros Hlen self. split.
  - unfold optimize_prompt, truncate_length, estimate_tokens.
    change (token_buffer self) with F64.one. rewrite Hlen.
    assert (((2 ^ 53 + 3) / 4 <=? 2 ^ 51 - 1) = false) as -> by reflexivity.
    assert (int_true_div (2 ^ 51 - 1) ((2 ^ 53 + 3) / 4)
            = Ok (S754_finite false 9007199254740988 (-53))) as ->
      by (vm_compute; reflexivity).
    cbn [bind].
    assert (float_of_int (2 ^ 53 + 3) = Ok (F64.of_Z (2 ^ 53 + 3))) as ->
      by (vm_compute; reflexivity).
    cbn [bind].
    assert (int_of_float
              (F64.mul (F64.mul (F64.of_Z (2 ^ 53 + 3))
                          (S754_finite false 9007199254740988 (-53)))
                 F64.one)
            = Ok (2 ^ 53)) as -> by (vm_compute; reflexivity).
    reflexivity.
  - unfold estimate_tokens. rewrite slice_to_length by lia.
    rewrite Hlen. reflexivity.
Qed.

(** * Further properties *)

(** ** Histories of calls *)

Lemma track_events_cons self e events :
  track_events self (e :: events) =
  track_events
    (track_usage self (event_date e) (event_tokens e) (event_cost e)) events.
Proof. reflexivity. Qed.

Lemma track_events_config self events :
  max_daily_requests (track_events self events) = max_daily_requests self.
Proof.
  revert self. induction events as [|e events IH]; intros self; [reflexivity|].
  rewrite track_events_cons, IH. apply track_usage_config.
Qed.

Lemma history_ok_init config today : history_ok (__init__ config today).
Proof. intros d u H. cbn in H. rewrite lookup_empty in H. discriminate H. Qed.

Lemma history_ok_track self today tokens_used cost_ :
  history_ok self -> history_ok (track_usage self today tokens_used cost_).
Proof.
  intros Hok d u H. rewrite track_usage_last_reset.
  rewrite track_usage_history in H. cbv zeta in H.
  destruct (decide (d = today)) as [->|Hne].
  - rewrite lookup_insert_eq in H. injection H as <-. split; [apply Z.le_max_r|].
    cbn [bump requests].
    destruct (last_reset self <? today); [rewrite lookup_empty; cbn; lia|].
    destruct (usage_history self !! today) as [u|] eqn:E; cbn.
    + destruct (Hok _ _ E). lia.
    + lia.
  - rewrite lookup_insert_ne in H by congruence.
    destruct (last_reset self <? today); [rewrite lookup_empty in H; discriminate H|].
    destruct (Hok _ _ H) as [H1 H2]. split; [|exact H2].
    etransitivity; [exact H1 | apply Z.le_max_l].
Qed.

Lemma history_ok_events self events :
  history_ok self -> history_ok (track_events self events).
Proof.
  revert self. induction events as [|e events IH]; intros self H; [exact H|].
  rewrite track_events_cons. apply IH, history_ok_track, H.
Qed.

Lemma history_ok_stats self today :
  history_ok self -> 0 <= requests (get_usage_stats self today).
Proof.
  intros Hok. unfold get_usage_stats.
  destruct (usage_history self !! today) as [u|] eqn:E; cbn.
  - destruct (Hok _ _ E). lia.
  - lia.
Qed.

Lemma history_ok_future self today :
  history_ok self -> last_reset self < today ->
  get_usage_stats self today = zero_usage.
Proof.
  intros Hok Hlt. unfold get_usage_stats.
  destruct (usage_history self !! today) as [u|] eqn:E; [|reflexivity].
  destruct (Hok _ _ E). lia.
Qed.

Lemma track_events_last_reset self events :
  last_reset (track_events self events) =
  fold_left Z.max (map event_date events) (last_reset self).
Proof.
  revert self. induction events as [|e events IH]; intros self; [reflexivity|].
  rewrite track_events_cons, IH, track_usage_last_reset. reflexivity.
Qed.

(** X1. After any sequence of [track_usage] calls on a new optimizer,
    whatever the clock did: [last_reset] is the latest date seen (the
    construction date included), every stored record is dated no later
    than [last_reset], and every stored record counts at least one
    request. *)
Theorem history_invariant (config : option Config) (d0 : Z) (events : list event) :
  let self := track_events (__init__ config d0) events in
  last_reset self = fold_left Z.max (map event_date events) d0
  /\ forall d u, usage_history self !! d = Some u ->
                 d <= last_reset self /\ 1 <= requests u.
Proof.
  intros self. split.
  - unfold self. rewrite track_events_last_reset. reflexivity.
  - apply history_ok_events, history_ok_init.
Qed.

Lemma history_invariant_witness :
  let self := track_events (__init__ None 2)
                [(3, 10, F64.one); (1, 5, F64.one)] in
  last_reset self = 3
  /\ usage_history self !! 1
     = Some {| requests := 1; tokens := 5; cost := F64.one |}
  /\ 1 <= 3 /\ 1 <= 1.
Proof.
  intros self.
  destruct (history_invariant None 2 [(3, 10, F64.one); (1, 5, F64.one)])
    as [Hreset Hrecords].
  split; [exact Hreset|].
  assert (usage_history self !! 1
          = Some {| requests := 1; tokens := 5; cost := F64.one |}) as Hone
    by (vm_compute; reflexivity).
  split; [exact Hone|].
  exact (Hrecords 1 _ Hone).
Defined.

(** X2. A daily quota of zero or less closes the gate for good: after
    any sequence of [track_usage] calls, on any date and for any input,
    [should_use_llm] returns [False]. *)
Theorem nonpositive_quota_never_runs
    (config : option Config) (d0 : Z) (events : list event)
    (today : date) (data : pyval) :
  max_daily_requests (__init__ config d0) <= 0 ->
  should_use_llm (track_events (__init__ config d0) events) today data = Ok false.
Proof.
  intros Hmax. apply should_use_llm_quota_exhausted.
  rewrite track_events_config.
  pose proof (history_ok_stats _ today
                (history_ok_events _ events (history_ok_init config d0))).
  lia.
Qed.

Lemma nonpositive_quota_never_runs_witness :
  should_use_llm
    (track_events
       (__init__ (Some {| cfg_max_requests_per_day := Some 0;
                          cfg_token_buffer := None;
                          cfg_complexity_threshold := None |}) 0)
       [(0, 10, F64.one)])
    5 only_total_links_5 = Ok false.
Proof.
  apply (nonpositive_quota_never_runs
           (Some {| cfg_max_requests_per_day := Some 0;
                    cfg_token_buffer := None;
                    cfg_complexity_threshold := None |})
           0 [(0, 10, F64.one)] 5 only_total_links_5).
  cbn. lia.
Defined.

(** X3. On a date after the last reset the gate reads a zero count,
    although the earlier records are still stored: with a positive
    quota [should_use_llm] approves every well-typed input there,
    whatever was used before. *)
Theorem new_day_reopens_gate
    (config : option Config) (d0 : Z) (events : list event)
    (today : date) (data : pyval) :
  let self := track_events (__init__ config d0) events in
  last_reset self < today ->
  0 < max_daily_requests self ->
  well_typed data = true ->
  get_usage_stats self today = zero_usage
  /\ should_use_llm self today data = Ok true.
Proof.
  intros self Hlt Hmax Hwt.
  assert (get_usage_stats self today = zero_usage) as Hzero
    by (apply history_ok_future;
        [apply history_ok_events, history_ok_init | exact Hlt]).
  split; [exact Hzero|].
  apply should_use_llm_quota_left; [exact Hwt|]. rewrite Hzero. exact Hmax.
Qed.

Lemma new_day_reopens_gate_witness :
  let self := track_events (__init__ (Some quota_two) 0)
                [(0, 10, F64.one); (0, 20, F64.one)] in
  usage_history self !! 0 = Some {| requests := 2; tokens := 30;
                                    cost := F64.of_Z 2 |}
  /\ should_use_llm self 0 only_total_links_5 = Ok false
  /\ get_usage_stats self 1 = zero_usage
  /\ should_use_llm self 1 only_total_links_5 = Ok true.
Proof.
  intros self. split; [vm_compute; reflexivity|].
  split; [vm_compute; reflexivity|].
  apply (new_day_reopens_gate (Some quota_two) 0
           [(0, 10, F64.one); (0, 20, F64.one)] 1 only_total_links_5);
    vm_compute; reflexivity.
Defined.

(** X4. When the clock is set back, nothing is cleared: after usage on
    a date [D], a [track_usage] on an earlier date [d] leaves
    [last_reset] at [D], keeps the record of [D] as it was and adds one
    for [d], so the history then holds two dates. *)
Theorem clock_set_back_keeps_records
    (self : CostOptimizer) (D d t t' : Z) (c c' : float) :
  last_reset self <= D -> d < D ->
  let after_D := track_usage self D t c in
  let back := track_usage after_D d t' c' in
  last_reset back = D
  /\ usage_history back !! D = usage_history after_D !! D
  /\ is_Some (usage_history back !! D)
  /\ is_Some (usage_history back !! d).
Proof.
  intros HD Hd after_D back.
  assert (last_reset after_D = D) as Hreset
    by (unfold after_D; rewrite track_usage_last_reset; lia).
  assert (is_Some (usage_history after_D !! D)) as HsD
    by (unfold after_D; rewrite track_usage_history; cbv zeta;
        rewrite lookup_insert_eq; eauto).
  assert (usage_history back !! D = usage_history after_D !! D) as Hkeep.
  { unfold back. rewrite track_usage_history. cbv zeta.
    rewrite lookup_insert_ne by lia.
    assert ((last_reset after_D <? d) = false) as -> by (apply Z.ltb_ge; lia).
    reflexivity. }
  split; [unfold back; rewrite track_usage_last_reset; lia|].
  split; [exact Hkeep|]. split; [rewrite Hkeep; exact HsD|].
  unfold back. rewrite track_usage_history. cbv zeta.
  rewrite lookup_insert_eq. eauto.
Qed.

Lemma clock_set_back_keeps_records_witness :
  let back := track_usage (track_usage (__init__ None 0) 5 10 F64.one)
                4 20 F64.one in
  last_reset back = 5
  /\ requests (get_usage_stats back 5) = 1
  /\ requests (get_usage_stats back 4) = 1.
Proof.
  intros back.
  destruct (clock_set_back_keeps_records (__init__ None 0) 5 4 10 20
              F64.one F64.one) as (H1 & _); [cbn; lia | lia |].
  split; [exact H1|]. split; vm_compute; reflexivity.
Defined.

(** *** Totals of the current day *)

Lemma last_date_cons start e events :
  last_date start (e :: events) = last_date (event_date e) events.
Proof. reflexivity. Qed.

Lemma last_date_ge start events :
  clock_monotone start events = true -> start <= last_date start events.
Proof.
  revert start. induction events as [|e events IH]; intros start H.
  - cbn. lia.
  - cbn [clock_monotone] in H. apply andb_true_iff in H. destruct H as [H1 H2].
    apply Z.leb_le in H1. rewrite last_date_cons. apply IH in H2. lia.
Qed.

Lemma totals_requests events : forall u,
  requests (totals u events) = requests u + Z.of_nat (length events).
Proof.
  induction events as [|e events IH]; intros u.
  - cbn. lia.
  - cbn [totals fold_left length]. fold (totals (bump u (event_tokens e) (event_cost e)) events).
    rewrite IH. cbn [bump requests]. lia.
Qed.

Lemma totals_tokens events : forall u,
  tokens (totals u events) = tokens u + sum_tokens events.
Proof.
  induction events as [|e events IH]; intros u.
  - cbn. lia.
  - cbn [totals fold_left sum_tokens fold_right].
    fold (totals (bump u (event_tokens e) (event_cost e)) events).
    fold (sum_tokens events). rewrite IH. cbn [bump tokens]. lia.
Qed.

(** With a clock that never runs backwards, the record of the last
    date holds the totals of the calls made on that date, on top of
    what the record held if the day had already begun. *)
Lemma track_events_totals events : forall self,
  clock_monotone (last_reset self) events = true ->
  let D := last_date (last_reset self) events in
  last_reset (track_events self events) = D
  /\ get_usage_stats (track_events self events) D =
     totals (if D =? last_reset self then get_usage_stats self D else zero_usage)
            (on_date D events).
Proof.
  induction events as [|e events IH]; intros self Hmono.
  - cbn. rewrite Z.eqb_refl. split; reflexivity.
  - cbn [clock_monotone] in Hmono. apply andb_true_iff in Hmono.
    destruct Hmono as [Hle Hmono]. apply Z.leb_le in Hle.
    set (s1 := track_usage self (event_date e) (event_tokens e) (event_cost e)).
    assert (last_reset s1 = event_date e) as Hs1
      by (unfold s1; rewrite track_usage_last_reset; lia).
    rewrite track_events_cons, last_date_cons. fold s1.
    rewrite <- Hs1 in Hmono. specialize (IH s1 Hmono). rewrite Hs1 in IH, Hmono.
    cbv zeta in IH. destruct IH as [IH1 IH2].
    cbv zeta. split; [exact IH1|]. rewrite IH2.
    pose proof (last_date_ge _ _ Hmono) as Hge.
    set (D := last_date (event_date e) events) in *.
    unfold on_date. cbn [List.filter]. fold (on_date D events).
    destruct (Z.eqb_spec D (event_date e)) as [HD|HD].
    + rewrite HD, Z.eqb_refl. cbn [totals fold_left].
      fold (totals (bump (if event_date e =? last_reset self
                          then get_usage_stats self (event_date e)
                          else zero_usage) (event_tokens e) (event_cost e))
              (on_date (event_date e) events)).
      f_equal. unfold s1. rewrite get_usage_stats_track.
      destruct (Z.ltb_spec (last_reset self) (event_date e));
        destruct (Z.eqb_spec (event_date e) (last_reset self)); try lia;
        reflexivity.
    + assert ((event_date e =? D) = false) as -> by (apply Z.eqb_neq; lia).
      assert ((D =? last_reset self) = false) as -> by (apply Z.eqb_neq; lia).
      reflexivity.
Qed.

(** X5. With a clock that never runs backwards, starting from an empty
    history, today's record (today being the date of the last call)
    counts exactly the calls made today, totals exactly their tokens,
    and adds up their costs in call order from 0.0; calls of earlier
    days do not enter it. *)
Theorem todays_record_totals_todays_calls
    (self : CostOptimizer) (events : list event) :
  fresh self ->
  clock_monotone (last_reset self) events = true ->
  let today := last_date (last_reset self) events in
  let record := get_usage_stats (track_events self events) today in
  record = totals zero_usage (on_date today events)
  /\ requests record = Z.of_nat (length (on_date today events))
  /\ tokens record = sum_tokens (on_date today events).
Proof.
  intros Hfresh Hmono today record.
  destruct (track_events_totals events self Hmono) as [_ H].
  fold today in H. fold record in H.
  assert (record = totals zero_usage (on_date today events)) as Hrec.
  { rewrite H. destruct (today =? last_reset self); [|reflexivity].
    unfold get_usage_stats. rewrite Hfresh, lookup_empty. reflexivity. }
  split; [exact Hrec|]. rewrite Hrec, totals_requests, totals_tokens.
  cbn. split; lia.
Qed.

Lemma todays_record_totals_todays_calls_witness :
  let events := [(0, 10, F64.one); (1, 20, F64.one); (1, 30, F64.one)] in
  fresh (__init__ None 0)
  /\ clock_monotone (last_reset (__init__ None 0)) events = true
  /\ get_usage_stats (track_events (__init__ None 0) events) 1 =
     {| requests := 2; tokens := 50; cost := F64.of_Z 2 |}.
Proof.
  intros events. split; [reflexivity|]. split; [reflexivity|].
  destruct (todays_record_totals_todays_calls (__init__ None 0) events)
    as (H & _); [reflexivity | reflexivity |].
  cbv zeta in H. etransitivity; [exact H|]. vm_compute. reflexivity.
Defined.

(** X6. The quota is per day. With a clock that never runs backwards,
    starting from an empty history, on the date of the last call the
    gate refuses every input as soon as the calls made that day reach
    [max_requests_per_day], and approves every well-typed input while
    they are fewer, however many calls earlier days saw. *)
Theorem quota_counts_todays_calls_only
    (self : CostOptimizer) (events : list event) (data : pyval) :
  fresh self ->
  clock_monotone (last_reset self) events = true ->
  let today := last_date (last_reset self) events in
  let n := Z.of_nat (length (on_date today events)) in
  (max_daily_requests self <= n ->
   should_use_llm (track_events self events) today data = Ok false)
  /\ (n < max_daily_requests self ->
      well_typed data = true ->
      should_use_llm (track_events self events) today data = Ok true).
Proof.
  intros Hfresh Hmono today n.
  destruct (track_events_totals events self Hmono) as [_ H].
  fold today in H.
  assert (requests (get_usage_stats (track_events self events) today) = n) as Hn.
  { rewrite H, totals_requests.
    destruct (today =? last_reset self); [|cbn; lia].
    unfold get_usage_stats. rewrite Hfresh, lookup_empty. cbn. lia. }
  split.
  - intros Hmax. apply should_use_llm_quota_exhausted.
    rewrite track_events_config, Hn. exact Hmax.
  - intros Hmax Hwt. apply should_use_llm_quota_left; [exact Hwt|].
    rewrite track_events_config, Hn. exact Hmax.
Qed.

Lemma quota_counts_todays_calls_only_witness :
  let events := [(0, 10, F64.one); (0, 10, F64.one); (1, 20, F64.one)] in
  fresh (__init__ (Some quota_two) 0)
  /\ clock_monotone (last_reset (__init__ (Some quota_two) 0)) events = true
  /\ should_use_llm (track_events (__init__ (Some quota_two) 0) events) 1
       only_total_links_5 = Ok true.
Proof.
  intros events. split; [reflexivity|]. split; [reflexivity|].
  apply (quota_counts_todays_calls_only (__init__ (Some quota_two) 0) events
           only_total_links_5); reflexivity.
Defined.

(** ** The scorer *)

(** X7. Whatever the input, a returned complexity score is at most
    [(0.7 + 0.8 + 0.8) / 3], which is below 0.77; the bound is reached
    by a page with no meta description, a title of 61 characters, 1001
    words, 9 backlinks and a spam score of 21. *)
Theorem complexity_at_most_max (data : pyval) (c : float) :
  _calculate_complexity data = Ok c ->
  F64.leb c max_complexity = true
  /\ F64.leb max_complexity lit_0_77 = true
  /\ _calculate_complexity worst_case_input = Ok max_complexity.
Proof.
  intros H.
  split; [|split; vm_compute; reflexivity].
  destruct (complexity_shape data c H) as (t & s & b & Ht & Hs & Hb & ->).
  assert (all_scores_at_most max_complexity = true) as A
    by (vm_compute; reflexivity).
  unfold all_scores_at_most in A.
  rewrite forallb_forall in A. specialize (A t Ht). cbv beta in A.
  rewrite forallb_forall in A. specialize (A s Hs). cbv beta in A.
  rewrite forallb_forall in A. exact (A b Hb).
Qed.

Lemma complexity_at_most_max_witness :
  exists c, _calculate_complexity only_total_links_5 = Ok c
            /\ F64.leb c max_complexity = true.
Proof.
  exists F64.lit_0_15. split; [vm_compute; reflexivity|].
  apply (complexity_at_most_max only_total_links_5 F64.lit_0_15).
  vm_compute. reflexivity.
Defined.

(** X8. The backlink sub-score as a table.  With integer metrics
    [total_links = t] and [spam_score = s] (each 0 when absent, and
    the whole [metrics] mapping empty when absent) it is 0.8 or 0.45
    for [t < 10], 0.6 or 0.25 for [t > 50], and 0.35 or 0 in between,
    the first of each pair when [s > 20]. *)
Theorem backlink_score_table
    (moz_data : pyval) (m : list (string * pyval)) (t s : Z) :
  py_get moz_data "metrics" empty_dict = Ok (PDict m) ->
  py_get (PDict m) "total_links" (PInt 0) = Ok (PInt t) ->
  py_get (PDict m) "spam_score" (PInt 0) = Ok (PInt s) ->
  _calculate_backlink_complexity moz_data = Ok (backlink_table t s).
Proof.
  intros Hm Ht Hs.
  unfold _calculate_backlink_complexity, total_links_factor, spam_score_factor, acc0.
  rewrite Hm. cbn [bind]. rewrite Ht, Hs. cbn [bind py_lt_int py_gt_int].
  unfold backlink_table.
  destruct (t <? 10); cbn [bind];
    [|destruct (50 <? t); cbn [bind]];
    destruct (20 <? s); vm_compute; reflexivity.
Qed.

Lemma backlink_score_table_witness :
  _calculate_backlink_complexity empty_dict = Ok F64.lit_0_45
  /\ _calculate_backlink_complexity
       (PDict [("metrics",
                PDict [("total_links", PInt 60); ("spam_score", PInt 30)])])
     = Ok F64.lit_0_6.
Proof.
  split.
  - apply (backlink_score_table empty_dict [] 0 0); reflexivity.
  - apply (backlink_score_table _
             [("total_links", PInt 60); ("spam_score", PInt 30)] 60 30);
      reflexivity.
Defined.

(** X9. Missing backlink data is not scored as zero: when the input
    has no [moz_data] section the absent [total_links] counts as 0
    links, the backlink sub-score is 0.45, and every returned overall
    score is at least 0.15. *)
Theorem missing_backlinks_score (d : list (string * pyval)) (c : float) :
  assoc "moz_data" d = None ->
  _calculate_complexity (PDict d) = Ok c ->
  (let* moz_data := py_get (PDict d) "moz_data" empty_dict in
   _calculate_backlink_complexity moz_data) = Ok F64.lit_0_45
  /\ F64.leb F64.lit_0_15 c = true.
Proof.
  intros Hmoz H.
  assert (py_get (PDict d) "moz_data" empty_dict = Ok empty_dict) as Hget
    by (cbn [py_get]; rewrite Hmoz; reflexivity).
  split; [rewrite Hget; reflexivity|].
  unfold _calculate_complexity in H. returned.
  repeat match goal with
  | H : _calculate_technical_complexity _ = Ok _ |- _ =>
      apply technical_shape in H; destruct H as (? & ? & ? & ? & ? & ? & ->)
  | H : _calculate_content_complexity _ = Ok _ |- _ =>
      apply content_shape in H; destruct H as (? & ? & ? & ? & ? & ->)
  end.
  match goal with
  | E : py_get (PDict d) "moz_data" empty_dict = Ok ?m,
    B : _calculate_backlink_complexity ?m = Ok ?b |- _ =>
      assert (m = empty_dict) as -> by congruence;
      assert (b = F64.lit_0_45) as ->
        by (change (Ok F64.lit_0_45 = Ok b) in B; congruence)
  end.
  assert (all_scores_without_backlinks_at_least F64.lit_0_15 = true) as A
    by (vm_compute; reflexivity).
  unfold all_scores_without_backlinks_at_least in A.
  match goal with
  | H : average [?t; ?s; _] = Ok _ |- _ =>
      rewrite forallb_forall in A;
      specialize (A t (technical_value_in _ _ _ _ _ _)); cbv beta in A;
      rewrite forallb_forall in A;
      specialize (A s (content_value_in _ _ _ _ _)); cbv beta in A;
      unfold complexity_of in A; rewrite H in A
  end.
  exact A.
Qed.

Lemma missing_backlinks_score_witness :
  assoc "moz_data" [] = None
  /\ _calculate_complexity (PDict []) = Ok F64.lit_0_15
  /\ F64.leb F64.lit_0_15 F64.lit_0_15 = true.
Proof.
  split; [reflexivity|]. split; [vm_compute; reflexivity|].
  apply (missing_backlinks_score [] F64.lit_0_15); [reflexivity|].
  vm_compute. reflexivity.
Defined.

(** X10. The content sub-score as a table, for an integer word count
    [w] (0 when absent).  Without a paragraph count it is 0.8 for
    [w > 1000], 0.6 for [w < 300] and 0 otherwise.  With an integer
    paragraph count [p] the divisor becomes 2: 0.75 or 0.4 for
    [w > 1000], 0.6499999999999999 or 0.3 for [w < 300], 0.35 or 0
    otherwise, the first of each pair when [p > 10]. *)
Theorem content_score_table
    (d c : list (string * pyval)) (w : Z) :
  assoc "content" d = Some (PDict c) ->
  py_get (PDict c) "word_count" (PInt 0) = Ok (PInt w) ->
  (assoc "paragraphs" c = None ->
   _calculate_content_complexity (PDict d) = Ok (words_table w))
  /\ (forall p, assoc "paragraphs" c = Some (PInt p) ->
      _calculate_content_complexity (PDict d) = Ok (content_table w p)).
Proof.
  intros Hc Hw.
  assert (forall a,
            content_length_factor (PDict d) a =
            Ok (if 1000 <? w then F64.add (fst a) F64.lit_0_8
                else if w <? 300 then F64.add (fst a) F64.lit_0_6
                else fst a, snd a + 1)) as Hlen.
  { intros [score factors]. unfold content_length_factor.
    cbn [py_contains py_getitem bind]. rewrite Hc. cbn [bind].
    rewrite Hw. cbn [py_gt_int py_lt_int bind fst snd].
    destruct (1000 <? w); [reflexivity|]. cbn [bind].
    destruct (w <? 300); reflexivity. }
  unfold _calculate_content_complexity. rewrite Hlen. cbn [bind].
  unfold content_structure_factor. cbn [py_get py_getitem py_contains bind].
  rewrite Hc. cbn [py_contains bind].
  split.
  - intros Hp. rewrite Hp. unfold words_table.
    destruct (1000 <? w); [|destruct (w <? 300)]; vm_compute; reflexivity.
  - intros p Hp. rewrite Hp. cbn [bind py_getitem]. rewrite Hp.
    cbn [bind py_gt_int]. unfold content_table.
    destruct (1000 <? w); [|destruct (w <? 300)];
      destruct (10 <? p); vm_compute; reflexivity.
Qed.

Lemma content_score_table_witness :
  _calculate_content_complexity (content_with_words 1500) = Ok F64.lit_0_8
  /\ _calculate_content_complexity
       (PDict [("content",
                PDict [("word_count", PInt 1500); ("paragraphs", PInt 4)])])
     = Ok F64.lit_0_4.
Proof.
  split.
  - destruct (content_score_table
                [("content", PDict [("word_count", PInt 1500)])]
                [("word_count", PInt 1500)] 1500 eq_refl eq_refl) as [H _].
    apply H. reflexivity.
  - destruct (content_score_table
                [("content",
                  PDict [("word_count", PInt 1500); ("paragraphs", PInt 4)])]
                [("word_count", PInt 1500); ("paragraphs", PInt 4)]
                1500 eq_refl eq_refl) as [_ H].
    apply (H 4). reflexivity.
Defined.

Lemma py_sum_from_sum_ints (vs : list pyval) :
  forallb is_int vs = true ->
  forall a, py_sum_from (PInt a) vs = Ok (PInt (a + sum_ints vs)).
Proof.
  induction vs as [|v vs IH]; intros H a.
  - cbn. f_equal. f_equal. lia.
  - cbn [forallb] in H. apply andb_true_iff in H. destruct H as [Hv Hvs].
    destruct v; try discriminate Hv.
    cbn [py_sum_from py_add bind sum_ints fold_right]. fold (sum_ints vs).
    rewrite (IH Hvs). f_equal. f_equal. lia.
Qed.

(** X11. With a meta-tags section whose title is a string and a
    headings section of integer counts both present, the technical
    sub-score is 0 exactly when the page has none of the four defects
    (no meta description, a title longer than 60 characters, a number
    of [h1] other than 1, more than 15 headings in all); with any
    defect it is at least 0.125. *)
Theorem technical_score_zero_iff_clean
    (d m h : list (string * pyval)) (title : string) :
  assoc "meta_tags" d = Some (PDict m) ->
  assoc "headings" d = Some (PDict h) ->
  py_get (PDict m) "title" (PStr "") = Ok (PStr title) ->
  forallb is_int (map snd h) = true ->
  let defect :=
    missing_description m
    || (60 <? Z.of_nat (String.length title))
    || py_ne_int (match assoc "h1" h with Some v => v | None => PInt 0 end) 1
    || (15 <? sum_ints (map snd h)) in
  exists x, _calculate_technical_complexity (PDict d) = Ok x
            /\ F64.eqb x F64.zero = negb defect
            /\ (defect = true -> F64.leb lit_0_125 x = true).
Proof.
  intros Hm Hh Ht Hints defect.
  unfold _calculate_technical_complexity, meta_tags_factor, headings_factor, acc0.
  cbn [py_contains py_getitem bind]. rewrite Hm, Hh. cbn [bind].
  rewrite Ht. cbn [py_get py_len py_values bind].
  unfold py_sum. rewrite (py_sum_from_sum_ints _ Hints). cbn [bind py_gt_int].
  rewrite Z.add_0_l.
  subst defect. unfold missing_description.
  destruct (negb (py_truthy _)),
           (60 <? Z.of_nat (String.length title)),
           (py_ne_int _ 1),
           (15 <? sum_ints (map snd h));
    eexists; (split; [reflexivity|]); split;
    solve [vm_compute; reflexivity | intros _; vm_compute; reflexivity
          | intros H; discriminate H].
Qed.

Lemma technical_score_zero_iff_clean_witness :
  exists x,
    _calculate_technical_complexity
      (PDict [("meta_tags",
               PDict [("meta_description", PStr "a page"); ("title", PStr "Home")]);
              ("headings", PDict [("h1", PInt 1); ("h2", PInt 3)])]) = Ok x
    /\ F64.eqb x F64.zero = true.
Proof.
  destruct (technical_score_zero_iff_clean
              [("meta_tags",
                PDict [("meta_description", PStr "a page"); ("title", PStr "Home")]);
               ("headings", PDict [("h1", PInt 1); ("h2", PInt 3)])]
              [("meta_description", PStr "a page"); ("title", PStr "Home")]
              [("h1", PInt 1); ("h2", PInt 3)] "Home"
              eq_refl eq_refl eq_refl eq_refl) as (x & Hx & Hz & _).
  exists x. split; [exact Hx | exact Hz].
Defined.

(** X12. An input that is not a mapping is an error, not a zero score:
    [_calculate_complexity] raises [AttributeError], and so does
    [should_use_llm] while quota is left, whereas with the quota
    exhausted the same input is refused without being looked at. *)
Theorem non_mapping_input_raises
    (self : CostOptimizer) (today : date) (data : pyval) :
  is_dict data = false ->
  _calculate_complexity data = Raise AttributeError
  /\ (requests (get_usage_stats self today) < max_daily_requests self ->
      should_use_llm self today data = Raise AttributeError)
  /\ (max_daily_requests self <= requests (get_usage_stats self today) ->
      should_use_llm self today data = Ok false).
Proof.
  intros Hd.
  assert (_calculate_complexity data = Raise AttributeError) as Hc
    by (destruct data; try reflexivity; discriminate Hd).
  split; [exact Hc|]. split.
  - intros Hq. unfold should_use_llm. rewrite check_daily_quota_stats.
    apply Z.ltb_lt in Hq. rewrite Hq, Hc. reflexivity.
  - apply should_use_llm_quota_exhausted.
Qed.

Lemma non_mapping_input_raises_witness :
  is_dict (PList []) = false
  /\ should_use_llm (__init__ None 0) 0 (PList []) = Raise AttributeError.
Proof.
  split; [reflexivity|].
  destruct (non_mapping_input_raises (__init__ None 0) 0 (PList []) eq_refl)
    as (_ & H & _).
  apply H. reflexivity.
Defined.

(** X13. Metrics are not coerced.  A [word_count] or a [total_links]
    that is not an [int], a [bool] or a [float] ([None], a string, a
    list, a mapping) makes its sub-score raise [TypeError]. *)
Theorem non_numeric_metric_raises (v : pyval) :
  py_is_number v = false ->
  (forall d c,
     assoc "content" d = Some (PDict c) ->
     assoc "word_count" c = Some v ->
     _calculate_content_complexity (PDict d) = Raise TypeError)
  /\ (forall d m,
        assoc "metrics" d = Some (PDict m) ->
        assoc "total_links" m = Some v ->
        _calculate_backlink_complexity (PDict d) = Raise TypeError).
Proof.
  intros Hv. split.
  - intros d c Hc Hw.
    unfold _calculate_content_complexity, content_length_factor, acc0.
    cbn [py_contains py_getitem py_get bind]. rewrite Hc. cbn [py_get bind].
    rewrite Hw. destruct v; try discriminate Hv; reflexivity.
  - intros d m Hm Ht.
    unfold _calculate_backlink_complexity, total_links_factor, acc0.
    cbn [py_get bind]. rewrite Hm. cbn [py_get bind].
    rewrite Ht. destruct v; try discriminate Hv; reflexivity.
Qed.

Lemma non_numeric_metric_raises_witness :
  _calculate_content_complexity
    (PDict [("content", PDict [("word_count", PStr "1200")])])
  = Raise TypeError.
Proof.
  destruct (non_numeric_metric_raises (PStr "1200") eq_refl) as [H _].
  apply (H [("content", PDict [("word_count", PStr "1200")])]
           [("word_count", PStr "1200")]); reflexivity.
Defined.

(** ** The prompt budgeter *)

Lemma prefix_length (s1 s2 : string) :
  String.prefix s1 s2 = true -> (String.length s1 <= String.length s2)%nat.
Proof.
  revert s2. induction s1 as [|c s1 IH]; intros s2 H; [cbn; lia|].
  destruct s2 as [|c' s2]; [discriminate H|].
  cbn [String.prefix] in H. destruct (ascii_dec c c'); [|discriminate H].
  cbn [String.length]. apply IH in H. lia.
Qed.

(** X14. [optimize_prompt] only ever cuts at the end: whatever the
    budget and the buffer (negative, zero, above 1), a returned string
    is a prefix of the prompt, so it is never longer and no character
    is changed. *)
Theorem optimize_prompt_returns_prefix
    (self : CostOptimizer) (prompt : string) (max_tokens : Z) (r : string) :
  optimize_prompt self prompt max_tokens = Ok r ->
  String.prefix r prompt = true
  /\ (String.length r <= String.length prompt)%nat.
Proof.
  intros H.
  assert (String.prefix r prompt = true) as Hp.
  { unfold optimize_prompt in H.
    destruct (estimate_tokens prompt <=? max_tokens).
    - injection H as <-. apply prefix_refl.
    - destruct (truncate_length self prompt max_tokens) as [n|e];
        cbn [bind] in H; [|discriminate H].
      injection H as <-. apply slice_to_prefix. }
  split; [exact Hp | apply prefix_length, Hp].
Qed.

Lemma optimize_prompt_returns_prefix_witness :
  optimize_prompt (__init__ None 0) "hello world, this is a prompt" (-1)
  = Ok "hello world, this is a pro"
  /\ String.prefix "hello world, this is a pro" "hello world, this is a prompt"
     = true.
Proof.
  split; [vm_compute; reflexivity|].
  apply (optimize_prompt_returns_prefix (__init__ None 0)
           "hello world, this is a prompt" (-1)).
  vm_compute. reflexivity.
Defined.

(** X15. A negative budget on a prompt of fewer than four characters
    divides by zero: the estimate 0 exceeds [max_tokens], and the ratio
    [max_tokens / 0] raises [ZeroDivisionError]. *)
Theorem optimize_prompt_zero_division
    (self : CostOptimizer) (prompt : string) (max_tokens : Z) :
  (String.length prompt < 4)%nat ->
  max_tokens < 0 ->
  optimize_prompt self prompt max_tokens = Raise ZeroDivisionError.
Proof.
  intros Hlen Hmax.
  assert (estimate_tokens prompt = 0) as Hest
    by (unfold estimate_tokens; apply Z.div_small; lia).
  unfold optimize_prompt, truncate_length. rewrite Hest.
  assert ((0 <=? max_tokens) = false) as -> by (apply Z.leb_gt; exact Hmax).
  reflexivity.
Qed.

Lemma optimize_prompt_zero_division_witness :
  optimize_prompt (__init__ None 0) "" (-1) = Raise ZeroDivisionError.
Proof.
  apply (optimize_prompt_zero_division (__init__ None 0) "" (-1)); cbn; lia.
Defined.

Lemma IZR_below_overflow (z : Z) :
  0 <= z < 2 ^ 63 -> (IZR z * (1 + eps) + eta < bpow 972)%R.
Proof.
  intros Hz. pose proof eps_small as Hu. pose proof eta_small as Ht.
  pose proof big_bound as Hbig.
  assert (0 <= IZR z)%R by (apply IZR_le; lia).
  assert (IZR z <= IZR (2 ^ 63))%R by (apply IZR_le; lia).
  assert (/ IZR (2 ^ 105) <= 1)%R.
  { rewrite <- Rinv_1. apply Rinv_le_contravar; [lra|]. apply IZR_le. lia. }
  assert (IZR z * (1 + eps) <= IZR (2 ^ 63) * 2)%R
    by (apply Rmult_le_compat; lra).
  assert (IZR (2 ^ 63) * 2 + 1 < bpow 972)%R; [|lra].
  rewrite <- (mult_IZR _ 2), <- plus_IZR.
  eapply Rlt_le_trans; [|apply (bpow_le 65 972); lia].
  rewrite bpow_IZR by lia. apply IZR_lt. reflexivity.
Qed.

(** X16. A budget of zero tokens empties the prompt: for a prompt of
    at least four characters (and fewer than [2^63]) and any finite
    [token_buffer], [optimize_prompt] returns the empty string. *)
Theorem optimize_prompt_zero_budget (self : CostOptimizer) (prompt : string) :
  (4 <= String.length prompt)%nat ->
  Z.of_nat (String.length prompt) < 2 ^ 63 ->
  F64.is_finite (token_buffer self) = true ->
  optimize_prompt self prompt 0 = Ok EmptyString.
Proof.
  intros Hlen Hmax Hbuf.
  assert (0 < estimate_tokens prompt) as Hest.
  { unfold estimate_tokens. apply Z.div_str_pos. lia. }
  unfold optimize_prompt, truncate_length.
  assert ((estimate_tokens prompt <=? 0) = false) as ->
    by (apply Z.leb_gt; exact Hest).
  assert (int_true_div 0 (estimate_tokens prompt) = Ok (S754_zero false)) as ->.
  { unfold int_true_div.
    assert ((estimate_tokens prompt =? 0) = false) as ->
      by (apply Z.eqb_neq; lia).
    assert ((estimate_tokens prompt <? 0) = false) as ->
      by (apply Z.ltb_ge; lia).
    reflexivity. }
  cbn [bind].
  destruct (of_Z_bound (Z.of_nat (String.length prompt)) ltac:(lia))
    as [Hlf _]; [apply IZR_below_overflow; lia|].
  unfold float_of_int. rewrite (nonneg_is_finite _ Hlf). cbn [bind].
  assert (exists s, F64.mul (F64.of_Z (Z.of_nat (String.length prompt)))
                      (S754_zero false) = S754_zero s) as [s ->].
  { destruct (F64.of_Z _) as [s|s| |s m e]; try discriminate Hlf;
      eexists; reflexivity. }
  assert (exists s', F64.mul (S754_zero s) (token_buffer self) = S754_zero s')
    as [s' ->].
  { destruct (token_buffer self) as [b|b| |b m e]; try discriminate Hbuf;
      eexists; reflexivity. }
  cbn [int_of_float bind]. unfold slice_to.
  assert ((0 <? 0) = false) as -> by reflexivity.
  rewrite Z.min_l by lia. destruct prompt; reflexivity.
Qed.

Lemma optimize_prompt_zero_budget_witness :
  optimize_prompt (__init__ None 0) "some prompt" 0 = Ok EmptyString.
Proof.
  apply (optimize_prompt_zero_budget (__init__ None 0) "some prompt");
    [cbn; lia | reflexivity | reflexivity].
Defined.

(** X17. Truncating is idempotent where the budget is honoured: for a
    prompt shorter than [2^48] characters, a non-negative budget and a
    [token_buffer] in [(0, 1]], the string [optimize_prompt] returns is
    returned unchanged by a second call with the same budget. *)
Theorem optimize_prompt_idempotent
    (self : CostOptimizer) (prompt : string) (max_tokens : Z) :
  Z.of_nat (String.length prompt) < 2 ^ 48 ->
  0 <= max_tokens ->
  F64.valid (token_buffer self) = true ->
  F64.ltb F64.zero (token_buffer self) = true ->
  F64.leb (token_buffer self) F64.one = true ->
  exists r, optimize_prompt self prompt max_tokens = Ok r
            /\ optimize_prompt self r max_tokens = Ok r.
Proof.
  intros Hlen Hmax Hvalid Hpos Hle1. unfold optimize_prompt at 1.
  destruct (Z.leb_spec (estimate_tokens prompt) max_tokens) as [Hfit|Hover].
  - exists prompt. split; [reflexivity|]. unfold optimize_prompt.
    apply Z.leb_le in Hfit. rewrite Hfit. reflexivity.
  - destruct (truncate_length_bound self prompt max_tokens Hlen
                (conj Hmax Hover) Hvalid Hpos Hle1) as (n & -> & Hn).
    cbn [bind]. eexists. split; [reflexivity|].
    unfold optimize_prompt.
    pose proof (estimate_tokens_slice prompt n max_tokens Hn) as Hfit.
    apply Z.leb_le in Hfit. rewrite Hfit. reflexivity.
Qed.

Lemma optimize_prompt_idempotent_witness :
  exists r,
    optimize_prompt (__init__ None 0) (prompt_of_length 1000) 100 = Ok r
    /\ optimize_prompt (__init__ None 0) r 100 = Ok r.
Proof.
  apply (optimize_prompt_idempotent (__init__ None 0) (prompt_of_length 1000) 100).
  - rewrite prompt_of_length_length. reflexivity.
  - lia.
  - reflexivity.
  - reflexivity.
  - reflexivity.
Defined.

(** X18. On the same domain (prompt shorter than [2^48] characters,
    non-negative budget, [token_buffer] in [(0, 1]]) the prompt comes
    back unchanged exactly when its estimate is within the budget; an
    over-budget prompt always loses at least one character. *)
Theorem optimize_prompt_unchanged_iff
    (self : CostOptimizer) (prompt : string) (max_tokens : Z) (r : string) :
  Z.of_nat (String.length prompt) < 2 ^ 48 ->
  0 <= max_tokens ->
  F64.valid (token_buffer self) = true ->
  F64.ltb F64.zero (token_buffer self) = true ->
  F64.leb (token_buffer self) F64.one = true ->
  optimize_prompt self prompt max_tokens = Ok r ->
  (r = prompt <-> estimate_tokens prompt <= max_tokens)
  /\ (max_tokens < estimate_tokens prompt ->
      (String.length r < String.length prompt)%nat).
Proof.
  intros Hlen Hmax Hvalid Hpos Hle1 H. unfold optimize_prompt in H.
  destruct (Z.leb_spec (estimate_tokens prompt) max_tokens) as [Hfit|Hover].
  - injection H as <-. split; [tauto | lia].
  - destruct (truncate_length_bound self prompt max_tokens Hlen
                (conj Hmax Hover) Hvalid Hpos Hle1) as (n & Hn & Hb).
    rewrite Hn in H. cbn [bind] in H. injection H as <-.
    assert (String.length (slice_to prompt n) < String.length prompt)%nat
      as Hshort.
    { pose proof (slice_to_length prompt n ltac:(lia)) as Hl.
      unfold estimate_tokens in Hover.
      pose proof (Z.div_mod (Z.of_nat (String.length prompt)) 4 ltac:(lia)).
      pose proof (Z.mod_pos_bound (Z.of_nat (String.length prompt)) 4
                    ltac:(lia)).
      lia. }
    split; [|intros _; exact Hshort].
    split; [|lia]. intros Heq. rewrite Heq in Hshort. lia.
Qed.

Lemma optimize_prompt_unchanged_iff_witness :
  (optimize_prompt (__init__ None 0) "a prompt of some words" 4
   = Ok "a prompt of som")
  /\ ("a prompt of som" = "a prompt of some words"
      <-> estimate_tokens "a prompt of some words" <= 4)
  /\ (4 < estimate_tokens "a prompt of some words" ->
      (String.length "a prompt of som"
       < String.length "a prompt of some words")%nat).
Proof.
  split; [vm_compute; reflexivity|].
  apply (optimize_prompt_unchanged_iff (__init__ None 0)
           "a prompt of some words" 4 "a prompt of som").
  - reflexivity.
  - lia.
  - reflexivity.
  - reflexivity.
  - reflexivity.
  - vm_compute. reflexivity.
Defined.

Lemma append_length (s1 s2 : string) :
  String.length (String.append s1 s2)
  = (String.length s1 + String.length s2)%nat.
Proof.
  induction s1 as [|c s1 IH]; [reflexivity|].
  simpl. f_equal. exact IH.
Qed.

(** X19. [estimate_tokens] is a floor of a quarter of the length, so
    estimating two texts separately never exceeds the estimate of their
    concatenation and falls short of it by at most one token. *)
Theorem estimate_tokens_append (s1 s2 : string) :
  estimate_tokens s1 + estimate_tokens s2 <= estimate_tokens (String.append s1 s2)
  /\ estimate_tokens (String.append s1 s2) <= estimate_tokens s1 + estimate_tokens s2 + 1.
Proof.
  unfold estimate_tokens. rewrite append_length, Nat2Z.inj_add.
  set (a := Z.of_nat (String.length s1)).
  set (b := Z.of_nat (String.length s2)).
  pose proof (Z.div_mod a 4 ltac:(lia)).
  pose proof (Z.mod_pos_bound a 4 ltac:(lia)).
  pose proof (Z.div_mod b 4 ltac:(lia)).
  pose proof (Z.mod_pos_bound b 4 ltac:(lia)).
  pose proof (Z.div_mod (a + b) 4 ltac:(lia)).
  pose proof (Z.mod_pos_bound (a + b) 4 ltac:(lia)).
  lia.
Qed.

(** X20. A [token_buffer] configured as NaN makes every over-budget
    call fail: for a non-negative budget below the estimate of a prompt
    shorter than [2^53] characters, [int(nan)] raises [ValueError]. *)
Theorem optimize_prompt_nan_buffer
    (self : CostOptimizer) (prompt : string) (max_tokens : Z) :
  token_buffer self = S754_nan ->
  Z.of_nat (String.length prompt) < 2 ^ 53 ->
  0 <= max_tokens < estimate_tokens prompt ->
  optimize_prompt self prompt max_tokens = Raise ValueError.
Proof.
  intros Hbuf Hlen Hmax. unfold optimize_prompt, truncate_length.
  assert ((estimate_tokens prompt <=? max_tokens) = false) as ->
    by (apply Z.leb_gt; lia).
  assert (estimate_tokens prompt < 2 ^ 53) as Hest.
  { unfold estimate_tokens.
    pose proof (Z.div_mod (Z.of_nat (String.length prompt)) 4 ltac:(lia)).
    pose proof (Z.mod_pos_bound (Z.of_nat (String.length prompt)) 4
                  ltac:(lia)).
    lia. }
  destruct (int_true_div_bound max_tokens (estimate_tokens prompt)
              ltac:(lia) ltac:(lia) Hest) as (ratio & -> & _ & _).
  cbn [bind].
  destruct (of_Z_bound (Z.of_nat (String.length prompt)) ltac:(lia))
    as [Hlf _]; [apply IZR_below_overflow; lia|].
  unfold float_of_int. rewrite (nonneg_is_finite _ Hlf). cbn [bind].
  rewrite Hbuf.
  assert (forall x, F64.mul x S754_nan = S754_nan) as ->
    by (intros [s|s| |s m e]; reflexivity).
  reflexivity.
Qed.

Lemma optimize_prompt_nan_buffer_witness :
  optimize_prompt
    (__init__ (Some {| cfg_max_requests_per_day := None;
                       cfg_token_buffer := Some S754_nan;
                       cfg_complexity_threshold := None |}) 0)
    "a prompt of some words" 4
  = Raise ValueError.
Proof.
  apply (optimize_prompt_nan_buffer _ "a prompt of some words" 4);
    [reflexivity | reflexivity | split; [lia | reflexivity]].
Defined.
